(** * MaterialsIO: the electron-microscopy metadata parser

    A shallow embedding of [materials_io/electron_microscopy.py]
    (class [ElectronMicroscopyParser]) and of the helpers it imports from
    [materials_io.utils], followed by the properties of the parser.  The
    module [materials_io.utils] is not among the sources at hand: its
    helpers are modelled from the specification, each one marked so.

    Conventions of the embedding.
    - A Python object that can occur in a HyperSpy metadata dictionary is a
      [value]: [None], [bool], [int] (as [Z]), [float] (an IEEE 754 binary64
      number, the kernel's primitive [float]), [str], [list] and [dict].
    - A [dict] is an association list in insertion order with string keys:
      [dict.values()] and [dict.items()] enumerate in that order.
    - A [str] is its UTF-8 byte string.
    - A Python call either returns, or raises, or leaves the fragment of
      Python that is modelled here ([Unmodelled]: the repr of a float or of
      a container, the parsing of numerals with exponents, digit separators
      or non-ASCII digits, integers beyond 2^53 converted to float).  An
      [Unmodelled] outcome propagates like an exception that no handler
      catches, so every statement about an [Ok] or [Raise] outcome is a
      statement about a run of the Python code.
    - The attributes of [self] ([em], [image], [meta], [raw_meta],
      [inst_data], [tecnai_info]) are threaded explicitly. *)

From Stdlib Require Import List String Ascii ZArith Bool Floats Uint63.
Import ListNotations.
Local Open Scope string_scope.
Local Open Scope list_scope.

Set Warnings "-register-all".

(** ** Python values and the outcome of a call *)

Inductive value : Type :=
| VNone
| VBool (b : bool)
| VInt (z : Z)
| VFloat (f : float)
| VStr (s : string)
| VList (l : list value)
| VDict (d : list (string * value)).

Definition dict : Type := list (string * value).

Inductive exn : Type :=
| KeyError | TypeError | ValueError | AttributeError | OverflowError.

Inductive result (A : Type) : Type :=
| Ok (a : A)
| Raise (e : exn)
| Unmodelled.

Arguments Ok {A} a.
Arguments Raise {A} e.
Arguments Unmodelled {A}.

Definition bind {A B : Type} (m : result A) (f : A -> result B) : result B :=
  match m with
  | Ok a => f a
  | Raise e => Raise e
  | Unmodelled => Unmodelled
  end.

Notation "x <- m ;; k" := (bind m (fun x => k))
  (at level 61, m at next level, right associativity).

(** [try: body  except Exception: handler]. *)
Definition try_except {A : Type} (body handler : result A) : result A :=
  match body with
  | Ok a => Ok a
  | Raise _ => handler
  | Unmodelled => Unmodelled
  end.

Fixpoint mapM {A B : Type} (f : A -> result B) (l : list A) : result (list B) :=
  match l with
  | [] => Ok []
  | a :: l' => b <- f a ;; bs <- mapM f l' ;; Ok (b :: bs)
  end.

(** ** Dictionaries *)

Fixpoint dict_get (k : string) (d : dict) : option value :=
  match d with
  | [] => None
  | (k', v) :: d' => if String.eqb k k' then Some v else dict_get k d'
  end.

(** [d[k] = v]: an existing key keeps its position, a new key goes last. *)
Fixpoint dict_set (k : string) (v : value) (d : dict) : dict :=
  match d with
  | [] => [(k, v)]
  | (k', v') :: d' =>
      if String.eqb k k' then (k', v) :: d' else (k', v') :: dict_set k v d'
  end.

(** [d.pop(k)] for a key that is present (a dictionary has a key once). *)
Definition dict_pop (k : string) (d : dict) : dict :=
  filter (fun kv => negb (String.eqb k (fst kv))) d.

Definition keys (d : dict) : list string := map fst d.

(** ** Strings *)

Fixpoint starts_with (p s : string) : bool :=
  match p, s with
  | EmptyString, _ => true
  | String a p', String b s' => Ascii.eqb a b && starts_with p' s'
  | String _ _, EmptyString => false
  end.

Fixpoint drop (n : nat) (s : string) : string :=
  match n, s with
  | O, _ => s
  | S n', String _ s' => drop n' s'
  | S _, EmptyString => EmptyString
  end.

Fixpoint take (n : nat) (s : string) : string :=
  match n, s with
  | O, _ => EmptyString
  | S n', String c s' => String c (take n' s')
  | S _, EmptyString => EmptyString
  end.

(** [p in s] for strings. *)
Fixpoint contains (p s : string) : bool :=
  starts_with p s ||
  match s with
  | EmptyString => false
  | String _ s' => contains p s'
  end.

Fixpoint rev_string (acc s : string) : string :=
  match s with
  | EmptyString => acc
  | String c s' => rev_string (String c acc) s'
  end.

(** [s.split(sep)] for a non-empty separator: [cur] holds the current
    field reversed, [skip] the bytes of a separator still to be passed. *)
Fixpoint split_go (sep s : string) (skip : nat) (cur : string) : list string :=
  match s with
  | EmptyString => [rev_string EmptyString cur]
  | String c s' =>
      match skip with
      | S n => split_go sep s' n cur
      | O =>
          if starts_with sep s
          then rev_string EmptyString cur
                 :: split_go sep s' (String.length sep - 1) EmptyString
          else split_go sep s' 0 (String c cur)
      end
  end.

Definition split (sep s : string) : list string := split_go sep s 0 EmptyString.

(** [s.replace(old, new)] for a non-empty [old]. *)
Fixpoint replace_go (old new s : string) (skip : nat) : string :=
  match s with
  | EmptyString => EmptyString
  | String c s' =>
      match skip with
      | S n => replace_go old new s' n
      | O =>
          if starts_with old s
          then new ++ replace_go old new s' (String.length old - 1)
          else String c (replace_go old new s' 0)
      end
  end.

Definition replace (old new s : string) : string := replace_go old new s 0.

Definition is_digit (c : ascii) : bool :=
  let n := nat_of_ascii c in (48 <=? n)%nat && (n <=? 57)%nat.

(** The ASCII white space that [int] and [float] strip. *)
Definition is_space (c : ascii) : bool :=
  let n := nat_of_ascii c in
  (n =? 32)%nat || ((9 <=? n)%nat && (n <=? 13)%nat).

Fixpoint forall_chars (p : ascii -> bool) (s : string) : bool :=
  match s with
  | EmptyString => true
  | String c s' => p c && forall_chars p s'
  end.

Definition is_ascii (c : ascii) : bool := (nat_of_ascii c <? 128)%nat.

Fixpoint lstrip (s : string) : string :=
  match s with
  | String c s' => if is_space c then lstrip s' else s
  | EmptyString => EmptyString
  end.

Definition strip (s : string) : string :=
  rev_string EmptyString (lstrip (rev_string EmptyString (lstrip s))).

Fixpoint digits_value (acc : Z) (s : string) : Z :=
  match s with
  | EmptyString => acc
  | String c s' => digits_value (10 * acc + Z.of_nat (nat_of_ascii c - 48)) s'
  end.

Fixpoint span_digits (s : string) : string * string :=
  match s with
  | String c s' =>
      if is_digit c
      then let (d, r) := span_digits s' in (String c d, r)
      else (EmptyString, s)
  | EmptyString => (EmptyString, EmptyString)
  end.

(** An optional sign: [(negative, rest)]. *)
Definition split_sign (s : string) : bool * string :=
  match s with
  | String "-" s' => (true, s')
  | String "+" s' => (false, s')
  | _ => (false, s)
  end.

Fixpoint string_of_digits (fuel : nat) (n : Z) (acc : string) : string :=
  match fuel with
  | O => acc
  | S fuel' =>
      let acc' := String (ascii_of_nat (48 + Z.to_nat (n mod 10))) acc in
      if (n <? 10)%Z then acc' else string_of_digits fuel' (n / 10) acc'
  end.

(** The decimal numeral of an integer ([str(int)]). *)
Definition string_of_Z (z : Z) : string :=
  let a := Z.abs z in
  let ds := string_of_digits (S (Z.to_nat (Z.log2 a))) a EmptyString in
  if (z <? 0)%Z then String "-" ds else ds.

(** ** Builtins: [int], [float], [str], [bool], [list] *)

Definition two53 : Z := 9007199254740992.

(** A non-negative integer below 2^53 is a float exactly. *)
Definition float_of_small_Z (z : Z) : float := PrimFloat.of_uint63 (Uint63.of_Z z).

Definition float_of_Z (z : Z) : result float :=
  if (Z.abs z <=? two53)%Z
  then Ok (if (z <? 0)%Z then PrimFloat.opp (float_of_small_Z (- z))
           else float_of_small_Z z)
  else Unmodelled.

(** [int(f)]: truncation towards zero. *)
Definition Z_of_float (f : float) : result Z :=
  match Prim2SF f with
  | S754_zero _ => Ok 0%Z
  | S754_infinity _ => Raise OverflowError
  | S754_nan => Raise ValueError
  | S754_finite neg m e =>
      let a := Z.shiftl (Zpos m) e in
      Ok (if neg then (- a)%Z else a)
  end.

(** Characters of a numeral that this model does not read: bytes outside
    ASCII, control characters that are not white space, the digit separator. *)
Definition int_char_unmodelled (c : ascii) : bool :=
  let n := nat_of_ascii c in
  negb (is_ascii c) || ((n <? 32)%nat && negb (is_space c)) || Ascii.eqb c "_".

(** For [float], also the letters of an exponent and of [inf], [infinity],
    [nan]. *)
Definition float_char_unmodelled (c : ascii) : bool :=
  int_char_unmodelled c || contains (String c EmptyString) "eEiInNfFaAtTyY".

Definition int_of_string (s : string) : result Z :=
  if negb (forall_chars (fun c => negb (int_char_unmodelled c)) s) then Unmodelled
  else
    let (neg, body) := split_sign (strip s) in
    match body with
    | EmptyString => Raise ValueError
    | _ =>
        if forall_chars is_digit body
        then Ok (if neg then (- digits_value 0 body)%Z else digits_value 0 body)
        else Raise ValueError
    end.

(** [float(s)] on plain decimal numerals [[+-]ddd[.ddd]]: the quotient of
    two exactly represented integers, rounded once. *)
Definition float_of_string (s : string) : result float :=
  if negb (forall_chars (fun c => negb (float_char_unmodelled c)) s) then Unmodelled
  else
    let (neg, body) := split_sign (strip s) in
    let (ip, r) := span_digits body in
    let (fp, r') :=
      match r with
      | String "." r1 => span_digits r1
      | _ => (EmptyString, r)
      end in
    match r', (ip ++ fp)%string with
    | String _ _, _ => Raise ValueError
    | EmptyString, EmptyString => Raise ValueError
    | EmptyString, ds =>
        let m := digits_value 0 ds in
        let k := String.length fp in
        if (m <? two53)%Z && (k <=? 18)%nat
        then
          let q := PrimFloat.div (float_of_small_Z m)
                                 (float_of_small_Z (10 ^ Z.of_nat k)) in
          Ok (if neg then PrimFloat.opp q else q)
        else Unmodelled
    end.

Definition py_int (v : value) : result value :=
  match v with
  | VInt z => Ok (VInt z)
  | VBool b => Ok (VInt (if b then 1 else 0))
  | VFloat f => z <- Z_of_float f ;; Ok (VInt z)
  | VStr s => z <- int_of_string s ;; Ok (VInt z)
  | VNone | VList _ | VDict _ => Raise TypeError
  end.

Definition py_float (v : value) : result value :=
  match v with
  | VFloat f => Ok (VFloat f)
  | VInt z => f <- float_of_Z z ;; Ok (VFloat f)
  | VBool b => Ok (VFloat (if b then PrimFloat.one else PrimFloat.zero))
  | VStr s => f <- float_of_string s ;; Ok (VFloat f)
  | VNone | VList _ | VDict _ => Raise TypeError
  end.

Definition py_str (v : value) : result value :=
  match v with
  | VStr s => Ok (VStr s)
  | VInt z => Ok (VStr (string_of_Z z))
  | VBool b => Ok (VStr (if b then "True" else "False"))
  | VNone => Ok (VStr "None")
  | VFloat _ | VList _ | VDict _ => Unmodelled
  end.

(** Truth value testing. *)
Definition truthy (v : value) : bool :=
  match v with
  | VNone => false
  | VBool b => b
  | VInt z => negb (z =? 0)%Z
  | VFloat f => negb (PrimFloat.eqb f PrimFloat.zero)
  | VStr s => negb (String.eqb s EmptyString)
  | VList l => match l with [] => false | _ => true end
  | VDict d => match d with [] => false | _ => true end
  end.

Definition py_bool (v : value) : result value := Ok (VBool (truthy v)).

Fixpoint chars_of (s : string) : list value :=
  match s with
  | EmptyString => []
  | String c s' => VStr (String c EmptyString) :: chars_of s'
  end.

Definition py_list (v : value) : result value :=
  match v with
  | VList l => Ok (VList l)
  | VDict d => Ok (VList (map (fun kv => VStr (fst kv)) d))
  | VStr s => if forall_chars is_ascii s then Ok (VList (chars_of s)) else Unmodelled
  | VNone | VBool _ | VInt _ | VFloat _ => Raise TypeError
  end.

(** [v[k]] for a string key [k]. *)
Definition py_getitem (v : value) (k : string) : result value :=
  match v with
  | VDict d => match dict_get k d with Some x => Ok x | None => Raise KeyError end
  | _ => Raise TypeError
  end.

Fixpoint py_getitems (v : value) (path : list string) : result value :=
  match path with
  | [] => Ok v
  | k :: path' => x <- py_getitem v k ;; py_getitems x path'
  end.

(** [v.values()]. *)
Definition py_values (v : value) : result (list value) :=
  match v with
  | VDict d => Ok (map snd d)
  | _ => Raise AttributeError
  end.

(** [k in v.keys()]. *)
Definition py_in_keys (k : string) (v : value) : result bool :=
  match v with
  | VDict d => Ok (match dict_get k d with Some _ => true | None => false end)
  | _ => Raise AttributeError
  end.

(** [lambda x: x / 1000] and [lambda x: x * 1000]. *)
Definition div_1000 (v : value) : result value :=
  match v with
  | VFloat x => Ok (VFloat (x / 1000)%float)
  | VInt _ | VBool _ => Unmodelled
  | _ => Raise TypeError
  end.

Definition mul_1000 (v : value) : result value :=
  match v with
  | VFloat x => Ok (VFloat (x * 1000)%float)
  | VInt _ | VBool _ => Unmodelled
  | _ => Raise TypeError
  end.


(** ** The regular expressions of the parser ([re])

    Every pattern of the parser is a sequence of literals, optional
    characters and greedy repetitions of a one-character class, with one
    capturing group.  Matching backtracks as [re] does: leftmost start,
    longest repetition first. *)

Inductive item : Type :=
| Lit (s : string)            (* literal text *)
| Opt (c : ascii)             (* [c?] *)
| Star (p : ascii -> bool).   (* [class*] *)

Record pattern : Type := Pattern {
  before : list item;
  group : list item;
  after : list item
}.

Definition any_char (c : ascii) : bool := negb (Ascii.eqb c "010").   (* . *)
Definition digit_bar_dot (c : ascii) : bool :=                (* [\d|\.] *)
  is_digit c || Ascii.eqb c "|" || Ascii.eqb c ".".

Section Matching.
Context {A : Type}.

Fixpoint star (p : ascii -> bool) (k : string -> option A) (s : string) : option A :=
  match s with
  | String c s' =>
      if p c
      then match star p k s' with
           | Some r => Some r
           | None => k s
           end
      else k s
  | EmptyString => k s
  end.

Fixpoint match_items (items : list item) (k : string -> option A) (s : string)
  : option A :=
  match items with
  | [] => k s
  | Lit l :: items' =>
      if starts_with l s then match_items items' k (drop (String.length l) s)
      else None
  | Opt c :: items' =>
      match s with
      | String c' s' =>
          if Ascii.eqb c c'
          then match match_items items' k s' with
               | Some r => Some r
               | None => match_items items' k s
               end
          else match_items items' k s
      | EmptyString => match_items items' k s
      end
  | Star p :: items' => star p (match_items items' k) s
  end.
End Matching.

(** A match starting at the head of [s]: the text of group 1 and the number
    of characters matched. *)
Definition match_at (pat : pattern) (s : string) : option (string * nat) :=
  match_items (before pat) (fun s1 =>
    match_items (group pat) (fun s2 =>
      match_items (after pat) (fun s3 =>
        Some (take (String.length s1 - String.length s2) s1,
              String.length s - String.length s3)) s2) s1) s.

(** [re.compile(pat).search(s)[1]]. *)
Fixpoint search (pat : pattern) (s : string) : option string :=
  match match_at pat s with
  | Some (g, _) => Some g
  | None =>
      match s with
      | String _ s' => search pat s'
      | EmptyString => None
      end
  end.

(** [re.findall(pat, s)]: the group of every match, left to right, without
    overlap; [skip] characters belong to the previous match. *)
Fixpoint findall_go (pat : pattern) (s : string) (skip : nat) : list string :=
  match skip, s with
  | S n, String _ s' => findall_go pat s' n
  | S _, EmptyString => []
  | O, _ =>
      match match_at pat s, s with
      | Some (g, n), String _ s' => g :: findall_go pat s' (n - 1)
      | Some (g, _), EmptyString => [g]
      | None, String _ s' => findall_go pat s' 0
      | None, EmptyString => []
      end
  end.

(** [\d] also matches decimal digits outside ASCII: a subject with a
    non-ASCII byte leaves the model. *)
Definition re_search (pat : pattern) (s : string) : result (option string) :=
  if forall_chars is_ascii s then Ok (search pat s) else Unmodelled.

Definition re_findall (pat : pattern) (s : string) : result (list string) :=
  if forall_chars is_ascii s then Ok (findall_go pat s 0) else Unmodelled.

(** [re.sub("^" + prefix, "", s)] for a prefix without metacharacters. *)
Definition remove_prefix (prefix s : string) : string :=
  if starts_with prefix s then drop (String.length prefix) s else s.

(** ** [materials_io.utils]: path access and the mapping engine

    The parser imports [get_nested_dict_value_by_path] (as [get_val]),
    [set_nested_dict_value_with_units] (as [set_val_units]),
    [MappingElements] and [map_dict_values] from [materials_io.utils]. *)

(** The empty values: [None], [[]], [{}]. *)
Definition is_empty (v : value) : bool :=
  match v with
  | VNone => true
  | VList [] => true
  | VDict [] => true
  | _ => false
  end.

(** The walk along a path of keys; [None] when a key is absent or a value
    on the way is not a mapping. *)
Fixpoint get_path (t : value) (path : list string) : option value :=
  match path with
  | [] => Some t
  | k :: path' =>
      match t with
      | VDict d =>
          match dict_get k d with
          | Some v => get_path v path'
          | None => None
          end
      | _ => None
      end
  end.

(** Modelled from the spec: [get_nested_dict_value_by_path] without a cast
    ([materials_io/utils] is not part of the sources at hand).  "walks tree
    one path segment at a time; if any intermediate value is missing, or not
    indexable/keyable [...] returns not found (None) -- never raises". *)
Definition get_val (t : value) (path : list string) : value :=
  match get_path t path with
  | Some v => v
  | None => VNone
  end.

(** Modelled from the spec: [get_nested_dict_value_by_path] with a cast.
    "[...] or the final cast raises, returns not found (None) -- never
    raises".  Not found is [None]: a leaf that is [None] is not cast. *)
Definition get_val_cast (t : value) (path : list string)
    (cast : value -> result value) : result value :=
  match get_val t path with
  | VNone => Ok VNone
  | v => match cast v with
         | Ok c => Ok c
         | Raise _ => Ok VNone
         | Unmodelled => Unmodelled
         end
  end.

(** A leaf with its unit: [{"value": v, "unit": u}], or the bare value. *)
Definition with_units (v : value) (units : option string) : value :=
  match units with
  | Some u => VDict [("value", v); ("unit", VStr u)]
  | None => v
  end.

(** Modelled from the spec: the write of a leaf along a path.  "creates
    intermediate mappings along path as needed; writes value [...]; does not
    overwrite an already-present non-empty leaf unless explicitly told to
    (override parameter passed through from the caller)".  The spec does not
    say what happens when a value on the way is present and is not a
    mapping: the write is then dropped. *)
Fixpoint set_path (d : dict) (path : list string) (leaf : value)
    (override : bool) : dict :=
  match path with
  | [] => d
  | k :: path' =>
      match path' with
      | [] =>
          match dict_get k d with
          | Some old =>
              if override || is_empty old then dict_set k leaf d else d
          | None => dict_set k leaf d
          end
      | _ :: _ =>
          match dict_get k d with
          | Some (VDict sub) =>
              dict_set k (VDict (set_path sub path' leaf override)) d
          | Some _ => d
          | None => dict_set k (VDict (set_path [] path' leaf override)) d
          end
      end
  end.

(** Modelled from the spec: [set_nested_dict_value_with_units].  "writes
    value directly, or wraps it as {value, unit} if unit given". *)
Definition set_val_units (nest_dict : dict) (path : list string) (v : value)
    (units : option string) (override : bool) : dict :=
  set_path nest_dict path (with_units v units) override.

(** Modelled from the spec: the record [MappingElements] ("source tree ref,
    source path, destination tree ref, destination path, cast function,
    unit code, post-cast conversion function, override flag").  Every rule of
    the parser has [dest_dict=self.em]: the destination is the dictionary
    that [map_dict_values] threads.  A source path given as one string is
    the path of that one key. *)
Record MappingElements : Type := ME {
  source_dict : value;
  source_path : list string;
  dest_path : list string;
  cast_fn : value -> result value;
  units : option string;
  conv_fn : option (value -> result value);
  override : bool
}.

(** Modelled from the spec: one rule of [map_dict_values].  "read via
    PathAccessor.get from the rule's source+path; if not found, skip; else
    cast; if cast fails, skip; apply conversion function if present; write
    via PathAccessor.set to destination+path with the rule's unit and
    override flag". *)
Definition apply_rule (dest : dict) (m : MappingElements) : result dict :=
  match get_val (source_dict m) (source_path m) with
  | VNone => Ok dest
  | v =>
      match cast_fn m v with
      | Raise _ => Ok dest
      | Unmodelled => Unmodelled
      | Ok c =>
          c' <- match conv_fn m with
                | Some f => f c
                | None => Ok c
                end ;;
          Ok (set_val_units dest (dest_path m) c' (units m) (override m))
      end
  end.

(** Modelled from the spec: [map_dict_values], "for each rule in order". *)
Fixpoint map_dict_values (mapping : list MappingElements) (dest : dict)
    : result dict :=
  match mapping with
  | [] => Ok dest
  | m :: mapping' => dest' <- apply_rule dest m ;; map_dict_values mapping' dest'
  end.

(** ** [ElectronMicroscopyParser]

    [hs_data] as [_parse_file] uses it: the two dictionaries that
    [hs_data.metadata.as_dictionary()] and
    [hs_data.original_metadata.as_dictionary()] return. *)

Record dataset : Type := Dataset {
  metadata : dict;
  original_metadata : dict
}.

Definition is_none (v : value) : bool :=
  match v with VNone => true | _ => false end.

Definition sections : list string :=
  ["General"; "General_EM"; "TEM"; "SEM"; "EDS"; "EELS"].

(** The key "Emission Current (uA)" with the micro sign U+00B5 for "u",
    in UTF-8. *)
Definition emission_current_key : string :=
  ("Emission Current (" ++ String "194" (String "181" "A)"))%string.

(** The default delimiter, U+2028 (LINE SEPARATOR), in UTF-8. *)
Definition line_separator : string :=
  String "226" (String "128" (String "168" EmptyString)).

(** *** [_process_hs_detectors] *)

Definition hs_detector_rules (inst_data : value) : list MappingElements :=
  let detector_node := get_val inst_data ["Detector"] in
  [ ME inst_data ["detector_type"] ["General_EM"; "detector_name"]
       py_str None None false ]
  ++ (if is_none detector_node then [] else
  [ (* EDS *)
    ME detector_node ["EDS"; "azimuth_angle"] ["EDS"; "azimuth_angle"]
       py_float (Some "DEG") None false;
    ME detector_node ["EDS"; "elevation_angle"] ["EDS"; "elevation_angle"]
       py_float (Some "DEG") None false;
    ME detector_node ["EDS"; "energy_resolution_MnKa"]
       ["EDS"; "energy_resolution_MnKa"] py_float (Some "EV") None false;
    ME detector_node ["EDS"; "live_time"] ["EDS"; "live_time"]
       py_float (Some "SEC") None false;
    ME detector_node ["EDS"; "real_time"] ["EDS"; "real_time"]
       py_float (Some "SEC") None false;
    (* EELS *)
    ME detector_node ["EELS"; "aperture_size"] ["EELS"; "aperture_size"]
       py_float (Some "MilliM") None false;
    ME detector_node ["EELS"; "collection_angle"] ["EELS"; "collection_angle"]
       py_float (Some "MilliRAD") None false;
    ME detector_node ["EELS"; "dwell_time"] ["General_EM"; "dwell_time"]
       py_float (Some "SEC") None false;
    ME detector_node ["EELS"; "exposure"] ["General_EM"; "exposure_time"]
       py_float (Some "SEC") None false;
    ME detector_node ["EELS"; "frame_number"] ["EELS"; "number_of_samples"]
       py_int (Some "NUM") None false;
    ME detector_node ["EELS"; "spectrometer"] ["EELS"; "spectrometer_name"]
       py_str None None false ]).

Definition _process_hs_detectors (inst_data : value) (em : dict) : result dict :=
  map_dict_values (hs_detector_rules inst_data) em.

(** *** [_process_hs_data] *)

Definition hs_instrument_rules (source : value) : list MappingElements :=
  [ ME source ["acquisition_mode"] ["General_EM"; "acquisition_mode"]
       py_str None None false;
    ME source ["beam_current"] ["General_EM"; "beam_current"]
       py_float (Some "NanoA") None false;
    ME source ["beam_energy"] ["General_EM"; "beam_energy"]
       py_float (Some "KiloEV") None false;
    ME source ["convergence_angle"] ["General_EM"; "convergence_angle"]
       py_float (Some "MilliRAD") None false;
    ME source ["magnification"] ["General_EM"; "magnification_indicated"]
       py_float (Some "UNITLESS") None false;
    ME source ["microscope"] ["General_EM"; "microscope_name"]
       py_str None None false;
    ME source ["probe_area"] ["General_EM"; "probe_area"]
       py_float (Some "NanoM2") None false;
    (* stage positions *)
    ME source ["Stage"; "rotation"] ["General_EM"; "stage_position"; "rotation"]
       py_float (Some "DEG") None false;
    ME source ["Stage"; "tilt_alpha"]
       ["General_EM"; "stage_position"; "tilt_alpha"]
       py_float (Some "DEG") None false;
    ME source ["Stage"; "tilt_beta"]
       ["General_EM"; "stage_position"; "tilt_beta"]
       py_float (Some "DEG") None false;
    ME source ["Stage"; "x"] ["General_EM"; "stage_position"; "x"]
       py_float (Some "MilliM") None false;
    ME source ["Stage"; "y"] ["General_EM"; "stage_position"; "y"]
       py_float (Some "MilliM") None false;
    ME source ["Stage"; "z"] ["General_EM"; "stage_position"; "z"]
       py_float (Some "MilliM") None false;
    (* camera length/working distance *)
    ME source ["camera_length"] ["TEM"; "camera_length"]
       py_float (Some "MilliM") None false;
    ME source ["working_distance"] ["SEM"; "working_distance"]
       py_float (Some "MilliM") None false ].

Definition hs_general_rules (source : value) : list MappingElements :=
  [ (* Elements present (if known) *)
    ME source ["Sample"; "elements"] ["General_EM"; "elements"]
       py_list None None false;
    (* General metadata *)
    ME source ["General"; "date"] ["General"; "date"] py_str None None false;
    ME source ["General"; "doi"] ["General"; "doi"] py_str None None false;
    ME source ["General"; "original_filename"] ["General"; "original_filename"]
       py_str None None false;
    ME source ["General"; "notes"] ["General"; "notes"] py_str None None false;
    ME source ["General"; "time"] ["General"; "time"] py_str None None false;
    ME source ["General"; "time_zone"] ["General"; "time_zone"]
       py_str None None false;
    ME source ["General"; "title"] ["General"; "title"] py_str None None false ].

(** [self.meta.get('Acquisition_instrument', {})]. *)
Definition acquisition_instrument (meta : dict) : value :=
  match dict_get "Acquisition_instrument" meta with
  | Some v => v
  | None => VDict []
  end.

(** [self.inst]: "SEM", "TEM" or "None". *)
Definition instrument (meta : dict) : result string :=
  sem <- py_in_keys "SEM" (acquisition_instrument meta) ;;
  if sem then Ok "SEM"
  else
    tem <- py_in_keys "TEM" (acquisition_instrument meta) ;;
    Ok (if tem then "TEM" else "None").

Definition _process_hs_data (meta : dict) (em : dict) : result dict :=
  inst <- instrument meta ;;
  let inst_data := get_val (VDict meta) ["Acquisition_instrument"; inst] in
  em1 <- (if is_none inst_data then Ok em
          else em' <- map_dict_values (hs_instrument_rules inst_data) em ;;
               _process_hs_detectors inst_data em') ;;
  map_dict_values (hs_general_rules (VDict meta)) em1.

(** *** [__get_dm3_tag_pre_path] *)

Definition image_tags : list string := ["ImageList"; "TagGroup0"; "ImageTags"].

Definition __get_dm3_tag_pre_path (raw_meta : dict) : list string :=
  let stack_val := get_val (VDict raw_meta) (image_tags ++ ["plane info"]) in
  if is_none stack_val then image_tags
  else image_tags ++ ["plane info"; "TagGroup0"; "source tags"].

(** *** [_dm3_general_info] *)

Definition dm3_microscope_rules (raw : value) (base : list string)
    : list MappingElements :=
  [ ME raw (base ++ ["Indicated Magnification"])
       ["General_EM"; "magnification_indicated"]
       py_float (Some "UNITLESS") None false;
    ME raw (base ++ ["Actual Magnification"])
       ["General_EM"; "magnification_actual"]
       py_float (Some "UNITLESS") None false;
    ME raw (base ++ ["Cs(mm)"]) ["TEM"; "spherical_aberration_coefficient"]
       py_float (Some "MilliM") None false;
    ME raw (base ++ ["STEM Camera Length"]) ["TEM"; "camera_length"]
       py_float (Some "MilliM") None false;
    ME raw (base ++ ["Operation Mode"]) ["TEM"; "operation_mode"]
       py_str None None false;
    ME raw (base ++ ["Imaging Mode"]) ["TEM"; "imaging_mode"]
       py_str None None false;
    ME raw (base ++ ["Illumination Mode"]) ["TEM"; "illumination_mode"]
       py_str None None false;
    ME raw (base ++ ["Microscope"]) ["General_EM"; "microscope_name"]
       py_str None None false;
    ME raw (base ++ ["Stage Position"; "Stage X"])
       ["General_EM"; "stage_position"; "x"]
       py_float (Some "MilliM") (Some div_1000) false;
    ME raw (base ++ ["Stage Position"; "Stage Y"])
       ["General_EM"; "stage_position"; "y"]
       py_float (Some "MilliM") (Some div_1000) false;
    ME raw (base ++ ["Stage Position"; "Stage Z"])
       ["General_EM"; "stage_position"; "z"]
       py_float (Some "MilliM") (Some div_1000) false;
    ME raw (base ++ ["Stage Position"; "Stage Alpha"])
       ["General_EM"; "stage_position"; "tilt_alpha"]
       py_float (Some "DEG") None false;
    ME raw (base ++ ["Stage Position"; "Stage Beta"])
       ["General_EM"; "stage_position"; "tilt_beta"]
       py_float (Some "DEG") None false;
    ME raw (base ++ [emission_current_key])
       ["General_EM"; "emission_current"]
       py_float (Some "MicroA") None false ].

(** [voltage >= 1000] for the float that the cast returned. *)
Definition ge_1000 (voltage : value) : bool :=
  match voltage with
  | VFloat f => (1000 <=? f)%float
  | _ => false
  end.

Definition dm3_voltage_rules (raw : value) (base : list string)
    (voltage : value) : list MappingElements :=
  if is_none voltage then [] else
  [ ME raw (base ++ ["Voltage"]) ["General_EM"; "accelerating_voltage"]
       py_float
       (Some (if ge_1000 voltage then "KiloEV" else "EV"))
       (Some (fun x => if ge_1000 voltage then div_1000 x else Ok x))
       false ].

Definition dm3_session_rules (raw : value) (base : list string)
    : list MappingElements :=
  [ ME raw (base ++ ["Detector"]) ["General_EM"; "detector_name"]
       py_str None None false;
    ME raw (base ++ ["Microscope"]) ["General_EM"; "microscope_name"]
       py_str None None false ].

Definition dm3_meta_data_rules (raw : value) (base : list string)
    : list MappingElements :=
  [ ME raw (base ++ ["Acquisition Mode"]) ["TEM"; "acquisition_mode"]
       py_str None None false;
    ME raw (base ++ ["Format"]) ["TEM"; "acquisition_format"]
       py_str None None false;
    ME raw (base ++ ["Signal"]) ["TEM"; "acquisition_signal"]
       py_str None None false;
    (* sometimes the EDS signal label is in a different place *)
    ME raw (base ++ ["Experiment keywords"; "TagGroup1"; "Label"])
       ["TEM"; "acquisition_signal"] py_str None None false ].

Definition dm3_misc_rules (raw : value) (base : list string)
    : list MappingElements :=
  [ ME raw (base ++ ["Acquisition"; "Device"; "Name"])
       ["TEM"; "acquisition_device"] py_str None None false;
    ME raw (base ++ ["DataBar"; "Device Name"])
       ["TEM"; "acquisition_device"] py_str None None false;
    ME raw (base ++ ["Acquisition"; "Parameters"; "High Level"; "Exposure (s)"])
       ["General_EM"; "exposure_time"] py_float (Some "SEC") None false;
    ME raw (base ++ ["DataBar"; "Exposure Time (s)"])
       ["General_EM"; "exposure_time"] py_float (Some "SEC") None false;
    ME raw (base ++ ["GMS Version"; "Created"])
       ["General_EM"; "acquisition_software_version"] py_str None None false ].

Definition dm3_general_rules (raw_meta : dict) (voltage : value)
    : list MappingElements :=
  let raw := VDict raw_meta in
  let pre := __get_dm3_tag_pre_path raw_meta in
  dm3_microscope_rules raw (pre ++ ["Microscope Info"])
  ++ dm3_voltage_rules raw (pre ++ ["Microscope Info"]) voltage
  ++ dm3_session_rules raw (pre ++ ["Session Info"])
  ++ dm3_meta_data_rules raw (pre ++ ["Meta Data"])
  ++ dm3_misc_rules raw pre.

(** The call [set_val_units(nest_dict=..., path=..., value=...)] leaves the
    unit and the override flag to their defaults, taken as no unit and no
    override. *)
Definition _dm3_general_info (raw_meta : dict) (em : dict) : result dict :=
  let base := __get_dm3_tag_pre_path raw_meta ++ ["Microscope Info"] in
  voltage <- get_val_cast (VDict raw_meta) (base ++ ["Voltage"]) py_float ;;
  let mapping := dm3_general_rules raw_meta voltage in
  let em1 :=
    if is_none (get_val (VDict raw_meta) image_tags) then em
    else set_val_units em ["General_EM"; "acquisition_software_name"]
           (VStr "DigitalMicrograph") None false in
  map_dict_values mapping em1.

(** *** [_dm3_eels_info] *)

(** [lambda s: float(s.replace(' mm', ''))]. *)
Definition aperture_label (v : value) : result value :=
  match v with
  | VStr s => py_float (VStr (replace " mm" "" s))
  | _ => Raise AttributeError
  end.

Definition dm3_eels_rules (raw_meta : dict) : list MappingElements :=
  let raw := VDict raw_meta in
  let pre_path := __get_dm3_tag_pre_path raw_meta in
  let base := pre_path ++ ["EELS"] in
  (* spectrometer metadata is usually at one of two places, so try both *)
  let spect_dict := get_val raw (pre_path ++ ["EELS"; "Acquisition"; "Spectrometer"]) in
  let spect_path :=
    if is_none spect_dict then pre_path ++ ["EELS Spectrometer"]
    else pre_path ++ ["EELS"; "Acquisition"; "Spectrometer"] in
  [ ME raw (base ++ ["Acquisition"; "Exposure (s)"])
       ["General_EM"; "exposure_time"] py_float (Some "SEC") None false;
    ME raw (base ++ ["Acquisition"; "Integration time (s)"])
       ["EELS"; "integration_time"] py_float (Some "SEC") None false;
    ME raw (base ++ ["Acquisition"; "Number of frames"])
       ["EELS"; "number_of_samples"] py_int (Some "NUM") None false;
    ME raw (base ++ ["Experimental Conditions"; "Collection semi-angle (mrad)"])
       ["EELS"; "collection_angle"] py_float (Some "MilliRAD") None false;
    ME raw (base ++ ["Experimental Conditions"; "Convergence semi-angle (mrad)"])
       ["General_EM"; "convergence_angle"] py_float (Some "MilliRAD") None false ]
  ++
  [ ME raw (spect_path ++ ["Aperture label"]) ["EELS"; "aperture_size"]
       aperture_label (Some "MilliM") None false;
    ME raw (spect_path ++ ["Dispersion (eV/ch)"])
       ["EELS"; "dispersion_per_channel"] py_float (Some "EV") None false;
    ME raw (spect_path ++ ["Energy loss (eV)"]) ["EELS"; "energy_loss_offset"]
       py_float (Some "EV") None false;
    ME raw (spect_path ++ ["Instrument name"]) ["EELS"; "spectrometer_name"]
       py_str None None false;
    ME raw (spect_path ++ ["Drift tube voltage (V)"])
       ["EELS"; "drift_tube_voltage"] py_float (Some "V") None false;
    ME raw (spect_path ++ ["Drift tube enabled"]) ["EELS"; "drift_tube_enabled"]
       py_bool None None false;
    ME raw (spect_path ++ ["Prism offset (V)"]) ["EELS"; "prism_shift_voltage"]
       py_float (Some "V") None false;
    (* note space at end of "Prism offset enabled " *)
    ME raw (spect_path ++ ["Prism offset enabled "])
       ["EELS"; "prism_shift_enabled"] py_bool None None false;
    ME raw (spect_path ++ ["Slit width (eV)"]) ["EELS"; "filter_slit_width"]
       py_float (Some "EV") None false;
    ME raw (spect_path ++ ["Slit inserted"]) ["EELS"; "filter_slit_inserted"]
       py_bool None None false ].

Definition _dm3_eels_info (raw_meta : dict) (em : dict) : result dict :=
  map_dict_values (dm3_eels_rules raw_meta) em.

(** *** [_dm3_eds_info] *)

Definition dm3_eds_rules (raw_meta : dict) : list MappingElements :=
  let raw := VDict raw_meta in
  let base := __get_dm3_tag_pre_path raw_meta ++ ["EDS"] in
  [ ME raw (base ++ ["Detector Info"; "Azimuthal angle"])
       ["EDS"; "azimuth_angle"] py_float (Some "DEG") None false;
    ME raw (base ++ ["Detector Info"; "Detector type"])
       ["EDS"; "detector_type"] py_str None None false;
    ME raw (base ++ ["Acquisition"; "Dispersion (eV)"])
       ["EDS"; "dispersion_per_channel"] py_float (Some "EV") None false;
    ME raw (base ++ ["Detector Info"; "Elevation angle"])
       ["EDS"; "elevation_angle"] py_float (Some "DEG") None false;
    ME raw (base ++ ["Detector Info"; "Incidence angle"])
       ["EDS"; "incidence_angle"] py_float (Some "DEG") None false;
    ME raw (base ++ ["Live time"]) ["EDS"; "live_time"]
       py_float (Some "SEC") None false;
    ME raw (base ++ ["Real time"]) ["EDS"; "real_time"]
       py_float (Some "SEC") None false;
    ME raw (base ++ ["Detector Info"; "Solid angle"]) ["EDS"; "solid_angle"]
       py_float (Some "SR") None false;
    ME raw (base ++ ["Detector Info"; "Stage tilt"]) ["EDS"; "stage_tilt"]
       py_float (Some "DEG") None false ].

Definition _dm3_eds_info (raw_meta : dict) (em : dict) : result dict :=
  map_dict_values (dm3_eds_rules raw_meta) em.

(** *** [_dm3_tecnai_info] *)

(** [Optional[str]] as a value. *)
Definition opt_str (o : option string) : value :=
  match o with
  | Some s => VStr s
  | None => VNone
  end.

(** The first line that contains [s_to_find], without [s_to_find] at its
    start; [None] when no line contains it. *)
Definition __find_val (s_to_find : string) (list_to_search : list string)
    : option string :=
  match filter (contains s_to_find) list_to_search with
  | res :: _ => Some (remove_prefix s_to_find res)
  | [] => None
  end.

(** [re.compile(regex).search(str_to_search)], then group 1 of a match.
    [search] raises [TypeError] when its argument is [None]. *)
Definition __extract_val (regex : pattern) (str_to_search : option string)
    : result (option string) :=
  match str_to_search with
  | None => Raise TypeError
  | Some s => re_search regex s
  end.

(** The patterns; the comments write the capturing group between < and >. *)

Definition re_extr_volt : pattern :=        (* Extr volt <\d*> V *)
  Pattern [Lit "Extr volt "] [Star is_digit] [Lit " V"].
Definition re_emission : pattern :=         (* Emission <[\d|\.]*>uA *)
  Pattern [Lit "Emission "] [Star digit_bar_dot] [Lit "uA"].
Definition re_operation_mode : pattern :=   (* <.*> Defocus *)
  Pattern [] [Star any_char] [Lit " Defocus"].
Definition re_defocus_magn : pattern :=     (* Defocus \(um\) <.*> Magn *)
  Pattern [Lit "Defocus (um) "] [Star any_char] [Lit " Magn"].
Definition re_defocus_cl : pattern :=       (* Defocus <[\d|\.]*> CL *)
  Pattern [Lit "Defocus "] [Star digit_bar_dot] [Lit " CL"].
Definition re_magn : pattern :=             (* Magn <\d*>x *)
  Pattern [Lit "Magn "] [Star is_digit] [Lit "x"].
Definition re_camera_length : pattern :=    (* CL <.*>m *)
  Pattern [Lit "CL "] [Star any_char] [Lit "m"].
Definition re_um : pattern :=               (*  <-?\d*\.\d*> um *)
  Pattern [Lit " "] [Opt "-"; Star is_digit; Lit "."; Star is_digit] [Lit " um"].
Definition re_deg : pattern :=              (*  <-?\d*\.\d*> deg *)
  Pattern [Lit " "] [Opt "-"; Star is_digit; Lit "."; Star is_digit] [Lit " deg"].
Definition re_dispersion : pattern :=       (* <.*>\[eV/Channel\] *)
  Pattern [] [Star any_char] [Lit "[eV/Channel]"].
Definition re_aperture : pattern :=         (* <\d*>mm *)
  Pattern [] [Star is_digit] [Lit "mm"].
Definition re_eV : pattern :=               (* <.*>\[eV\] *)
  Pattern [] [Star any_char] [Lit "[eV]"].

(** The rules of the Tecnai string, from the values found in it. *)
Definition tecnai_base_mapping
    (name extr emis opmode defocus1 defocus2 magn cl spot : option string)
    : list MappingElements :=
  [ ME (VDict [("Microscope_Name", opt_str name)])
       ["Microscope_Name"] ["General_EM"; "microscope_name"]
       py_str None None true;
    ME (VDict [("Extractor_Voltage", opt_str extr)])
       ["Extractor_Voltage"] ["TEM"; "extractor_voltage"]
       py_int (Some "V") None true;
    ME (VDict [("Emission_Current", opt_str emis)])
       ["Emission_Current"] ["General_EM"; "emission_current"]
       py_float (Some "MicroA") None true;
    ME (VDict [("Operation_Mode", opt_str opmode)])
       ["Operation_Mode"] ["TEM"; "operation_mode"]
       py_str None None true;
    (* try two different extractions of defocus for mag mode and
       diffraction mode: *)
    ME (VDict [("Defocus", opt_str defocus1)])
       ["Defocus"] ["TEM"; "defocus"] py_float (Some "MicroM") None true;
    ME (VDict [("Defocus", opt_str defocus2)])
       ["Defocus"] ["TEM"; "defocus"] py_float (Some "MicroM") None true;
    (* try magnification (not always present): *)
    ME (VDict [("Magnification", opt_str magn)])
       ["Magnification"] ["General_EM"; "magnification_indicated"]
       py_int (Some "UNITLESS") None true;
    ME (VDict [("Camera_Length", opt_str cl)])
       ["Camera_Length"] ["TEM"; "camera_length"]
       py_float (Some "MilliM") (Some mul_1000) true;
    (* spot size *)
    ME (VDict [("Spot_Size", opt_str spot)])
       ["Spot_Size"] ["TEM"; "spot_size"]
       py_int (Some "UNITLESS") None true ].

(** The list [mapping] of [_dm3_tecnai_info]; its elements are evaluated in
    order, so the first failing [__extract_val] raises. *)
Definition tecnai_base_rules (tecnai_info : list string)
    : result (list MappingElements) :=
  let name := __find_val "Microscope " tecnai_info in
  extr <- __extract_val re_extr_volt (__find_val "Extr volt " tecnai_info) ;;
  emis <- __extract_val re_emission (__find_val "Emission " tecnai_info) ;;
  opmode <- __extract_val re_operation_mode (__find_val "Mode " tecnai_info) ;;
  defocus1 <- __extract_val re_defocus_magn (__find_val "Mode " tecnai_info) ;;
  defocus2 <- __extract_val re_defocus_cl (__find_val "Mode " tecnai_info) ;;
  magn <- __extract_val re_magn (__find_val "Mode " tecnai_info) ;;
  cl <- __extract_val re_camera_length (__find_val "Mode " tecnai_info) ;;
  let spot := __find_val "Spot " tecnai_info in
  Ok (tecnai_base_mapping name extr emis opmode defocus1 defocus2 magn cl spot).

Definition tecnai_stage_mapping (x y z alpha beta : string)
    : list MappingElements :=
  let stage := VDict [("x", VStr x); ("y", VStr y); ("z", VStr z);
                      ("a", VStr alpha); ("b", VStr beta)] in
  [ ME stage ["x"] ["General_EM"; "stage_position"; "x"]
       py_float (Some "MicroM") None true;
    ME stage ["y"] ["General_EM"; "stage_position"; "y"]
       py_float (Some "MicroM") None true;
    ME stage ["z"] ["General_EM"; "stage_position"; "z"]
       py_float (Some "MicroM") None true;
    ME stage ["a"] ["General_EM"; "stage_position"; "tilt_alpha"]
       py_float (Some "DEG") None true;
    ME stage ["b"] ["General_EM"; "stage_position"; "tilt_beta"]
       py_float (Some "DEG") None true ].

(** [if stage_vals:] and the two unpackings [x, y, z = re.findall(...)]
    and [alpha, beta = re.findall(...)], which raise [ValueError] unless
    there are exactly three and two matches. *)
Definition tecnai_stage_rules (tecnai_info : list string)
    : result (list MappingElements) :=
  match __find_val "Stage" tecnai_info with
  | None | Some EmptyString => Ok []
  | Some stage_vals =>
      xyz <- re_findall re_um stage_vals ;;
      match xyz with
      | [x; y; z] =>
          ab <- re_findall re_deg stage_vals ;;
          match ab with
          | [alpha; beta] => Ok (tecnai_stage_mapping x y z alpha beta)
          | _ => Raise ValueError
          end
      | _ => Raise ValueError
      end
  end.

Definition tecnai_filter_mapping (mode disp aper prism drift total : option string)
    : list MappingElements :=
  let filter_dict :=
    VDict [("Mode", opt_str mode);
           ("Dispersion", opt_str disp);
           ("Aperture", opt_str aper);
           ("Prism", opt_str prism);
           ("Drift", opt_str drift);
           ("TotalLoss", opt_str total)] in
  [ ME filter_dict ["Mode"] ["EELS"; "spectrometer_mode"]
       py_str None None true;
    ME filter_dict ["Dispersion"] ["EELS"; "dispersion_per_channel"]
       py_float (Some "EV") None true;
    ME filter_dict ["Aperture"] ["EELS"; "aperture_size"]
       py_float (Some "MilliM") None true;
    ME filter_dict ["Drift"] ["EELS"; "drift_tube_energy"]
       py_float (Some "EV") None true;
    ME filter_dict ["Prism"] ["EELS"; "prism_shift_energy"]
       py_float (Some "EV") None true;
    ME filter_dict ["TotalLoss"] ["EELS"; "total_energy_loss"]
       py_float (Some "EV") None true ].

(** process EELS spectrometer info from Tecnai string *)
Definition tecnai_filter_rules (tecnai_info : list string)
    : result (list MappingElements) :=
  match __find_val "Filter related settings" tecnai_info with
  | None | Some EmptyString => Ok []
  | Some _ =>
      let mode := __find_val "Mode: " tecnai_info in
      disp <- __extract_val re_dispersion
                (__find_val "Selected dispersion: " tecnai_info) ;;
      aper <- __extract_val re_aperture
                (__find_val "Selected aperture: " tecnai_info) ;;
      prism <- __extract_val re_eV (__find_val "Prism shift: " tecnai_info) ;;
      drift <- __extract_val re_eV (__find_val "Drift tube: " tecnai_info) ;;
      total <- __extract_val re_eV
                 (__find_val "Total energy loss: " tecnai_info) ;;
      Ok (tecnai_filter_mapping mode disp aper prism drift total)
  end.

Definition path_to_tecnai : list string :=
  ["ImageList"; "TagGroup0"; "ImageTags"; "Tecnai"; "Microscope Info"].

Definition _dm3_tecnai_info (delimiter : string) (raw_meta : dict) (em : dict)
    : result dict :=
  match get_val (VDict raw_meta) path_to_tecnai with
  | VNone =>
      (* if tecnai info is not present, return early to save some work *)
      Ok em
  | VStr info =>
      (* split the tecnai_info string into a list *)
      let tecnai_info := split delimiter info in
      (* we override existing values since Tecnai info is more specific *)
      base <- tecnai_base_rules tecnai_info ;;
      stage <- tecnai_stage_rules tecnai_info ;;
      filt <- tecnai_filter_rules tecnai_info ;;
      map_dict_values (base ++ stage ++ filt) em
  | _ => Raise AttributeError         (* no [split] *)
  end.

(** *** [_parse_file] *)

(** The values that are not pulled into the standard HyperSpy metadata,
    written at the top level of [self.em]. *)
Definition non_hs_data (raw_meta : dict) (em : dict) : result dict :=
  let raw := VDict raw_meta in
  (* Pull out common dicts *)
  micro_info <- try_except
      (py_getitems raw ["ImageList"; "TagGroup0"; "ImageTags"; "Microscope Info"])
      (Ok (VDict [])) ;;
  exp_desc <- try_except
      (py_getitems raw ["ObjectInfo"; "ExperimentalDescription"])
      (Ok (VDict [])) ;;
  (* emission_current *)
  em1 <- try_except
      (x <- py_getitem micro_info emission_current_key ;;
       f <- py_float x ;; Ok (dict_set "emission_current" f em))
      (try_except
         (x <- py_getitem exp_desc "Emission_uA" ;;
          f <- py_float x ;; Ok (dict_set "emission_current" f em))
         (Ok em)) ;;
  (* operation_mode *)
  em2 <- try_except
      (x <- py_getitem micro_info "Operation Mode" ;;
       s <- py_str x ;; Ok (dict_set "operation_mode" s em1))
      (Ok em1) ;;
  (* microscope *)
  em3 <- try_except
      (x <- py_getitems raw ["ImageList"; "TagGroup0"; "ImageTags";
                             "Session Info"; "Microscope"] ;;
       s <- py_str x ;; Ok (dict_set "microscope" s em2))
      (try_except
         (x <- py_getitem micro_info "Name" ;;
          s <- py_str x ;; Ok (dict_set "microscope" s em2))
         (Ok em2)) ;;
  (* spot_size *)
  try_except
      (x <- py_getitem exp_desc "Spot size" ;;
       n <- py_int x ;; Ok (dict_set "spot_size" n em3))
      (Ok em3).

(** Reverse X and Y order to match MDF schema (y, x, z, ..., channels). *)
Definition reorder_shape (base_shape : list value) : list value :=
  match base_shape with
  | b0 :: b1 :: rest => b1 :: b0 :: rest     (* len(base_shape) >= 2 *)
  | _ => base_shape                          (* one dimension, or none *)
  end.

(** [[int(dim) for dim in self.raw_meta[...]["Dimensions"].values()]]. *)
Definition base_shape (raw_meta : dict) : result (list value) :=
  dims <- py_getitems (VDict raw_meta)
            ["ImageList"; "TagGroup0"; "ImageData"; "Dimensions"] ;;
  vals <- py_values dims ;;
  mapM py_int vals.

(** The image metadata, [self.image]; the handler's [print(e)] is not
    modelled. *)
Definition image_metadata (raw_meta : dict) : result dict :=
  try_except
    (bs <- base_shape raw_meta ;;
     let shape := reorder_shape bs in
     Ok (match shape with
         | [] => []
         | _ :: _ => dict_set "shape" (VList shape) []
         end))
    (Ok []).

(** Remove None/empty values: the loop over [list(self.em.items())]. *)
Definition remove_empty (em : dict) : dict :=
  fold_left
    (fun (acc : dict) (kv : string * value) =>
       if is_empty (snd kv) then dict_pop (fst kv) acc else acc)
    em em.

Definition initial_em (raw_meta : dict) : dict :=
  fold_left (fun (em : dict) (s : string) => dict_set s (VDict []) em)
    sections (dict_set "raw_metadata" (VDict raw_meta) []).

Definition make_record (em image : dict) : dict :=
  let record := [] in
  let record := match em with
                | [] => record
                | _ :: _ => dict_set "electron_microscopy" (VDict em) record
                end in
  match image with
  | [] => record
  | _ :: _ => dict_set "image" (VDict image) record
  end.

(** [_parse_file], from the loaded [hs_data] on (the first dataset when
    [hs_load] returns a list).  [_dm3_spectrum_image_info], [_tia_info] and
    [_tiff_info] do nothing. *)
Definition _parse_file (hs_data : dataset) : result dict :=
  let meta := metadata hs_data in
  let raw_meta := original_metadata hs_data in
  let em := initial_em raw_meta in
  (* call each individual processor *)
  em <- _process_hs_data meta em ;;
  em <- _dm3_general_info raw_meta em ;;
  em <- _dm3_eels_info raw_meta em ;;
  em <- _dm3_tecnai_info line_separator raw_meta em ;;
  em <- _dm3_eds_info raw_meta em ;;
  (* Non-HS data (not pulled into standard HS metadata) *)
  em <- non_hs_data raw_meta em ;;
  (* Image metadata *)
  image <- image_metadata raw_meta ;;
  (* Remove None/empty values *)
  Ok (make_record (remove_empty em) image).

(** ** Paths of leaves *)

(** Neither path is a prefix of the other. *)
Fixpoint incomparable (p q : list string) : bool :=
  match p, q with
  | a :: p', b :: q' => if String.eqb a b then incomparable p' q' else true
  | _, _ => false
  end.

(** [p] is a proper prefix of [q]. *)
Fixpoint strict_prefix (p q : list string) : bool :=
  match p, q with
  | [], _ :: _ => true
  | a :: p', b :: q' => String.eqb a b && strict_prefix p' q'
  | _, _ => false
  end.

(** The destination path [p] holds the value [x]: the leaf is present and
    is not empty.  (An empty leaf counts as not written: the write of a
    leaf replaces it even without override.) *)
Definition holds (d : dict) (p : list string) (x : value) : Prop :=
  get_path (VDict d) p = Some x /\ is_empty x = false.

(** The path of a leaf below one of the sections. *)
Definition section_path (p : list string) : bool :=
  match p with
  | s :: _ :: _ => existsb (String.eqb s) sections
  | _ => false
  end.

(** The path of the DigitalMicrograph image dimensions. *)
Definition dimensions_path : list string :=
  ["ImageList"; "TagGroup0"; "ImageData"; "Dimensions"].

(** The path of the DigitalMicrograph Voltage tag. *)
Definition voltage_path (raw_meta : dict) : list string :=
  (__get_dm3_tag_pre_path raw_meta ++ ["Microscope Info"]) ++ ["Voltage"].

Definition accelerating_voltage_path : list string :=
  ["General_EM"; "accelerating_voltage"].

Definition defocus_path : list string := ["TEM"; "defocus"].

(** Either of the two rules of the defocus in [tecnai_base_mapping]. *)
Definition defocus_rule (defocus : option string) : MappingElements :=
  ME (VDict [("Defocus", opt_str defocus)])
     ["Defocus"] ["TEM"; "defocus"] py_float (Some "MicroM") None true.

(** ** The destination paths of the rules

    The destination paths of a stage do not depend on the file. *)

Definition dests (rules : list MappingElements) : list (list string) :=
  map dest_path rules.

Definition hs_dests : list (list string) :=
  dests (hs_instrument_rules VNone)
  ++ dests (hs_detector_rules (VDict [("Detector", VDict [])]))
  ++ dests (hs_general_rules VNone).

Definition dm3_voltage_dests : list (list string) :=
  [accelerating_voltage_path].

Definition dm3_general_tail_dests : list (list string) :=
  dests (dm3_session_rules VNone [])
  ++ dests (dm3_meta_data_rules VNone [])
  ++ dests (dm3_misc_rules VNone []).

Definition dm3_general_dests : list (list string) :=
  ["General_EM"; "acquisition_software_name"]
  :: dests (dm3_microscope_rules VNone [])
  ++ dm3_voltage_dests
  ++ dm3_general_tail_dests.

Definition dm3_eels_dests : list (list string) := dests (dm3_eels_rules []).

Definition dm3_eds_dests : list (list string) := dests (dm3_eds_rules []).

Definition tecnai_base_dests : list (list string) :=
  dests (tecnai_base_mapping None None None None None None None None None).

Definition tecnai_tail_dests : list (list string) :=
  dests (tecnai_stage_mapping "" "" "" "" "")
  ++ dests (tecnai_filter_mapping None None None None None None).

Definition tecnai_dests : list (list string) :=
  tecnai_base_dests ++ tecnai_tail_dests.

Definition all_dests : list (list string) :=
  hs_dests ++ dm3_general_dests ++ dm3_eels_dests ++ tecnai_dests ++ dm3_eds_dests.

(** The keys that [_parse_file] writes at the top level of [self.em] from
    the tags that are not pulled into the HyperSpy metadata. *)
Definition non_hs_keys : list string :=
  ["emission_current"; "operation_mode"; "microscope"; "spot_size"].

(** The keys that can occur at the top level of [electron_microscopy]. *)
Definition top_level_keys : list string :=
  sections ++ "raw_metadata" :: non_hs_keys.

(** A property of [self.em] that no write to one of the paths [ds] breaks. *)
Definition preserved_by (P : dict -> Prop) (ds : list (list string)) : Prop :=
  forall (d : dict) (p : list string) (leaf : value) (ov : bool),
    In p ds -> P d -> P (set_path d p leaf ov).

(** A property of [self.em] that no assignment [self.em[k] = v] to one of
    the keys [ks] breaks. *)
Definition preserved_by_keys (P : dict -> Prop) (ks : list string) : Prop :=
  forall (d : dict) (k : string) (v : value),
    In k ks -> P d -> P (dict_set k v d).

(** ** Empty values *)

(** Some entry of [l] has the key [k] and an empty value. *)
Definition has_empty (l : dict) (k : string) : bool :=
  existsb (fun kv => is_empty (snd kv) && String.eqb (fst kv) k) l.

(** A tree without an empty value at any depth. *)
Fixpoint no_empty_values (v : value) : bool :=
  match v with
  | VNone => false
  | VList l =>
      match l with
      | [] => false
      | _ :: _ => forallb no_empty_values l
      end
  | VDict d =>
      match d with
      | [] => false
      | _ :: _ => forallb (fun kv => no_empty_values (snd kv)) d
      end
  | _ => true
  end.

(** ** Datasets used as examples *)

(** [sep.join(lines)]. *)
Fixpoint join (sep : string) (lines : list string) : string :=
  match lines with
  | [] => EmptyString
  | [l] => l
  | l :: lines' => (l ++ sep ++ join sep lines')%string
  end.

(** The structured metadata of a TEM file, without original metadata. *)
Definition tem_dataset : dataset :=
  Dataset
    [("Acquisition_instrument",
      VDict [("TEM", VDict [("beam_energy", VFloat 200);
                            ("microscope", VStr "JEOL")])])]
    [].

(** Original metadata with an empty tag group. *)
Definition empty_tag_dataset : dataset :=
  Dataset [] [("Tag", VDict [])].

(** DigitalMicrograph tags with a "Microscope Info" group and an
    experimental description. *)
Definition microscope_info_dataset : dataset :=
  Dataset []
    [("ImageList",
      VDict [("TagGroup0",
        VDict [("ImageTags",
          VDict [("Microscope Info",
            VDict [(emission_current_key, VFloat 12.5);
                   ("Operation Mode", VStr "IMAGING");
                   ("Name", VStr "Titan")])])])]);
     ("ObjectInfo",
      VDict [("ExperimentalDescription", VDict [("Spot size", VInt 3)])])].

(** DigitalMicrograph tags with the image dimensions [dims]. *)
Definition dimensions_dataset (dims : value) : dataset :=
  Dataset []
    [("ImageList",
      VDict [("TagGroup0",
        VDict [("ImageData", VDict [("Dimensions", dims)])])])].

(** DigitalMicrograph tags with the Voltage tag [voltage]. *)
Definition voltage_dataset (voltage : value) : dataset :=
  Dataset []
    [("ImageList",
      VDict [("TagGroup0",
        VDict [("ImageTags",
          VDict [("Microscope Info", VDict [("Voltage", voltage)])])])])].

(** DigitalMicrograph tags with the Tecnai string [info]. *)
Definition tecnai_dataset (info : string) : dataset :=
  Dataset []
    [("ImageList",
      VDict [("TagGroup0",
        VDict [("ImageTags",
          VDict [("Tecnai", VDict [("Microscope Info", VStr info)])])])])].

(** A Tecnai string with a "Mode " line that both patterns of the defocus
    match. *)
Definition both_defocus_dataset : dataset :=
  tecnai_dataset
    (join line_separator
       ["Gun Extr volt 300 V"; "Emission 120.5uA";
        "Mode TEM Defocus (um) 1.5 Magn 1000x Defocus 2.5 CL 0.3m"]).

(** ** Further notions used by the properties of the parser *)

Definition is_mapping (v : value) : bool :=
  match v with VDict _ => true | _ => false end.

Definition is_string (v : value) : bool :=
  match v with VStr _ => true | _ => false end.

(** The types of the four fields that [_parse_file] writes at the top level
    of [self.em]: what is under the key [k] is a float, a string, a string,
    an integer. *)
Definition non_hs_typed (k : string) (v : value) : Prop :=
  (k = "emission_current" -> exists f, v = VFloat f) /\
  (k = "operation_mode" -> exists s, v = VStr s) /\
  (k = "microscope" -> exists s, v = VStr s) /\
  (k = "spot_size" -> exists z, v = VInt z).

(** The tag that tells a stack, and the tags of a stack that are read. *)
Definition stack_path : list string := image_tags ++ ["plane info"].

Definition source_tags_path : list string :=
  image_tags ++ ["plane info"; "TagGroup0"; "source tags"].

(** DigitalMicrograph tags of a stack: the source tags of the first plane,
    and [direct] beside "plane info". *)
Definition stack_metadata (direct : dict) : dict :=
  [("ImageList",
    VDict [("TagGroup0",
      VDict [("ImageTags",
        VDict (("plane info",
                VDict [("TagGroup0",
                  VDict [("source tags",
                    VDict [("Microscope Info",
                            VDict [("Indicated Magnification", VFloat 5000);
                                   ("Voltage", VFloat 200000)]);
                           ("EELS",
                            VDict [("Acquisition",
                                    VDict [("Exposure (s)", VFloat 0.5)])])])])])
               :: direct))])])].

(** Two rules that read the same value and write it in the same way. *)
Definition same_rule (m1 m2 : MappingElements) : Prop :=
  get_val (source_dict m1) (source_path m1)
  = get_val (source_dict m2) (source_path m2) /\
  dest_path m1 = dest_path m2 /\ cast_fn m1 = cast_fn m2 /\
  units m1 = units m2 /\ conv_fn m1 = conv_fn m2 /\ override m1 = override m2.

(** The conversion of the rule [m] does not raise on what its cast
    returns. *)
Definition conv_total (m : MappingElements) : Prop :=
  forall v c e,
    cast_fn m v = Ok c ->
    match conv_fn m with
    | Some f => f c <> Raise e
    | None => True
    end.

(** The Tecnai string of a file: [self.tecnai_info] before the split. *)
Definition tecnai_string (hs_data : dataset) : value :=
  get_val (VDict (original_metadata hs_data)) path_to_tecnai.

(** Structured metadata whose [Acquisition_instrument] is a string. *)
Definition bad_instrument_dataset : dataset :=
  Dataset [("Acquisition_instrument", VStr "TEM")] [].

(** DigitalMicrograph tags whose Tecnai "Microscope Info" is [info]. *)
Definition tecnai_value_dataset (info : value) : dataset :=
  Dataset []
    [("ImageList",
      VDict [("TagGroup0",
        VDict [("ImageTags",
          VDict [("Tecnai", VDict [("Microscope Info", info)])])])])].



Definition software_name_path : list string :=
  ["General_EM"; "acquisition_software_name"].

Definition microscope_name_path : list string :=
  ["General_EM"; "microscope_name"].

(** The rule of the microscope name in [hs_instrument_rules]. *)
Definition hs_microscope_rule (source : value) : MappingElements :=
  ME source ["microscope"] ["General_EM"; "microscope_name"]
     py_str None None false.

(** The rule of the microscope name in [tecnai_base_mapping]. *)
Definition tecnai_microscope_rule (name : option string) : MappingElements :=
  ME (VDict [("Microscope_Name", opt_str name)])
     ["Microscope_Name"] ["General_EM"; "microscope_name"]
     py_str None None true.

(** A TEM file whose HyperSpy metadata and DigitalMicrograph tags both name
    the microscope. *)
Definition two_names_dataset : dataset :=
  Dataset
    [("Acquisition_instrument",
      VDict [("TEM", VDict [("microscope", VStr "JEOL")])])]
    [("ImageList",
      VDict [("TagGroup0",
        VDict [("ImageTags",
          VDict [("Microscope Info",
                  VDict [("Microscope", VStr "FEI Titan"); ("Name", VStr "Titan")]);
                 ("Session Info", VDict [("Microscope", VStr "Titan 80-300")])])])])].

(** The same file with a Tecnai string. *)
Definition three_names_dataset : dataset :=
  Dataset
    [("Acquisition_instrument",
      VDict [("TEM", VDict [("microscope", VStr "JEOL")])])]
    [("ImageList",
      VDict [("TagGroup0",
        VDict [("ImageTags",
          VDict [("Microscope Info", VDict [("Microscope", VStr "FEI Titan")]);
                 ("Tecnai",
                  VDict [("Microscope Info",
                          VStr (join line_separator
                                  ["Microscope Tecnai 200 kV"; "Gun Extr volt 300 V";
                                   "Emission 120.5uA"; "Mode TEM"]))])])])])].

(** The tags that the top-level fields are read from. *)
Definition micro_info_path : list string :=
  ["ImageList"; "TagGroup0"; "ImageTags"; "Microscope Info"].

Definition exp_desc_path : list string :=
  ["ObjectInfo"; "ExperimentalDescription"].

Definition session_microscope_path : list string :=
  ["ImageList"; "TagGroup0"; "ImageTags"; "Session Info"; "Microscope"].

(** [cast(tree[path])] raises: the tag is not there, or the cast of its
    value raises. *)
Definition read_raises (tree : value) (path : list string)
    (cast : value -> result value) : Prop :=
  get_path tree path = None \/
  exists x e, get_path tree path = Some x /\ cast x = Raise e.

(** A file with an emission current in "Microscope Info" that is no number
    (a decimal comma) and one in the experimental description. *)
Definition two_emissions_dataset : dataset :=
  Dataset []
    [("ImageList",
      VDict [("TagGroup0",
        VDict [("ImageTags",
          VDict [("Microscope Info",
                  VDict [(emission_current_key, VStr "12,5")])])])]);
     ("ObjectInfo",
      VDict [("ExperimentalDescription", VDict [("Emission_uA", VFloat 12.5)])])].

(** Where [_dm3_eels_info] looks for the spectrometer tags. *)
Definition eels_spect_path (raw_meta : dict) : list string :=
  let pre_path := __get_dm3_tag_pre_path raw_meta in
  if is_none (get_val (VDict raw_meta)
                (pre_path ++ ["EELS"; "Acquisition"; "Spectrometer"]))
  then pre_path ++ ["EELS Spectrometer"]
  else pre_path ++ ["EELS"; "Acquisition"; "Spectrometer"].

Definition aperture_size_path : list string := ["EELS"; "aperture_size"].

(** The rule of the aperture in [_dm3_eels_info]. *)
Definition dm3_aperture_rule (raw_meta : dict) : MappingElements :=
  ME (VDict raw_meta) (eels_spect_path raw_meta ++ ["Aperture label"])
     ["EELS"; "aperture_size"] aperture_label (Some "MilliM") None false.

(** Spectrometer tags with an aperture label. *)
Definition aperture_metadata (label : value) : dict :=
  [("ImageList",
    VDict [("TagGroup0",
      VDict [("ImageTags",
        VDict [("EELS Spectrometer",
                VDict [("Aperture label", label);
                       ("Dispersion (eV/ch)", VFloat 0.25)])])])])].

(** * Properties *)

(** ** The outcome monad *)

Lemma bind_Ok {A B : Type} (m : result A) (f : A -> result B) (b : B) :
  bind m f = Ok b -> exists a, m = Ok a /\ f a = Ok b.
Proof. destruct m as [a| |]; simpl; intro H; try discriminate. now exists a. Qed.

Lemma try_except_Ok {A : Type} (body handler : result A) (a : A) :
  try_except body handler = Ok a -> body = Ok a \/ handler = Ok a.
Proof. destruct body; simpl; intro H; auto; discriminate. Qed.

Ltac bind_inv H :=
  let a := fresh "a" in
  let Ha := fresh "Ha" in
  apply bind_Ok in H; destruct H as (a & Ha & H).

Tactic Notation "bind_inv_as" hyp(H) ident(a) ident(Ha) :=
  apply bind_Ok in H; destruct H as (a & Ha & H).

(** ** Dictionaries *)

Lemma dict_get_set_eq (k : string) (v : value) (d : dict) :
  dict_get k (dict_set k v d) = Some v.
Proof.
  induction d as [|[k' v'] d IH]; simpl.
  - now rewrite String.eqb_refl.
  - destruct (String.eqb_spec k k') as [->|Hne]; simpl.
    + now rewrite String.eqb_refl.
    + apply String.eqb_neq in Hne. now rewrite Hne.
Qed.

Lemma dict_get_set_neq (k k' : string) (v : value) (d : dict) :
  k <> k' -> dict_get k' (dict_set k v d) = dict_get k' d.
Proof.
  intro Hne. induction d as [|[k0 v0] d IH]; simpl.
  - destruct (String.eqb_spec k' k); congruence.
  - destruct (String.eqb_spec k k0) as [->|Hk]; simpl.
    + destruct (String.eqb_spec k' k0); congruence.
    + now rewrite IH.
Qed.

Lemma keys_dict_set (k : string) (v : value) (d : dict) (k' : string) :
  In k' (keys (dict_set k v d)) <-> k' = k \/ In k' (keys d).
Proof.
  unfold keys. induction d as [|[k0 v0] d IH]; simpl.
  - intuition.
  - destruct (String.eqb_spec k k0) as [->|Hk]; simpl.
    + intuition.
    + rewrite IH. intuition.
Qed.

Lemma NoDup_keys_dict_set (k : string) (v : value) (d : dict) :
  NoDup (keys d) -> NoDup (keys (dict_set k v d)).
Proof.
  induction d as [|[k0 v0] d IH]; simpl; intro H.
  - constructor; [intros []|constructor].
  - inversion H as [|? ? Hnin Hnd]; subst.
    destruct (String.eqb_spec k k0) as [->|Hk]; simpl.
    + now constructor.
    + constructor; [|now apply IH].
      intro Hin. apply (keys_dict_set k v d k0) in Hin. destruct Hin; congruence.
Qed.

Lemma dict_get_In_keys (k : string) (d : dict) (v : value) :
  dict_get k d = Some v -> In k (keys d).
Proof.
  induction d as [|[k0 v0] d IH]; simpl; [discriminate|].
  destruct (String.eqb_spec k k0) as [->|Hk]; auto.
Qed.

Lemma dict_get_None_keys (k : string) (d : dict) :
  dict_get k d = None <-> ~ In k (keys d).
Proof.
  induction d as [|[k0 v0] d IH]; simpl; [intuition|].
  destruct (String.eqb_spec k k0) as [->|Hk].
  - split; [discriminate|]. intro H. exfalso. apply H. now left.
  - rewrite IH. intuition congruence.
Qed.

(** ** Writes along a path *)

Lemma set_path_other_key (d : dict) (k : string) (rest : list string)
    (leaf : value) (ov : bool) (k' : string) :
  k <> k' ->
  dict_get k' (set_path d (k :: rest) leaf ov) = dict_get k' d.
Proof.
  intro Hne. simpl. destruct rest as [|r rest].
  - destruct (dict_get k d) as [old|]; [destruct (ov || is_empty old)|];
      auto using dict_get_set_neq.
  - destruct (dict_get k d) as [[]|]; auto using dict_get_set_neq.
Qed.

Lemma set_path_keys (d : dict) (k : string) (rest : list string)
    (leaf : value) (ov : bool) (k' : string) :
  In k' (keys (set_path d (k :: rest) leaf ov)) -> k' = k \/ In k' (keys d).
Proof.
  simpl. destruct rest as [|r rest].
  - destruct (dict_get k d) as [old|]; [destruct (ov || is_empty old)|];
      rewrite ?keys_dict_set; auto.
  - destruct (dict_get k d) as [[]|]; rewrite ?keys_dict_set; auto.
Qed.

Lemma set_path_NoDup (d : dict) (p : list string) (leaf : value) (ov : bool) :
  NoDup (keys d) -> NoDup (keys (set_path d p leaf ov)).
Proof.
  intro H. destruct p as [|k [|r rest]]; simpl; auto.
  - destruct (dict_get k d) as [old|]; [destruct (ov || is_empty old)|];
      auto using NoDup_keys_dict_set.
  - destruct (dict_get k d) as [[]|]; auto using NoDup_keys_dict_set.
Qed.

(** A section that holds a mapping still holds one after a write below a
    section. *)
Lemma set_path_keeps_mapping (d : dict) (p : list string) (leaf : value)
    (ov : bool) (k : string) (sub : dict) :
  section_path p = true ->
  dict_get k d = Some (VDict sub) ->
  exists sub', dict_get k (set_path d p leaf ov) = Some (VDict sub').
Proof.
  intros Hp Hk. destruct p as [|s [|r rest]]; try discriminate.
  destruct (String.eqb_spec s k) as [->|Hne].
  - simpl. rewrite Hk. rewrite dict_get_set_eq. eauto.
  - rewrite set_path_other_key by assumption. eauto.
Qed.

Lemma set_path_cons (d : dict) (k r : string) (rest : list string)
    (leaf : value) (ov : bool) :
  set_path d (k :: r :: rest) leaf ov =
  match dict_get k d with
  | Some (VDict sub) => dict_set k (VDict (set_path sub (r :: rest) leaf ov)) d
  | Some _ => d
  | None => dict_set k (VDict (set_path [] (r :: rest) leaf ov)) d
  end.
Proof. reflexivity. Qed.

Lemma set_path_last (d : dict) (k : string) (leaf : value) (ov : bool) :
  set_path d [k] leaf ov =
  match dict_get k d with
  | Some old => if ov || is_empty old then dict_set k leaf d else d
  | None => dict_set k leaf d
  end.
Proof. reflexivity. Qed.

Lemma get_path_cons (d : dict) (k : string) (p : list string) :
  get_path (VDict d) (k :: p) =
  match dict_get k d with
  | Some v => get_path v p
  | None => None
  end.
Proof. reflexivity. Qed.

(** A write leaves the value at every incomparable path as it is. *)
Lemma set_path_frame (q : list string) :
  forall (d : dict) (p : list string) (leaf : value) (ov : bool),
    incomparable p q = true ->
    get_path (VDict (set_path d q leaf ov)) p = get_path (VDict d) p.
Proof.
  induction q as [|k rest IH]; intros d p leaf ov Hinc.
  - destruct p; discriminate.
  - destruct p as [|a p']; [discriminate|]. simpl in Hinc.
    rewrite !get_path_cons.
    destruct (String.eqb_spec a k) as [->|Hne].
    + destruct rest as [|r rest]; [destruct p'; discriminate|].
      rewrite set_path_cons.
      destruct (dict_get k d) as [[]|] eqn:Hk; rewrite ?Hk; auto;
        rewrite dict_get_set_eq.
      * apply IH. assumption.
      * rewrite IH by assumption. destruct p'; [discriminate|reflexivity].
    + rewrite set_path_other_key; congruence.
Qed.

Lemma get_path_nonempty_dict (d : dict) (k : string) (p : list string) (x : value) :
  get_path (VDict d) (k :: p) = Some x -> is_empty (VDict d) = false.
Proof. destruct d; [discriminate|reflexivity]. Qed.

(** Without override, a write leaves a non-empty value as it is, unless it
    goes strictly below that value. *)
Lemma set_path_write_once (q : list string) :
  forall (d : dict) (p : list string) (x leaf : value),
    get_path (VDict d) p = Some x ->
    is_empty x = false ->
    strict_prefix p q = false ->
    get_path (VDict (set_path d q leaf false)) p = Some x.
Proof.
  induction q as [|k rest IH]; intros d p x leaf Hget Hx Hpre; [exact Hget|].
  destruct p as [|a p'].
  - discriminate.
  - simpl in Hpre. rewrite get_path_cons in *.
    destruct (String.eqb_spec a k) as [->|Hne].
    + simpl in Hpre. destruct (dict_get k d) as [v|] eqn:Hk; [|discriminate].
      destruct rest as [|r rest].
      * (* the write targets [p] itself or a prefix of [p] *)
        assert (Hv : is_empty v = false).
        { destruct p' as [|b p'']; simpl in Hget.
          - now inversion Hget; subst.
          - destruct v; try discriminate. eapply get_path_nonempty_dict.
            rewrite get_path_cons. exact Hget. }
        rewrite set_path_last, Hk, Hv. simpl. now rewrite Hk.
      * rewrite set_path_cons, Hk.
        destruct v; rewrite ?Hk; auto. rewrite dict_get_set_eq.
        destruct p' as [|b p''].
        -- discriminate.
        -- apply IH; assumption.
    + rewrite set_path_other_key; congruence.
Qed.

(** ** The mapping engine *)

Lemma apply_rule_cases (dest : dict) (m : MappingElements) (dest' : dict) :
  apply_rule dest m = Ok dest' ->
  dest' = dest \/
  exists leaf, dest' = set_path dest (dest_path m) leaf (override m).
Proof.
  unfold apply_rule, set_val_units. intro H.
  destruct (get_val (source_dict m) (source_path m));
    try (injection H as <-; now left);
    (destruct (cast_fn m _) as [c| |]; [|injection H as <-; now left|discriminate];
     bind_inv H; injection H as <-; right; eauto).
Qed.

Lemma map_dict_values_app (l1 l2 : list MappingElements) (d : dict) :
  map_dict_values (l1 ++ l2) d =
  (d' <- map_dict_values l1 d ;; map_dict_values l2 d').
Proof.
  revert d. induction l1 as [|m l1 IH]; intro d; simpl; [reflexivity|].
  destruct (apply_rule d m); simpl; auto.
Qed.

Lemma preserved_by_incl (P : dict -> Prop) (ds ds' : list (list string)) :
  incl ds ds' -> preserved_by P ds' -> preserved_by P ds.
Proof. intros Hi HP d p leaf ov Hin. apply HP. now apply Hi. Qed.

Lemma map_dict_values_preserved (P : dict -> Prop) (ds : list (list string))
    (rules : list MappingElements) :
  preserved_by P ds -> incl (dests rules) ds ->
  forall d d', map_dict_values rules d = Ok d' -> P d -> P d'.
Proof.
  intros HP. induction rules as [|m rules IH]; intros Hi d d' H Hd; simpl in H.
  - now injection H as <-.
  - bind_inv H. apply IH with (d := a); auto.
    + intros p Hp. apply Hi. now right.
    + destruct (apply_rule_cases _ _ _ Ha) as [->|[leaf ->]]; auto.
      apply HP; auto. apply Hi. now left.
Qed.

(** ** The destination paths of each stage *)

Lemma hs_instrument_rules_dests (source : value) :
  incl (dests (hs_instrument_rules source)) hs_dests.
Proof. unfold hs_dests. apply incl_appl, incl_refl. Qed.

Lemma hs_detector_rules_dests (inst_data : value) :
  incl (dests (hs_detector_rules inst_data)) hs_dests.
Proof.
  unfold hs_dests. apply incl_appr, incl_appl.
  unfold hs_detector_rules, dests.
  destruct (is_none (get_val inst_data ["Detector"])); simpl;
    intros p Hp; simpl in Hp; simpl; tauto.
Qed.

Lemma hs_general_rules_dests (source : value) :
  incl (dests (hs_general_rules source)) hs_dests.
Proof. unfold hs_dests. apply incl_appr, incl_appr, incl_refl. Qed.

Lemma dm3_general_rules_dests (raw_meta : dict) (voltage : value) :
  incl (dests (dm3_general_rules raw_meta voltage)) dm3_general_dests.
Proof.
  unfold dm3_general_rules, dm3_general_dests, dm3_general_tail_dests, dests.
  rewrite !map_app. apply incl_tl.
  repeat apply incl_app.
  - apply incl_appl, incl_refl.
  - apply incl_appr, incl_appl. unfold dm3_voltage_rules.
    destruct (is_none voltage); [intros p []|apply incl_refl].
  - apply incl_appr, incl_appr, incl_appl, incl_refl.
  - apply incl_appr, incl_appr, incl_appr, incl_appl, incl_refl.
  - apply incl_appr, incl_appr, incl_appr, incl_appr, incl_refl.
Qed.

Lemma dm3_eels_rules_dests (raw_meta : dict) :
  dests (dm3_eels_rules raw_meta) = dm3_eels_dests.
Proof. reflexivity. Qed.

Lemma dm3_eds_rules_dests (raw_meta : dict) :
  dests (dm3_eds_rules raw_meta) = dm3_eds_dests.
Proof. reflexivity. Qed.

Lemma tecnai_base_rules_dests (info : list string) (l : list MappingElements) :
  tecnai_base_rules info = Ok l -> dests l = tecnai_base_dests.
Proof.
  unfold tecnai_base_rules. intro H.
  repeat bind_inv H. now injection H as <-.
Qed.

Lemma tecnai_stage_rules_dests (info : list string) (l : list MappingElements) :
  tecnai_stage_rules info = Ok l -> incl (dests l) tecnai_tail_dests.
Proof.
  unfold tecnai_stage_rules, tecnai_tail_dests. intro H.
  destruct (__find_val "Stage" info) as [[|c s]|].
  - injection H as <-. intros p [].
  - bind_inv H. destruct a as [|x [|y [|z [|]]]]; try discriminate.
    bind_inv H. destruct a as [|al [|be [|]]]; try discriminate.
    injection H as <-. apply incl_appl, incl_refl.
  - injection H as <-. intros p [].
Qed.

Lemma tecnai_filter_rules_dests (info : list string) (l : list MappingElements) :
  tecnai_filter_rules info = Ok l -> incl (dests l) tecnai_tail_dests.
Proof.
  unfold tecnai_filter_rules, tecnai_tail_dests. intro H.
  destruct (__find_val "Filter related settings" info) as [[|c s]|].
  - injection H as <-. intros p [].
  - repeat bind_inv H. injection H as <-. apply incl_appr, incl_refl.
  - injection H as <-. intros p [].
Qed.

(** ** What every stage preserves *)

Lemma _process_hs_data_preserved (P : dict -> Prop) (meta em em' : dict) :
  preserved_by P hs_dests ->
  _process_hs_data meta em = Ok em' -> P em -> P em'.
Proof.
  intros HP H Hem. unfold _process_hs_data in H.
  bind_inv H. bind_inv H.
  eapply map_dict_values_preserved; eauto using hs_general_rules_dests.
  destruct (is_none _).
  - now injection Ha0 as <-.
  - bind_inv Ha0. unfold _process_hs_detectors in Ha0.
    eapply map_dict_values_preserved;
      eauto using hs_detector_rules_dests.
    eapply map_dict_values_preserved;
      eauto using hs_instrument_rules_dests.
Qed.

Lemma _dm3_general_info_preserved (P : dict -> Prop) (raw_meta em em' : dict) :
  preserved_by P dm3_general_dests ->
  _dm3_general_info raw_meta em = Ok em' -> P em -> P em'.
Proof.
  intros HP H Hem. unfold _dm3_general_info in H. bind_inv H.
  eapply map_dict_values_preserved; eauto using dm3_general_rules_dests.
  destruct (is_none _); auto.
  apply HP; auto. now left.
Qed.

Lemma _dm3_eels_info_preserved (P : dict -> Prop) (raw_meta em em' : dict) :
  preserved_by P dm3_eels_dests ->
  _dm3_eels_info raw_meta em = Ok em' -> P em -> P em'.
Proof.
  intros HP H Hem. eapply map_dict_values_preserved; eauto.
  rewrite dm3_eels_rules_dests. apply incl_refl.
Qed.

Lemma _dm3_eds_info_preserved (P : dict -> Prop) (raw_meta em em' : dict) :
  preserved_by P dm3_eds_dests ->
  _dm3_eds_info raw_meta em = Ok em' -> P em -> P em'.
Proof.
  intros HP H Hem. eapply map_dict_values_preserved; eauto.
  rewrite dm3_eds_rules_dests. apply incl_refl.
Qed.

Lemma _dm3_tecnai_info_preserved (P : dict -> Prop) (delimiter : string)
    (raw_meta em em' : dict) :
  preserved_by P tecnai_dests ->
  _dm3_tecnai_info delimiter raw_meta em = Ok em' -> P em -> P em'.
Proof.
  intros HP H Hem. unfold _dm3_tecnai_info in H.
  destruct (get_val _ _); try discriminate.
  - now injection H as <-.
  - bind_inv H. bind_inv H. bind_inv H.
    eapply map_dict_values_preserved; eauto.
    unfold dests, tecnai_dests. rewrite !map_app.
    apply incl_app; [|apply incl_app].
    + apply incl_appl. fold (dests a).
      rewrite (tecnai_base_rules_dests _ _ Ha). apply incl_refl.
    + apply incl_appr. eapply tecnai_stage_rules_dests; eauto.
    + apply incl_appr. eapply tecnai_filter_rules_dests; eauto.
Qed.

Lemma non_hs_data_preserved (P : dict -> Prop) (raw_meta em em' : dict) :
  preserved_by_keys P non_hs_keys ->
  non_hs_data raw_meta em = Ok em' -> P em -> P em'.
Proof.
  intros HP H Hem. unfold non_hs_data in H.
  bind_inv H. bind_inv H. bind_inv H. bind_inv H. bind_inv H.
  assert (H1 : P a1).
  { apply try_except_Ok in Ha1. destruct Ha1 as [Hb|Hb].
    - bind_inv Hb. bind_inv Hb. injection Hb as <-. apply HP; simpl; auto.
    - apply try_except_Ok in Hb. destruct Hb as [Hb|Hb].
      + bind_inv Hb. bind_inv Hb. injection Hb as <-. apply HP; simpl; auto.
      + now injection Hb as <-. }
  assert (H2 : P a2).
  { apply try_except_Ok in Ha2. destruct Ha2 as [Hb|Hb].
    - bind_inv Hb. bind_inv Hb. injection Hb as <-. apply HP; simpl; auto.
    - now injection Hb as <-. }
  assert (H3 : P a3).
  { apply try_except_Ok in Ha3. destruct Ha3 as [Hb|Hb].
    - bind_inv Hb. bind_inv Hb. injection Hb as <-. apply HP; simpl; auto.
    - apply try_except_Ok in Hb. destruct Hb as [Hb|Hb].
      + bind_inv Hb. bind_inv Hb. injection Hb as <-. apply HP; simpl; auto.
      + now injection Hb as <-. }
  apply try_except_Ok in H. destruct H as [Hb|Hb].
  - bind_inv Hb. bind_inv Hb. injection Hb as <-. apply HP; simpl; auto.
  - now injection Hb as <-.
Qed.

(** ** The removal of empty values *)

Lemma remove_empty_fold (l acc : dict) :
  fold_left
    (fun (acc : dict) (kv : string * value) =>
       if is_empty (snd kv) then dict_pop (fst kv) acc else acc) l acc
  = filter (fun kv => negb (has_empty l (fst kv))) acc.
Proof.
  revert acc. induction l as [|[k v] l IH]; intro acc; simpl.
  - induction acc as [|x acc IHa]; simpl; congruence.
  - rewrite IH. unfold dict_pop. destruct (is_empty v); simpl.
    + induction acc as [|[k0 v0] acc IHa]; simpl; auto.
      destruct (String.eqb k k0); simpl; rewrite IHa; reflexivity.
    + reflexivity.
Qed.

Lemma remove_empty_filter (em : dict) :
  remove_empty em = filter (fun kv => negb (has_empty em (fst kv))) em.
Proof. apply remove_empty_fold. Qed.

Lemma has_empty_false (em : dict) :
  Forall (fun kv => is_empty (snd kv) = false) em ->
  forall k, has_empty em k = false.
Proof.
  intros H k. unfold has_empty. induction H as [|[k0 v0] l Hx Hl IH]; simpl; auto.
  simpl in Hx. now rewrite Hx.
Qed.

Lemma filter_all {A : Type} (f : A -> bool) (l : list A) :
  Forall (fun x => f x = true) l -> filter f l = l.
Proof. induction 1 as [|x l Hx Hl IH]; simpl; [|rewrite Hx, IH]; reflexivity. Qed.

Lemma has_empty_In (em : dict) (k : string) :
  has_empty em k = true <-> exists v, In (k, v) em /\ is_empty v = true.
Proof.
  unfold has_empty. rewrite existsb_exists. split.
  - intros [[k0 v0] [Hin H]]. simpl in H. apply andb_true_iff in H.
    destruct H as [He Hk]. apply String.eqb_eq in Hk. subst. eauto.
  - intros [v [Hin He]]. exists (k, v). simpl.
    now rewrite He, String.eqb_refl.
Qed.

Lemma In_dict_get (em : dict) (k : string) (v : value) :
  NoDup (keys em) -> In (k, v) em -> dict_get k em = Some v.
Proof.
  induction em as [|[k0 v0] em IH]; simpl; intros Hnd Hin; [contradiction|].
  inversion Hnd as [|? ? Hnin Hnd']; subst.
  destruct Hin as [Heq|Hin].
  - injection Heq as -> ->. now rewrite String.eqb_refl.
  - destruct (String.eqb_spec k k0) as [->|Hne]; auto.
    exfalso. apply Hnin. unfold keys. apply in_map_iff. now exists (k0, v).
Qed.

Lemma dict_get_In (em : dict) (k : string) (v : value) :
  dict_get k em = Some v -> In (k, v) em.
Proof.
  induction em as [|[k0 v0] em IH]; simpl; [discriminate|].
  destruct (String.eqb_spec k k0) as [->|Hne]; intro H; auto.
  injection H as ->. now left.
Qed.

Lemma remove_empty_NoDup (em : dict) :
  NoDup (keys em) ->
  remove_empty em = filter (fun kv => negb (is_empty (snd kv))) em.
Proof.
  intro Hnd. rewrite remove_empty_filter. apply filter_ext_in.
  intros [k v] Hin. simpl. f_equal.
  destruct (is_empty v) eqn:He.
  - apply has_empty_In. eauto.
  - destruct (has_empty em k) eqn:Hh; auto.
    apply has_empty_In in Hh. destruct Hh as [v' [Hin' He']].
    apply (In_dict_get _ _ _ Hnd) in Hin, Hin'. congruence.
Qed.

Lemma dict_get_filter (f : value -> bool) (em : dict) (k : string) :
  NoDup (keys em) ->
  dict_get k (filter (fun kv => f (snd kv)) em) =
  match dict_get k em with
  | Some v => if f v then Some v else None
  | None => None
  end.
Proof.
  induction em as [|[k0 v0] em IH]; simpl; intro Hnd; auto.
  inversion Hnd as [|? ? Hnin Hnd']; subst.
  destruct (String.eqb_spec k k0) as [->|Hne].
  - destruct (f v0) eqn:Hf; simpl.
    + now rewrite String.eqb_refl.
    + rewrite IH by assumption.
      apply dict_get_None_keys in Hnin. now rewrite Hnin.
  - destruct (f v0); simpl; auto.
    apply String.eqb_neq in Hne. now rewrite Hne; auto.
Qed.

Lemma dict_get_remove_empty (em : dict) (k : string) :
  NoDup (keys em) ->
  dict_get k (remove_empty em) =
  match dict_get k em with
  | Some v => if is_empty v then None else Some v
  | None => None
  end.
Proof.
  intro Hnd. rewrite remove_empty_NoDup by assumption.
  rewrite (dict_get_filter (fun v => negb (is_empty v))) by assumption.
  destruct (dict_get k em) as [v|]; auto. now destruct (is_empty v).
Qed.

Lemma keys_remove_empty (em : dict) (k : string) :
  In k (keys (remove_empty em)) -> In k (keys em).
Proof.
  rewrite remove_empty_filter. unfold keys. rewrite !in_map_iff.
  intros [kv [Hk Hin]]. apply filter_In in Hin. exists kv. tauto.
Qed.

(** ** The record *)

Lemma make_record_em (em image : dict) (q : list string) :
  em <> [] ->
  get_path (VDict (make_record em image)) ("electron_microscopy" :: q) =
  get_path (VDict em) q.
Proof.
  intro Hem. unfold make_record. destruct em as [|kv em]; [congruence|].
  destruct image; reflexivity.
Qed.

Lemma make_record_get_em (em image : dict) :
  dict_get "electron_microscopy" (make_record em image) =
  match em with [] => None | _ :: _ => Some (VDict em) end.
Proof. unfold make_record. destruct em, image; reflexivity. Qed.

Lemma make_record_get_image (em image : dict) :
  dict_get "image" (make_record em image) =
  match image with [] => None | _ :: _ => Some (VDict image) end.
Proof. unfold make_record. destruct em, image; reflexivity. Qed.

(** ** The stages of [_parse_file] *)

Lemma _parse_file_stages (hs_data : dataset) (record : dict) :
  _parse_file hs_data = Ok record ->
  exists em1 em2 em3 em4 em5 em6 image,
    _process_hs_data (metadata hs_data)
      (initial_em (original_metadata hs_data)) = Ok em1 /\
    _dm3_general_info (original_metadata hs_data) em1 = Ok em2 /\
    _dm3_eels_info (original_metadata hs_data) em2 = Ok em3 /\
    _dm3_tecnai_info line_separator (original_metadata hs_data) em3 = Ok em4 /\
    _dm3_eds_info (original_metadata hs_data) em4 = Ok em5 /\
    non_hs_data (original_metadata hs_data) em5 = Ok em6 /\
    image_metadata (original_metadata hs_data) = Ok image /\
    record = make_record (remove_empty em6) image.
Proof.
  unfold _parse_file. intro H.
  bind_inv H. bind_inv H. bind_inv H. bind_inv H. bind_inv H. bind_inv H.
  bind_inv H. injection H as <-.
  exists a, a0, a1, a2, a3, a4, a5. tauto.
Qed.

Lemma preserved_by_all (P : dict -> Prop) :
  preserved_by P all_dests ->
  preserved_by P hs_dests /\ preserved_by P dm3_general_dests /\
  preserved_by P dm3_eels_dests /\ preserved_by P tecnai_dests /\
  preserved_by P dm3_eds_dests.
Proof.
  intro H. unfold all_dests in H. repeat split;
    (eapply preserved_by_incl; [|exact H]).
  - apply incl_appl, incl_refl.
  - apply incl_appr, incl_appl, incl_refl.
  - apply incl_appr, incl_appr, incl_appl, incl_refl.
  - apply incl_appr, incl_appr, incl_appr, incl_appl, incl_refl.
  - apply incl_appr, incl_appr, incl_appr, incl_appr, incl_refl.
Qed.

(** A property of [self.em] that holds at the start and that no write of
    [_parse_file] breaks holds of the dictionary that is pruned at the end. *)
Lemma _parse_file_invariant (P : dict -> Prop) (hs_data : dataset) (record : dict) :
  preserved_by P all_dests ->
  preserved_by_keys P non_hs_keys ->
  P (initial_em (original_metadata hs_data)) ->
  _parse_file hs_data = Ok record ->
  exists em image,
    P em /\ image_metadata (original_metadata hs_data) = Ok image /\
    record = make_record (remove_empty em) image.
Proof.
  intros HP HK H0 H.
  destruct (_parse_file_stages _ _ H)
    as (em1 & em2 & em3 & em4 & em5 & em6 & image
        & H1 & H2 & H3 & H4 & H5 & H6 & H7 & ->).
  destruct (preserved_by_all P HP) as (Pa & Pb & Pc & Pd & Pe).
  exists em6, image. repeat split; auto.
  eapply non_hs_data_preserved; eauto.
  eapply _dm3_eds_info_preserved; eauto.
  eapply _dm3_tecnai_info_preserved; eauto.
  eapply _dm3_eels_info_preserved; eauto.
  eapply _dm3_general_info_preserved; eauto.
  eapply _process_hs_data_preserved; eauto.
Qed.

Lemma section_path_inv (p : list string) :
  section_path p = true ->
  exists s r rest, p = s :: r :: rest /\ In s sections.
Proof.
  destruct p as [|s [|r rest]]; try discriminate. unfold section_path.
  intro H. apply existsb_exists in H. destruct H as [x [Hin Heq]].
  apply String.eqb_eq in Heq. subst x. now exists s, r, rest.
Qed.

Lemma all_dests_section_path (p : list string) :
  In p all_dests -> section_path p = true.
Proof.
  assert (H : forallb section_path all_dests = true) by reflexivity.
  rewrite forallb_forall in H. apply H.
Qed.

(** ** Invariants of [self.em] *)

Lemma sections_not_raw_metadata (k : string) :
  In k sections -> ~ In k ("raw_metadata" :: non_hs_keys).
Proof.
  unfold sections, non_hs_keys. simpl.
  intros [<-|[<-|[<-|[<-|[<-|[<-|[]]]]]]] H;
    repeat (destruct H as [H|H]; [discriminate|]); contradiction.
Qed.

Lemma top_key_preserved (k : string) (v : option value) :
  ~ In k sections ->
  preserved_by (fun em => dict_get k em = v) all_dests.
Proof.
  intros Hk d p leaf ov Hp Hd.
  apply all_dests_section_path, section_path_inv in Hp.
  destruct Hp as (s & r & rest & -> & Hs).
  rewrite set_path_other_key; [assumption|]. intros ->. contradiction.
Qed.

Lemma top_key_preserved_keys (k : string) (v : option value) (ks : list string) :
  ~ In k ks ->
  preserved_by_keys (fun em => dict_get k em = v) ks.
Proof.
  intros Hk d k' x Hin Hd. rewrite dict_get_set_neq; [assumption|].
  intros ->. contradiction.
Qed.

Lemma NoDup_preserved (ds : list (list string)) :
  preserved_by (fun em => NoDup (keys em)) ds.
Proof. intros d p leaf ov _. apply set_path_NoDup. Qed.

Lemma NoDup_preserved_keys (ks : list string) :
  preserved_by_keys (fun em => NoDup (keys em)) ks.
Proof. intros d k v _. apply NoDup_keys_dict_set. Qed.

Lemma preserved_by_and (P Q : dict -> Prop) (ds : list (list string)) :
  preserved_by P ds -> preserved_by Q ds ->
  preserved_by (fun em => P em /\ Q em) ds.
Proof. intros HP HQ d p leaf ov Hin [Hp Hq]. split; [apply HP|apply HQ]; auto. Qed.

Lemma preserved_by_keys_and (P Q : dict -> Prop) (ks : list string) :
  preserved_by_keys P ks -> preserved_by_keys Q ks ->
  preserved_by_keys (fun em => P em /\ Q em) ks.
Proof. intros HP HQ d k v Hin [Hp Hq]. split; [apply HP|apply HQ]; auto. Qed.

Lemma initial_em_NoDup (raw_meta : dict) : NoDup (keys (initial_em raw_meta)).
Proof.
  unfold initial_em. simpl.
  repeat (constructor; [simpl; intros H;
    repeat (destruct H as [H|H]; [discriminate|]); contradiction|]).
  constructor.
Qed.

Lemma top_level_keys_preserved :
  preserved_by (fun em => incl (keys em) top_level_keys) all_dests.
Proof.
  intros d p leaf ov Hp Hd k Hk.
  apply all_dests_section_path, section_path_inv in Hp.
  destruct Hp as (s & r & rest & -> & Hs).
  apply set_path_keys in Hk. destruct Hk as [->|Hk]; [|now apply Hd].
  unfold top_level_keys. apply in_or_app. now left.
Qed.

Lemma top_level_keys_preserved_keys :
  preserved_by_keys (fun em => incl (keys em) top_level_keys) non_hs_keys.
Proof.
  intros d k v Hin Hd k' Hk'.
  apply keys_dict_set in Hk'. destruct Hk' as [->|Hk']; [|now apply Hd].
  unfold top_level_keys. apply in_or_app. right. now right.
Qed.

(** ** Properties of the parser *)

(** *** C9 *)

Lemma no_empty_values_top (x : dict) :
  no_empty_values (VDict x) = true ->
  Forall (fun kv => is_empty (snd kv) = false) x.
Proof.
  destruct x as [|kv x]; [discriminate|].
  change (no_empty_values (VDict (kv :: x)))
    with (forallb (fun kv => no_empty_values (snd kv)) (kv :: x)).
  generalize (kv :: x). clear. intros l H.
  rewrite forallb_forall in H. apply Forall_forall. intros [k v] Hin.
  apply H in Hin. simpl in *. destruct v as [| | | | |[|]|[|]]; auto; discriminate.
Qed.

Lemma remove_empty_twice (x : dict) :
  remove_empty (remove_empty x) = remove_empty x.
Proof.
  rewrite (remove_empty_filter (remove_empty x)).
  apply filter_all. apply Forall_forall. intros [k v] Hin.
  simpl. apply negb_true_iff.
  destruct (has_empty (remove_empty x) k) eqn:Hh; auto.
  apply has_empty_In in Hh. destruct Hh as [v' [Hin' He]].
  rewrite remove_empty_filter in Hin'. apply filter_In in Hin'.
  destruct Hin' as [Hx Hn]. simpl in Hn. apply negb_true_iff in Hn.
  assert (Ht : has_empty x k = true) by (apply has_empty_In; eauto).
  congruence.
Qed.

Lemma remove_empty_unchanged (x : dict) :
  Forall (fun kv => is_empty (snd kv) = false) x -> remove_empty x = x.
Proof.
  intro H. rewrite remove_empty_filter. apply filter_all.
  apply Forall_forall. intros kv _. now rewrite has_empty_false.
Qed.

(** A tree without empty values at any depth is left unchanged. *)
Lemma remove_empty_no_empty_values (x : dict) :
  no_empty_values (VDict x) = true -> remove_empty x = x.
Proof.
  intro H. apply remove_empty_unchanged. now apply no_empty_values_top.
Qed.

(** C9. The removal of empty values, the loop at the end of [_parse_file],
    is idempotent: removing twice gives what removing once gives, for every
    dictionary [x]; and a dictionary none of whose values is empty is left
    unchanged.  The second part asks only that no value at the top level is
    [None], [[]] or [{}], which a tree without empty values at any depth
    satisfies ([no_empty_values_top]). *)
Theorem remove_empty_idempotent (x : dict) :
  remove_empty (remove_empty x) = remove_empty x /\
  (Forall (fun kv => is_empty (snd kv) = false) x -> remove_empty x = x).
Proof. split; [apply remove_empty_twice|apply remove_empty_unchanged]. Qed.

Lemma remove_empty_idempotent_witness :
  Forall (fun kv => is_empty (snd kv) = false)
    [("General_EM", VDict [("microscope_name", VStr "JEOL")])] /\
  remove_empty [("General_EM", VDict [("microscope_name", VStr "JEOL")])]
  = [("General_EM", VDict [("microscope_name", VStr "JEOL")])].
Proof.
  assert (H : Forall (fun kv => is_empty (snd kv) = false)
                [("General_EM", VDict [("microscope_name", VStr "JEOL")])])
    by (repeat constructor).
  split; [exact H|].
  exact (proj2 (remove_empty_idempotent
                  [("General_EM", VDict [("microscope_name", VStr "JEOL")])]) H).
Defined.

(** *** C5 *)

(** C5, as the code has it.  Original metadata with an empty tag group: the
    record keeps the empty mapping below [raw_metadata]; only the six empty
    sections, at the top level, are removed. *)
Lemma nested_empty_value_is_kept :
  _parse_file empty_tag_dataset
  = Ok [("electron_microscopy",
         VDict [("raw_metadata", VDict [("Tag", VDict [])])])].
Proof. reflexivity. Qed.

(** C5, amended.  The final removal of empty values works on the top level
    of [self.em] only: it keeps exactly the entries whose value is not
    [None], [[]] or [{}], in their order and with their values as they are,
    whatever these values contain.  (A dictionary has each key once; for
    the one that [_parse_file] prunes this is [_parse_file_NoDup].) *)
Theorem remove_empty_top_level_only (em : dict) :
  NoDup (keys em) ->
  remove_empty em = filter (fun kv => negb (is_empty (snd kv))) em.
Proof. apply remove_empty_NoDup. Qed.

Lemma remove_empty_top_level_only_witness :
  NoDup (keys [("raw_metadata", VDict [("Tag", VDict [])]); ("General", VDict [])]) /\
  remove_empty [("raw_metadata", VDict [("Tag", VDict [])]); ("General", VDict [])]
  = [("raw_metadata", VDict [("Tag", VDict [])])].
Proof.
  assert (H : NoDup (keys [("raw_metadata", VDict [("Tag", VDict [])]);
                           ("General", VDict [])])).
  { repeat constructor; simpl; intuition discriminate. }
  split; [exact H|].
  exact (remove_empty_top_level_only _ H).
Defined.

(** The dictionary that [_parse_file] prunes has no key twice. *)
Lemma _parse_file_NoDup (hs_data : dataset) (record : dict) :
  _parse_file hs_data = Ok record ->
  exists em image,
    NoDup (keys em) /\ record = make_record (remove_empty em) image.
Proof.
  intro H.
  destruct (_parse_file_invariant (fun em => NoDup (keys em)) hs_data record)
    as (em & image & Hnd & _ & ->);
    auto using NoDup_preserved, NoDup_preserved_keys, initial_em_NoDup.
  eauto.
Qed.

(** *** C1 *)

(** C1, as the code has it.  The end-to-end example of the spec, a TEM file
    with empty original metadata: the record has no [raw_metadata]. *)
Lemma empty_raw_metadata_is_dropped :
  _parse_file tem_dataset
  = Ok [("electron_microscopy",
         VDict [("General_EM",
                 VDict [("beam_energy",
                         VDict [("value", VFloat 200); ("unit", VStr "KiloEV")]);
                        ("microscope_name", VStr "JEOL")])])].
Proof. reflexivity. Qed.

(** C1, amended.  When the original metadata is not empty, the record holds
    it, as it is, under [electron_microscopy.raw_metadata]; when it is empty
    the record has no [raw_metadata]. *)
Theorem raw_metadata_retained (hs_data : dataset) (record : dict) :
  _parse_file hs_data = Ok record ->
  get_path (VDict record) ["electron_microscopy"; "raw_metadata"] =
  match original_metadata hs_data with
  | [] => None
  | _ :: _ => Some (VDict (original_metadata hs_data))
  end.
Proof.
  intro H.
  destruct (_parse_file_invariant
              (fun em => dict_get "raw_metadata" em
                         = Some (VDict (original_metadata hs_data))
                         /\ NoDup (keys em)) hs_data record)
    as (em & image & [Hraw Hnd] & _ & ->); auto.
  - apply preserved_by_and; [apply top_key_preserved|apply NoDup_preserved].
    unfold sections. simpl. intuition discriminate.
  - apply preserved_by_keys_and;
      [apply top_key_preserved_keys|apply NoDup_preserved_keys].
    unfold non_hs_keys. simpl. intuition discriminate.
  - split; [reflexivity|apply initial_em_NoDup].
  - pose proof (dict_get_remove_empty em "raw_metadata" Hnd) as Hr.
    rewrite Hraw in Hr.
    destruct (original_metadata hs_data) as [|kv raw] eqn:Hom; simpl in Hr.
    + rewrite get_path_cons, make_record_get_em.
      destruct (remove_empty em) eqn:He; [reflexivity|].
      rewrite get_path_cons, Hr. reflexivity.
    + rewrite make_record_em.
      * rewrite get_path_cons, Hr. reflexivity.
      * intro He. rewrite He in Hr. discriminate.
Qed.

Lemma raw_metadata_retained_witness :
  _parse_file empty_tag_dataset
  = Ok [("electron_microscopy",
         VDict [("raw_metadata", VDict [("Tag", VDict [])])])] /\
  get_path
    (VDict [("electron_microscopy",
             VDict [("raw_metadata", VDict [("Tag", VDict [])])])])
    ["electron_microscopy"; "raw_metadata"]
  = Some (VDict [("Tag", VDict [])]).
Proof.
  split; [reflexivity|].
  exact (raw_metadata_retained empty_tag_dataset _ eq_refl).
Defined.

(** *** C3 *)

(** C3, as the code has it.  With a "Microscope Info" tag group and an
    experimental description, [emission_current], [operation_mode],
    [microscope] and [spot_size] are keys of [electron_microscopy] itself,
    next to the sections. *)
Lemma fields_outside_the_sections :
  _parse_file microscope_info_dataset
  = Ok [("electron_microscopy",
         VDict [("raw_metadata", VDict (original_metadata microscope_info_dataset));
                ("General_EM",
                 VDict [("acquisition_software_name", VStr "DigitalMicrograph");
                        ("emission_current",
                         VDict [("value", VFloat 12.5); ("unit", VStr "MicroA")])]);
                ("TEM", VDict [("operation_mode", VStr "IMAGING")]);
                ("emission_current", VFloat 12.5);
                ("operation_mode", VStr "IMAGING");
                ("microscope", VStr "Titan");
                ("spot_size", VInt 3)])].
Proof. reflexivity. Qed.

(** C3, amended.  Every key of the returned [electron_microscopy] mapping is
    one of the sections [General], [General_EM], [TEM], [SEM], [EDS],
    [EELS], or [raw_metadata], or one of the four fields that [_parse_file]
    writes at the top level: [emission_current], [operation_mode],
    [microscope], [spot_size]. *)
Theorem electron_microscopy_keys (hs_data : dataset) (record em : dict) :
  _parse_file hs_data = Ok record ->
  dict_get "electron_microscopy" record = Some (VDict em) ->
  forall k, In k (keys em) -> In k top_level_keys.
Proof.
  intros H Hem k Hk.
  destruct (_parse_file_invariant
              (fun em => incl (keys em) top_level_keys) hs_data record)
    as (em' & image & Hincl & _ & ->);
    auto using top_level_keys_preserved, top_level_keys_preserved_keys.
  - unfold initial_em, top_level_keys, sections, non_hs_keys. simpl.
    intros x Hx. simpl in *. tauto.
  - rewrite make_record_get_em in Hem.
    destruct (remove_empty em') eqn:He; [discriminate|].
    injection Hem as <-. rewrite <- He in Hk.
    apply Hincl. now apply keys_remove_empty.
Qed.

Lemma electron_microscopy_keys_witness :
  In "spot_size"
    (keys [("raw_metadata", VDict (original_metadata microscope_info_dataset));
           ("General_EM",
            VDict [("acquisition_software_name", VStr "DigitalMicrograph");
                   ("emission_current",
                    VDict [("value", VFloat 12.5); ("unit", VStr "MicroA")])]);
           ("TEM", VDict [("operation_mode", VStr "IMAGING")]);
           ("emission_current", VFloat 12.5);
           ("operation_mode", VStr "IMAGING");
           ("microscope", VStr "Titan");
           ("spot_size", VInt 3)]) /\
  In "spot_size" top_level_keys.
Proof.
  assert (Hin : In "spot_size"
            (keys [("raw_metadata", VDict (original_metadata microscope_info_dataset));
                   ("General_EM",
                    VDict [("acquisition_software_name", VStr "DigitalMicrograph");
                           ("emission_current",
                            VDict [("value", VFloat 12.5); ("unit", VStr "MicroA")])]);
                   ("TEM", VDict [("operation_mode", VStr "IMAGING")]);
                   ("emission_current", VFloat 12.5);
                   ("operation_mode", VStr "IMAGING");
                   ("microscope", VStr "Titan");
                   ("spot_size", VInt 3)])) by (simpl; tauto).
  split; [exact Hin|].
  exact (electron_microscopy_keys microscope_info_dataset _ _ eq_refl eq_refl
           "spot_size" Hin).
Defined.

(** *** C8 *)

Lemma _parse_file_image (hs_data : dataset) (record : dict) :
  _parse_file hs_data = Ok record ->
  exists image,
    image_metadata (original_metadata hs_data) = Ok image /\
    dict_get "image" record =
    match image with [] => None | _ :: _ => Some (VDict image) end.
Proof.
  intro H.
  destruct (_parse_file_stages _ _ H)
    as (em1 & em2 & em3 & em4 & em5 & em6 & image & _ & _ & _ & _ & _ & _ & Hi & ->).
  exists image. split; [assumption|apply make_record_get_image].
Qed.

(** C8. With [base_shape] the vendor dimension list (width, height, further
    axes): two axes or more give [image.shape] with the first two swapped
    and the others in their order; one axis gives that axis; when the
    dimension list cannot be read, the record has no [image]. *)
Theorem image_shape_reordered (hs_data : dataset) (record : dict) :
  _parse_file hs_data = Ok record ->
  (forall w h rest,
      base_shape (original_metadata hs_data) = Ok (w :: h :: rest) ->
      dict_get "image" record = Some (VDict [("shape", VList (h :: w :: rest))])) /\
  (forall a,
      base_shape (original_metadata hs_data) = Ok [a] ->
      dict_get "image" record = Some (VDict [("shape", VList [a])])) /\
  (forall e,
      py_getitems (VDict (original_metadata hs_data)) dimensions_path = Raise e ->
      dict_get "image" record = None).
Proof.
  intro H. destruct (_parse_file_image _ _ H) as (image & Hi & ->).
  unfold image_metadata in Hi. repeat split.
  - intros w h rest Hb. rewrite Hb in Hi. simpl in Hi. now injection Hi as <-.
  - intros a Hb. rewrite Hb in Hi. simpl in Hi. now injection Hi as <-.
  - intros e He. unfold base_shape in Hi. fold dimensions_path in Hi.
    rewrite He in Hi. simpl in Hi. now injection Hi as <-.
Qed.

Lemma image_shape_reordered_witness :
  _parse_file
    (dimensions_dataset (VDict [("Data0", VInt 10); ("Data1", VInt 20);
                                ("Data2", VInt 3)]))
  = Ok [("electron_microscopy",
         VDict [("raw_metadata",
                 VDict (original_metadata
                   (dimensions_dataset (VDict [("Data0", VInt 10); ("Data1", VInt 20);
                                               ("Data2", VInt 3)]))))]);
        ("image", VDict [("shape", VList [VInt 20; VInt 10; VInt 3])])] /\
  dict_get "image"
    [("electron_microscopy",
      VDict [("raw_metadata",
              VDict (original_metadata
                (dimensions_dataset (VDict [("Data0", VInt 10); ("Data1", VInt 20);
                                            ("Data2", VInt 3)]))))]);
     ("image", VDict [("shape", VList [VInt 20; VInt 10; VInt 3])])]
  = Some (VDict [("shape", VList [VInt 20; VInt 10; VInt 3])]).
Proof.
  split; [reflexivity|].
  exact (proj1 (image_shape_reordered
                  (dimensions_dataset (VDict [("Data0", VInt 10); ("Data1", VInt 20);
                                              ("Data2", VInt 3)])) _ eq_refl)
           (VInt 10) (VInt 20) [VInt 3] eq_refl).
Defined.

(** The examples of the spec: dimensions [10, 20], [10] and none. *)
Example image_shape_10_20 :
  _parse_file (dimensions_dataset (VDict [("Data0", VInt 10); ("Data1", VInt 20)]))
  = Ok [("electron_microscopy",
         VDict [("raw_metadata",
                 VDict (original_metadata
                   (dimensions_dataset (VDict [("Data0", VInt 10); ("Data1", VInt 20)]))))]);
        ("image", VDict [("shape", VList [VInt 20; VInt 10])])].
Proof. reflexivity. Qed.

Example image_shape_10 :
  _parse_file (dimensions_dataset (VDict [("Data0", VInt 10)]))
  = Ok [("electron_microscopy",
         VDict [("raw_metadata",
                 VDict (original_metadata
                   (dimensions_dataset (VDict [("Data0", VInt 10)]))))]);
        ("image", VDict [("shape", VList [VInt 10])])].
Proof. reflexivity. Qed.

Example image_shape_absent :
  _parse_file empty_tag_dataset
  = Ok [("electron_microscopy",
         VDict [("raw_metadata", VDict (original_metadata empty_tag_dataset))])].
Proof. reflexivity. Qed.

(** *** C10 *)

Lemma py_int_VInt (v r : value) : py_int v = Ok r -> exists z, r = VInt z.
Proof.
  destruct v; simpl; intro H; try discriminate.
  - injection H as <-. eauto.
  - injection H as <-. eauto.
  - bind_inv H. injection H as <-. eauto.
  - bind_inv H. injection H as <-. eauto.
Qed.

Lemma mapM_py_int (vs bs : list value) :
  mapM py_int vs = Ok bs -> exists zs, bs = map VInt zs.
Proof.
  revert bs. induction vs as [|v vs IH]; simpl; intros bs H.
  - injection H as <-. now exists [].
  - bind_inv H. bind_inv H. injection H as <-.
    destruct (py_int_VInt _ _ Ha) as [z ->].
    destruct (IH _ Ha0) as [zs ->]. now exists (z :: zs).
Qed.

Lemma reorder_shape_ints (zs : list Z) :
  reorder_shape (map VInt zs) = map VInt (match zs with
                                          | w :: h :: rest => h :: w :: rest
                                          | _ => zs
                                          end).
Proof. destruct zs as [|w [|h rest]]; reflexivity. Qed.

(** C10. The derivation of the image shape is all or nothing.  No exception
    leaves [image_metadata].  When reading the Dimensions tag or casting one
    of its entries to [int] raises, the record has no [image].  And an
    [image] that the record has is [{"shape": [...]}] with a non-empty list
    of integers. *)
Theorem image_shape_atomic (hs_data : dataset) :
  (forall e, image_metadata (original_metadata hs_data) <> Raise e) /\
  (forall record,
      _parse_file hs_data = Ok record ->
      (forall e, base_shape (original_metadata hs_data) = Raise e ->
                 dict_get "image" record = None) /\
      (forall image, dict_get "image" record = Some image ->
                     exists z zs,
                       image = VDict [("shape", VList (map VInt (z :: zs)))])).
Proof.
  split.
  - intros e. unfold image_metadata.
    destruct (base_shape (original_metadata hs_data)); simpl; discriminate.
  - intros record H. destruct (_parse_file_image _ _ H) as (image & Hi & ->).
    unfold image_metadata in Hi. split.
    + intros e He. rewrite He in Hi. simpl in Hi. now injection Hi as <-.
    + intros img Himg.
      destruct (base_shape (original_metadata hs_data)) as [bs| |] eqn:Hb;
        simpl in Hi; try discriminate.
      * unfold base_shape in Hb. bind_inv Hb. bind_inv Hb.
        destruct (mapM_py_int _ _ Hb) as [zs ->].
        rewrite reorder_shape_ints in Hi.
        destruct zs as [|w [|h rest]]; simpl in Hi; injection Hi as <-;
          try discriminate; injection Himg as <-.
        -- now exists w, [].
        -- now exists h, (w :: rest).
      * injection Hi as <-. discriminate.
Qed.

Lemma image_shape_atomic_witness :
  _parse_file (dimensions_dataset (VDict [("Data0", VInt 10); ("Data1", VStr "wide")]))
  = Ok [("electron_microscopy",
         VDict [("raw_metadata",
                 VDict (original_metadata
                   (dimensions_dataset
                      (VDict [("Data0", VInt 10); ("Data1", VStr "wide")]))))])] /\
  base_shape (original_metadata
                (dimensions_dataset (VDict [("Data0", VInt 10); ("Data1", VStr "wide")])))
  = Raise ValueError /\
  dict_get "image"
    [("electron_microscopy",
      VDict [("raw_metadata",
              VDict (original_metadata
                (dimensions_dataset
                   (VDict [("Data0", VInt 10); ("Data1", VStr "wide")]))))])]
  = None.
Proof.
  split; [reflexivity|]. split; [reflexivity|].
  exact (proj1 (proj2 (image_shape_atomic
                         (dimensions_dataset
                            (VDict [("Data0", VInt 10); ("Data1", VStr "wide")])))
                      _ eq_refl)
           ValueError eq_refl).
Defined.

(** *** C2 *)

(** C2, as the code has it.  The Tecnai string of the spec's example has no
    line with "Mode ": [__find_val] returns [None], [__extract_val] passes
    it to the regular expression search, which raises [TypeError], and
    nothing catches it. *)
Theorem missing_line_aborts_the_record :
  _parse_file
    (tecnai_dataset
       (join line_separator
          ["Microscope Titan"; "Extr volt 300 V"; "Emission 120.5uA"]))
  = Raise TypeError.
Proof. reflexivity. Qed.

(** The same when the only line is the one of the microscope. *)
Example missing_extr_volt_line_raises :
  _parse_file (tecnai_dataset "Microscope Titan") = Raise TypeError.
Proof. reflexivity. Qed.

(** A "Stage" line with one value in micrometres instead of three: the
    unpacking [x, y, z = re.findall(...)] raises [ValueError]. *)
Example stage_line_mismatch_raises :
  _parse_file
    (tecnai_dataset
       (join line_separator
          ["Extr volt 300 V"; "Emission 120.5uA"; "Mode TEM"; "Stage X 1.0 um"]))
  = Raise ValueError.
Proof. reflexivity. Qed.

(** In general: when the Tecnai string is present and no line contains
    "Extr volt ", or "Emission ", or "Mode ", [_dm3_tecnai_info] does not
    return. *)
Lemma tecnai_missing_line_does_not_return (delimiter : string)
    (raw_meta em : dict) (info : string) :
  get_val (VDict raw_meta) path_to_tecnai = VStr info ->
  __find_val "Extr volt " (split delimiter info) = None \/
  __find_val "Emission " (split delimiter info) = None \/
  __find_val "Mode " (split delimiter info) = None ->
  forall em', _dm3_tecnai_info delimiter raw_meta em <> Ok em'.
Proof.
  intros Hget Hnone em' H. unfold _dm3_tecnai_info in H. rewrite Hget in H.
  bind_inv H. clear H. unfold tecnai_base_rules in Ha.
  bind_inv Ha. bind_inv Ha. bind_inv Ha.
  destruct Hnone as [Hn|[Hn|Hn]]; rewrite Hn in *; discriminate.
Qed.

(** *** C4 *)

Lemma strict_prefix_irrefl (p : list string) : strict_prefix p p = false.
Proof.
  induction p as [|a p IH]; simpl; auto. now rewrite IH, andb_false_r.
Qed.

Lemma map_dict_values_write_once (rules : list MappingElements) :
  forall (dest dest' : dict) (p : list string) (x : value),
    holds dest p x ->
    Forall (fun m => override m = false /\
                     strict_prefix p (dest_path m) = false) rules ->
    map_dict_values rules dest = Ok dest' ->
    holds dest' p x.
Proof.
  induction rules as [|m rules IH]; intros dest dest' p x Hx Hall H;
    simpl in H.
  - now injection H as <-.
  - inversion Hall as [|? ? [Hov Hpre] Hall']; subst.
    bind_inv H. apply (IH a dest' p x); auto.
    destruct (apply_rule_cases _ _ _ Ha) as [->|[leaf ->]]; auto.
    destruct Hx as [Hget Hne]. split; [|exact Hne].
    rewrite Hov. now apply set_path_write_once.
Qed.

(** Two rules for one destination, without override: what the first one
    wrote stays. *)
Lemma second_rule_writes_nothing (m1 m2 : MappingElements)
    (dest1 dest2 : dict) (x : value) :
  dest_path m2 = dest_path m1 ->
  override m2 = false ->
  holds dest1 (dest_path m1) x ->
  apply_rule dest1 m2 = Ok dest2 ->
  holds dest2 (dest_path m1) x.
Proof.
  intros Hp Hov Hx H2.
  apply (map_dict_values_write_once [m2] dest1 dest2 (dest_path m1) x); auto.
  - repeat constructor; auto. rewrite Hp. apply strict_prefix_irrefl.
  - simpl. now rewrite H2.
Qed.



(** A value written with a unit is never empty: a rule with a unit, as the
    rules of the exposure time, always leaves a value that is held. *)
Lemma with_units_not_empty (v : value) (u : string) :
  is_empty (with_units v (Some u)) = false.
Proof. reflexivity. Qed.

(** *** C6 *)

Lemma SFcompare_Lt_Gt (x y : spec_float) :
  SFcompare x y = Some Lt -> SFcompare y x = Some Gt.
Proof.
  destruct x as [sx|sx| |sx mx ex], y as [sy|sy| |sy my ey]; simpl;
    try discriminate;
    try (destruct sx; discriminate); try (destruct sy; discriminate);
    try (destruct sx, sy; intro; (discriminate || reflexivity)).
  pose proof (Z.compare_antisym ex ey) as Hz.
  pose proof (Pos.compare_antisym mx my) as Hp. unfold Pos.compare in Hp.
  destruct sx, sy; try discriminate; try reflexivity; intro H;
    rewrite Hz; destruct (ex ?= ey)%Z; simpl in *; try discriminate;
    try reflexivity; rewrite Hp;
    destruct (Pos.compare_cont Eq mx my); simpl in *; congruence.
Qed.

(** [v < 1000] excludes [v >= 1000]. *)
Lemma float_lt_not_ge (v : float) :
  (v <? 1000)%float = true -> (1000 <=? v)%float = false.
Proof.
  rewrite FloatAxioms.ltb_spec, FloatAxioms.leb_spec. unfold SFltb, SFleb. intro H.
  destruct (SFcompare (Prim2SF v) (Prim2SF 1000)) as [[]|] eqn:Hc;
    try discriminate.
  now rewrite (SFcompare_Lt_Gt _ _ Hc).
Qed.

Lemma frame_preserved (p : list string) (x : option value)
    (ds : list (list string)) :
  forallb (incomparable p) ds = true ->
  preserved_by (fun em => get_path (VDict em) p = x) ds.
Proof.
  intros Hall d q leaf ov Hin Hd. rewrite forallb_forall in Hall.
  rewrite set_path_frame; auto.
Qed.

Lemma frame_preserved_keys (k : string) (p : list string) (x : option value)
    (ks : list string) :
  ~ In k ks ->
  preserved_by_keys (fun em => get_path (VDict em) (k :: p) = x) ks.
Proof.
  intros Hk d k' v Hin Hd. rewrite get_path_cons in *.
  rewrite dict_get_set_neq; auto. intros ->. contradiction.
Qed.

Lemma mapping_preserved (k : string) (ds : list (list string)) :
  forallb section_path ds = true ->
  preserved_by (fun em => exists sub, dict_get k em = Some (VDict sub)) ds.
Proof.
  intros Hall d q leaf ov Hin [sub Hd]. rewrite forallb_forall in Hall.
  eapply set_path_keeps_mapping; eauto.
Qed.

(** A leaf written below a section that is a mapping is there afterwards,
    when the leaf was absent or the write overrides. *)
Lemma set_path_written (d : dict) (k j : string) (leaf : value) (ov : bool) :
  (exists sub, dict_get k d = Some (VDict sub)) ->
  get_path (VDict d) [k; j] = None \/ ov = true ->
  get_path (VDict (set_path d [k; j] leaf ov)) [k; j] = Some leaf.
Proof.
  intros [sub Hk] Hfree. rewrite set_path_cons, Hk, set_path_last.
  rewrite get_path_cons, dict_get_set_eq, get_path_cons.
  rewrite get_path_cons, Hk, get_path_cons in Hfree.
  destruct (dict_get j sub) as [old|] eqn:Hj.
  - destruct Hfree as [Hfree| ->]; [discriminate|]. simpl.
    now rewrite dict_get_set_eq.
  - now rewrite dict_get_set_eq.
Qed.

(** A leaf below a section of [self.em] is in the record. *)
Lemma leaf_reaches_record (em image : dict) (k j : string) (q : list string)
    (leaf : value) :
  NoDup (keys em) ->
  get_path (VDict em) (k :: j :: q) = Some leaf ->
  get_path (VDict (make_record (remove_empty em) image))
    ("electron_microscopy" :: k :: j :: q) = Some leaf.
Proof.
  intros Hnd Hget.
  assert (Hk : dict_get k (remove_empty em) = dict_get k em).
  { rewrite dict_get_remove_empty by assumption.
    rewrite get_path_cons in Hget.
    destruct (dict_get k em) as [v|]; [|discriminate].
    destruct v as [| | | | | |[|]]; try discriminate; reflexivity. }
  rewrite make_record_em.
  - rewrite get_path_cons, Hk, <- get_path_cons. assumption.
  - intro He. rewrite He in Hk. rewrite get_path_cons in Hget.
    rewrite <- Hk in Hget. discriminate.
Qed.

Lemma _parse_file_stages_NoDup (hs_data : dataset) (record : dict) :
  _parse_file hs_data = Ok record ->
  exists em1 em2 em3 em4 em5 em6 image,
    _process_hs_data (metadata hs_data)
      (initial_em (original_metadata hs_data)) = Ok em1 /\
    _dm3_general_info (original_metadata hs_data) em1 = Ok em2 /\
    _dm3_eels_info (original_metadata hs_data) em2 = Ok em3 /\
    _dm3_tecnai_info line_separator (original_metadata hs_data) em3 = Ok em4 /\
    _dm3_eds_info (original_metadata hs_data) em4 = Ok em5 /\
    non_hs_data (original_metadata hs_data) em5 = Ok em6 /\
    NoDup (keys em6) /\
    record = make_record (remove_empty em6) image.
Proof.
  intro H.
  destruct (_parse_file_stages _ _ H)
    as (em1 & em2 & em3 & em4 & em5 & em6 & image
        & H1 & H2 & H3 & H4 & H5 & H6 & H7 & ->).
  exists em1, em2, em3, em4, em5, em6, image. repeat split; auto.
  set (P := fun em : dict => NoDup (keys em)).
  apply (non_hs_data_preserved P _ _ _ (NoDup_preserved_keys _) H6).
  apply (_dm3_eds_info_preserved P _ _ _ (NoDup_preserved _) H5).
  apply (_dm3_tecnai_info_preserved P _ _ _ _ (NoDup_preserved _) H4).
  apply (_dm3_eels_info_preserved P _ _ _ (NoDup_preserved _) H3).
  apply (_dm3_general_info_preserved P _ _ _ (NoDup_preserved _) H2).
  apply (_process_hs_data_preserved P _ _ _ (NoDup_preserved _) H1).
  apply initial_em_NoDup.
Qed.

Lemma get_val_cast_found (t : value) (path : list string)
    (cast : value -> result value) (c : value) :
  get_val_cast t path cast = Ok c -> c <> VNone ->
  get_val t path <> VNone /\ cast (get_val t path) = Ok c.
Proof.
  unfold get_val_cast. intros H Hc.
  destruct (get_val t path) eqn:Hg;
    try (destruct (cast _) as [c'| |]; [|injection H as <-; congruence|discriminate];
         split; [discriminate|congruence]).
  injection H as <-. congruence.
Qed.

Lemma apply_rule_found (dest : dict) (m : MappingElements) (c : value) :
  get_val (source_dict m) (source_path m) <> VNone ->
  cast_fn m (get_val (source_dict m) (source_path m)) = Ok c ->
  apply_rule dest m =
  (c' <- match conv_fn m with Some f => f c | None => Ok c end ;;
   Ok (set_val_units dest (dest_path m) c' (units m) (override m))).
Proof.
  unfold apply_rule. intros Hx Hc.
  destruct (get_val (source_dict m) (source_path m));
    try congruence; now rewrite Hc.
Qed.

Lemma apply_rule_not_found (dest : dict) (m : MappingElements) :
  get_val (source_dict m) (source_path m) = VNone -> apply_rule dest m = Ok dest.
Proof. unfold apply_rule. now intros ->. Qed.

Lemma apply_rule_cast_fails (dest : dict) (m : MappingElements) (e : exn) :
  cast_fn m (get_val (source_dict m) (source_path m)) = Raise e ->
  apply_rule dest m = Ok dest.
Proof.
  unfold apply_rule. intros Hc.
  destruct (get_val (source_dict m) (source_path m)); auto; now rewrite Hc.
Qed.

(** The rule of the accelerating voltage, on a dictionary without that
    leaf. *)
Lemma dm3_voltage_rule_writes (raw_meta em em' : dict) (v : float) :
  get_val_cast (VDict raw_meta) (voltage_path raw_meta) py_float = Ok (VFloat v) ->
  (exists sub, dict_get "General_EM" em = Some (VDict sub)) ->
  get_path (VDict em) accelerating_voltage_path = None ->
  map_dict_values
    (dm3_voltage_rules (VDict raw_meta)
       (__get_dm3_tag_pre_path raw_meta ++ ["Microscope Info"]) (VFloat v)) em
  = Ok em' ->
  get_path (VDict em') accelerating_voltage_path =
  Some (if (1000 <=? v)%float
        then VDict [("value", VFloat (v / 1000)); ("unit", VStr "KiloEV")]
        else VDict [("value", VFloat v); ("unit", VStr "EV")]).
Proof.
  intros Hv Hsec Hnone H.
  apply get_val_cast_found in Hv; [|discriminate]. destruct Hv as [Hx Hc].
  unfold dm3_voltage_rules in H. cbn [is_none map_dict_values] in H.
  bind_inv H. injection H as <-.
  rewrite (apply_rule_found em _ (VFloat v)) in Ha; [|exact Hx|exact Hc].
  cbn [conv_fn units override dest_path ge_1000] in Ha.
  unfold set_val_units in Ha.
  destruct (1000 <=? v)%float; cbn [bind div_1000] in Ha; injection Ha as <-;
    exact (set_path_written em _ _ _ false Hsec (or_introl Hnone)).
Qed.

(** C6.  When the Voltage tag is present and casts to the float [v], the
    record holds [General_EM.accelerating_voltage]: [v / 1000] with the unit
    KiloEV when [v >= 1000], and [v] itself with the unit EV when
    [v < 1000]. *)
Theorem accelerating_voltage_unit (hs_data : dataset) (record : dict) (v : float) :
  _parse_file hs_data = Ok record ->
  get_val_cast (VDict (original_metadata hs_data))
    (voltage_path (original_metadata hs_data)) py_float = Ok (VFloat v) ->
  ((1000 <=? v)%float = true ->
   get_path (VDict record)
     ["electron_microscopy"; "General_EM"; "accelerating_voltage"]
   = Some (VDict [("value", VFloat (v / 1000)); ("unit", VStr "KiloEV")])) /\
  ((v <? 1000)%float = true ->
   get_path (VDict record)
     ["electron_microscopy"; "General_EM"; "accelerating_voltage"]
   = Some (VDict [("value", VFloat v); ("unit", VStr "EV")])).
Proof.
  intros H Hv.
  destruct (_parse_file_stages_NoDup _ _ H)
    as (em1 & em2 & em3 & em4 & em5 & em6 & image
        & H1 & H2 & H3 & H4 & H5 & H6 & Hnd & ->).
  set (raw := original_metadata hs_data) in *.
  set (leaf := if (1000 <=? v)%float
               then VDict [("value", VFloat (v / 1000)); ("unit", VStr "KiloEV")]
               else VDict [("value", VFloat v); ("unit", VStr "EV")]).
  set (absent := fun em : dict =>
         get_path (VDict em) accelerating_voltage_path = None /\
         exists sub, dict_get "General_EM" em = Some (VDict sub)).
  assert (Habs : forall ds,
             forallb (incomparable accelerating_voltage_path) ds = true ->
             forallb section_path ds = true -> preserved_by absent ds).
  { intros ds Hi Hs. apply preserved_by_and;
      [now apply frame_preserved|now apply mapping_preserved]. }
  (* before the rule of the voltage *)
  assert (A1 : absent em1).
  { eapply _process_hs_data_preserved; [|exact H1|].
    - apply Habs; reflexivity.
    - split; [reflexivity|]. unfold initial_em. simpl. eauto. }
  assert (A2 : get_path (VDict em2) accelerating_voltage_path = Some leaf).
  { unfold _dm3_general_info in H2. fold (voltage_path raw) in H2.
    rewrite Hv in H2. cbn [bind] in H2.
    unfold dm3_general_rules in H2.
    rewrite map_dict_values_app in H2. bind_inv H2.
    rewrite map_dict_values_app in H2. bind_inv H2.
    assert (A : absent a).
    { eapply (map_dict_values_preserved absent); [| |exact Ha|].
      - apply (Habs (dests (dm3_microscope_rules VNone []))); reflexivity.
      - apply incl_refl.
      - destruct (is_none _); [exact A1|].
        apply (Habs [["General_EM"; "acquisition_software_name"]]);
          try reflexivity; [now left|exact A1]. }
    destruct A as [An As].
    pose proof (dm3_voltage_rule_writes raw a a0 v Hv As An Ha0) as Hw.
    eapply (map_dict_values_preserved
              (fun em => get_path (VDict em) accelerating_voltage_path = Some leaf));
      [| |exact H2|exact Hw].
    - apply (frame_preserved _ _ dm3_general_tail_dests). reflexivity.
    - unfold dests, dm3_general_tail_dests. rewrite !map_app. apply incl_refl. }
  set (written := fun em : dict =>
         get_path (VDict em) accelerating_voltage_path = Some leaf).
  assert (Hw : forall ds,
             forallb (incomparable accelerating_voltage_path) ds = true ->
             preserved_by written ds)
    by (intros ds Hi; now apply frame_preserved).
  assert (Hk : preserved_by_keys written non_hs_keys).
  { apply (frame_preserved_keys "General_EM" ["accelerating_voltage"]).
    unfold non_hs_keys. simpl. intuition discriminate. }
  assert (A6 : written em6).
  { apply (non_hs_data_preserved written _ _ _ Hk H6).
    apply (_dm3_eds_info_preserved written _ _ _ (Hw dm3_eds_dests eq_refl) H5).
    apply (_dm3_tecnai_info_preserved written _ _ _ _ (Hw tecnai_dests eq_refl) H4).
    apply (_dm3_eels_info_preserved written _ _ _ (Hw dm3_eels_dests eq_refl) H3).
    exact A2. }
  pose proof (leaf_reaches_record em6 image _ _ _ leaf Hnd A6) as Hrec.
  unfold leaf in Hrec. split; intro Hc.
  - now rewrite Hc in Hrec.
  - now rewrite (float_lt_not_ge v Hc) in Hrec.
Qed.

Lemma accelerating_voltage_unit_witness :
  _parse_file (voltage_dataset (VInt 200000))
  = Ok [("electron_microscopy",
         VDict [("raw_metadata",
                 VDict (original_metadata (voltage_dataset (VInt 200000))));
                ("General_EM",
                 VDict [("acquisition_software_name", VStr "DigitalMicrograph");
                        ("accelerating_voltage",
                         VDict [("value", VFloat 200); ("unit", VStr "KiloEV")])])])] /\
  get_path
    (VDict [("electron_microscopy",
             VDict [("raw_metadata",
                     VDict (original_metadata (voltage_dataset (VInt 200000))));
                    ("General_EM",
                     VDict [("acquisition_software_name", VStr "DigitalMicrograph");
                            ("accelerating_voltage",
                             VDict [("value", VFloat 200);
                                    ("unit", VStr "KiloEV")])])])])
    ["electron_microscopy"; "General_EM"; "accelerating_voltage"]
  = Some (VDict [("value", VFloat (200000 / 1000)); ("unit", VStr "KiloEV")]).
Proof.
  split; [reflexivity|].
  exact (proj1 (accelerating_voltage_unit (voltage_dataset (VInt 200000)) _
                  200000%float eq_refl eq_refl) eq_refl).
Defined.

(** A voltage below 1000 is passed through, with the unit EV. *)
Example accelerating_voltage_below_1000 :
  _parse_file (voltage_dataset (VFloat 200))
  = Ok [("electron_microscopy",
         VDict [("raw_metadata",
                 VDict (original_metadata (voltage_dataset (VFloat 200))));
                ("General_EM",
                 VDict [("acquisition_software_name", VStr "DigitalMicrograph");
                        ("accelerating_voltage",
                         VDict [("value", VFloat 200); ("unit", VStr "EV")])])])].
Proof. reflexivity. Qed.

(** *** C7 *)

Lemma tecnai_base_mapping_split
    (name extr emis opmode defocus1 defocus2 magn cl spot : option string) :
  tecnai_base_mapping name extr emis opmode defocus1 defocus2 magn cl spot =
  firstn 4 (tecnai_base_mapping name extr emis opmode defocus1 defocus2 magn cl spot)
  ++ [defocus_rule defocus1] ++ [defocus_rule defocus2]
  ++ skipn 6 (tecnai_base_mapping name extr emis opmode defocus1 defocus2 magn cl spot).
Proof. reflexivity. Qed.

(** One rule of the defocus, applied to a dictionary whose section [TEM] is
    a mapping. *)
Lemma defocus_rule_applied (d d' : dict) (o : option string) :
  apply_rule d (defocus_rule o) = Ok d' ->
  (exists sub, dict_get "TEM" d = Some (VDict sub)) ->
  (exists sub, dict_get "TEM" d' = Some (VDict sub)) /\
  (forall s f, o = Some s -> py_float (VStr s) = Ok (VFloat f) ->
     get_path (VDict d') defocus_path
     = Some (VDict [("value", VFloat f); ("unit", VStr "MicroM")])) /\
  (o = None \/ (exists s e, o = Some s /\ py_float (VStr s) = Raise e) -> d' = d).
Proof.
  intros H Hsec.
  assert (Hg : get_val (source_dict (defocus_rule o)) (source_path (defocus_rule o))
               = opt_str o).
  { unfold get_val. simpl. now destruct o. }
  destruct o as [s|].
  - destruct (py_float (VStr s)) as [c| |] eqn:Hc.
    + rewrite (apply_rule_found d _ c) in H;
        [|rewrite Hg; discriminate|rewrite Hg; exact Hc].
      cbn [conv_fn units override dest_path defocus_rule bind] in H.
      injection H as <-. unfold set_val_units. repeat split.
      * destruct Hsec as [sub Hs].
        exact (set_path_keeps_mapping d defocus_path _ _ "TEM" sub eq_refl Hs).
      * intros s' f Hs Hf. injection Hs as <-. rewrite Hc in Hf.
        injection Hf as ->.
        exact (set_path_written d _ _ _ true Hsec (or_intror eq_refl)).
      * intros [Hn|(s' & e & Hs & He)]; [discriminate|].
        injection Hs as <-. congruence.
    + rewrite (apply_rule_cast_fails d _ e) in H; [|rewrite Hg; exact Hc].
      injection H as <-. repeat split; auto.
      intros s' f Hs Hf. injection Hs as <-. congruence.
    + unfold apply_rule in H. rewrite Hg in H. simpl opt_str in H.
      cbn [cast_fn defocus_rule] in H. rewrite Hc in H. discriminate.
  - rewrite apply_rule_not_found in H by (rewrite Hg; reflexivity).
    injection H as <-. repeat split; auto. intros s f Hs. discriminate.
Qed.

(** C7, as the code has it.  On a line that both patterns match, the first
    one with 1.5 and the second one with 2.5, [TEM.defocus] is 2.5: the
    value of the second pattern. *)
Lemma second_defocus_pattern_wins :
  _parse_file both_defocus_dataset
  = Ok [("electron_microscopy",
         VDict [("raw_metadata", VDict (original_metadata both_defocus_dataset));
                ("General_EM",
                 VDict [("acquisition_software_name", VStr "DigitalMicrograph");
                        ("magnification_indicated",
                         VDict [("value", VInt 1000); ("unit", VStr "UNITLESS")])]);
                ("TEM",
                 VDict [("extractor_voltage",
                         VDict [("value", VInt 300); ("unit", VStr "V")]);
                        ("operation_mode", VStr "TEM Defocus (um) 1.5 Magn 1000x");
                        ("defocus",
                         VDict [("value", VFloat 2.5); ("unit", VStr "MicroM")]);
                        ("camera_length",
                         VDict [("value", VFloat 300); ("unit", VStr "MilliM")])])])] /\
  re_search re_defocus_magn "TEM Defocus (um) 1.5 Magn 1000x Defocus 2.5 CL 0.3m"
  = Ok (Some "1.5") /\
  re_search re_defocus_cl "TEM Defocus (um) 1.5 Magn 1000x Defocus 2.5 CL 0.3m"
  = Ok (Some "2.5").
Proof. repeat split; reflexivity. Qed.

(** C7, amended.  Both patterns of the defocus are tried on the "Mode "
    line, in order, and each rule overrides: [TEM.defocus] holds the value
    of the second pattern ("Defocus ... CL") whenever that one matches and
    casts to a float, and the value of the first pattern
    ("Defocus (um) ... Magn") when only the first one does. *)
Theorem tecnai_defocus_last_match_wins (hs_data : dataset) (record : dict)
    (info mode_line : string) (defocus1 defocus2 : option string) :
  _parse_file hs_data = Ok record ->
  get_val (VDict (original_metadata hs_data)) path_to_tecnai = VStr info ->
  __find_val "Mode " (split line_separator info) = Some mode_line ->
  re_search re_defocus_magn mode_line = Ok defocus1 ->
  re_search re_defocus_cl mode_line = Ok defocus2 ->
  (forall s2 f2,
      defocus2 = Some s2 -> py_float (VStr s2) = Ok (VFloat f2) ->
      get_path (VDict record) ["electron_microscopy"; "TEM"; "defocus"]
      = Some (VDict [("value", VFloat f2); ("unit", VStr "MicroM")])) /\
  (forall s1 f1,
      defocus1 = Some s1 -> py_float (VStr s1) = Ok (VFloat f1) ->
      defocus2 = None \/
      (exists s2 e, defocus2 = Some s2 /\ py_float (VStr s2) = Raise e) ->
      get_path (VDict record) ["electron_microscopy"; "TEM"; "defocus"]
      = Some (VDict [("value", VFloat f1); ("unit", VStr "MicroM")])).
Proof.
  intros H Hinfo Hmode Hd1 Hd2.
  destruct (_parse_file_stages_NoDup _ _ H)
    as (em1 & em2 & em3 & em4 & em5 & em6 & image
        & H1 & H2 & H3 & H4 & H5 & H6 & Hnd & ->).
  set (raw := original_metadata hs_data) in *.
  set (is_map := fun em : dict => exists sub, dict_get "TEM" em = Some (VDict sub)).
  assert (Hmap : forall ds, forallb section_path ds = true -> preserved_by is_map ds)
    by (intros ds Hs; now apply mapping_preserved).
  (* the section [TEM] is a mapping when the Tecnai rules run *)
  assert (M3 : is_map em3).
  { apply (_dm3_eels_info_preserved is_map _ _ _ (Hmap dm3_eels_dests eq_refl) H3).
    apply (_dm3_general_info_preserved is_map _ _ _
             (Hmap dm3_general_dests eq_refl) H2).
    apply (_process_hs_data_preserved is_map _ _ _ (Hmap hs_dests eq_refl) H1).
    unfold is_map, initial_em. simpl. eauto. }
  (* the rules of the Tecnai string *)
  unfold _dm3_tecnai_info in H4. fold raw in Hinfo. rewrite Hinfo in H4.
  bind_inv_as H4 base Hbase. bind_inv_as H4 stage Hstage.
  bind_inv_as H4 filt Hfilt.
  unfold tecnai_base_rules in Hbase. rewrite Hmode in Hbase.
  bind_inv_as Hbase extr Hextr. bind_inv_as Hbase emis Hemis.
  bind_inv_as Hbase opmode Hopmode.
  bind_inv_as Hbase o1 Ho1. bind_inv_as Hbase o2 Ho2.
  bind_inv_as Hbase magn Hmagn. bind_inv_as Hbase cl Hcl.
  injection Hbase as <-.
  cbn [__extract_val] in Ho1, Ho2.
  rewrite Hd1 in Ho1. injection Ho1 as <-.
  rewrite Hd2 in Ho2. injection Ho2 as <-.
  rewrite tecnai_base_mapping_split in H4.
  rewrite <- !app_assoc in H4.
  rewrite map_dict_values_app in H4. bind_inv_as H4 d0 Hd0.
  rewrite map_dict_values_app in H4. bind_inv_as H4 d1 Hr1.
  rewrite map_dict_values_app in H4. bind_inv_as H4 d2 Hr2.
  assert (M0 : is_map d0).
  { refine (map_dict_values_preserved is_map (firstn 4 tecnai_base_dests) _
              (Hmap (firstn 4 tecnai_base_dests) eq_refl) _ em3 d0 Hd0 M3).
    intros p Hp. exact Hp. }
  cbn [map_dict_values] in Hr1, Hr2.
  bind_inv_as Hr1 d1' Hr1'. injection Hr1 as ->.
  bind_inv_as Hr2 d2' Hr2'. injection Hr2 as ->.
  destruct (defocus_rule_applied _ _ _ Hr1' M0) as (M1 & W1 & S1).
  destruct (defocus_rule_applied _ _ _ Hr2' M1) as (M2 & W2 & S2).
  (* what the later rules and stages leave in place *)
  assert (Hrest : forall leaf,
             get_path (VDict d2) defocus_path = Some leaf ->
             get_path (VDict (make_record (remove_empty em6) image))
               ["electron_microscopy"; "TEM"; "defocus"] = Some leaf).
  { intros leaf Hl.
    set (written := fun em : dict => get_path (VDict em) defocus_path = Some leaf).
    assert (Hw : forall ds, forallb (incomparable defocus_path) ds = true ->
                            preserved_by written ds)
      by (intros ds Hi; now apply frame_preserved).
    assert (Hk : preserved_by_keys written non_hs_keys).
    { apply (frame_preserved_keys "TEM" ["defocus"]).
      unfold non_hs_keys. simpl. intuition discriminate. }
    apply leaf_reaches_record; [assumption|].
    apply (non_hs_data_preserved written _ _ _ Hk H6).
    apply (_dm3_eds_info_preserved written _ _ _ (Hw dm3_eds_dests eq_refl) H5).
    refine (map_dict_values_preserved written
              (skipn 6 tecnai_base_dests ++ tecnai_tail_dests) _
              (Hw (skipn 6 tecnai_base_dests ++ tecnai_tail_dests) eq_refl)
              _ d2 em4 H4 Hl).
    unfold dests. rewrite !map_app. apply incl_app; [|apply incl_app].
    - apply incl_appl, incl_refl.
    - apply incl_appr. eapply tecnai_stage_rules_dests; eauto.
    - apply incl_appr. eapply tecnai_filter_rules_dests; eauto. }
  split.
  - intros s2 f2 Hs Hf. apply Hrest. eapply W2; eauto.
  - intros s1 f1 Hs Hf Hno. apply Hrest. rewrite (S2 Hno). eapply W1; eauto.
Qed.

Lemma tecnai_defocus_last_match_wins_witness :
  get_path
    (VDict
       [("electron_microscopy",
         VDict [("raw_metadata", VDict (original_metadata both_defocus_dataset));
                ("General_EM",
                 VDict [("acquisition_software_name", VStr "DigitalMicrograph");
                        ("magnification_indicated",
                         VDict [("value", VInt 1000); ("unit", VStr "UNITLESS")])]);
                ("TEM",
                 VDict [("extractor_voltage",
                         VDict [("value", VInt 300); ("unit", VStr "V")]);
                        ("operation_mode", VStr "TEM Defocus (um) 1.5 Magn 1000x");
                        ("defocus",
                         VDict [("value", VFloat 2.5); ("unit", VStr "MicroM")]);
                        ("camera_length",
                         VDict [("value", VFloat 300); ("unit", VStr "MilliM")])])])])
    ["electron_microscopy"; "TEM"; "defocus"]
  = Some (VDict [("value", VFloat 2.5); ("unit", VStr "MicroM")]).
Proof.
  exact (proj1 (tecnai_defocus_last_match_wins both_defocus_dataset _ _
                  "TEM Defocus (um) 1.5 Magn 1000x Defocus 2.5 CL 0.3m"
                  (Some "1.5") (Some "2.5")
                  eq_refl eq_refl eq_refl eq_refl eq_refl)
           "2.5" 2.5%float eq_refl eq_refl).
Defined.

(** ** Further properties of the parser *)

(** *** The record and the removal of empty values *)

(** What is below a section of [self.em] is in the record as it is, and
    nothing else is. *)
Lemma record_leaf (em image : dict) (k j : string) (q : list string) :
  NoDup (keys em) ->
  get_path (VDict (make_record (remove_empty em) image))
    ("electron_microscopy" :: k :: j :: q)
  = get_path (VDict em) (k :: j :: q).
Proof.
  intro Hnd. destruct (get_path (VDict em) (k :: j :: q)) as [leaf|] eqn:Hget.
  - now apply leaf_reaches_record.
  - rewrite get_path_cons, make_record_get_em.
    destruct (remove_empty em) as [|kv em'] eqn:He; [reflexivity|].
    rewrite <- He. rewrite get_path_cons, dict_get_remove_empty by assumption.
    rewrite get_path_cons in Hget.
    destruct (dict_get k em) as [v|]; [|reflexivity].
    destruct (is_empty v); [reflexivity|exact Hget].
Qed.

(** X1. The record that [_parse_file] returns has no other keys than
    [electron_microscopy] and [image], and each one it has is a mapping that
    is not empty. *)
Theorem record_has_two_nonempty_branches (hs_data : dataset) (record : dict)
    (k : string) :
  _parse_file hs_data = Ok record ->
  In k (keys record) ->
  (k = "electron_microscopy" \/ k = "image") /\
  exists m, dict_get k record = Some (VDict m) /\ is_empty (VDict m) = false.
Proof.
  intros H Hk.
  destruct (_parse_file_stages _ _ H)
    as (em1 & em2 & em3 & em4 & em5 & em6 & image & _ & _ & _ & _ & _ & _ & _ & ->).
  unfold make_record in *.
  destruct (remove_empty em6) as [|kv em], image as [|kv' image'];
    simpl in Hk; try contradiction;
    repeat (destruct Hk as [<-|Hk]; [split; [tauto|eexists; split; reflexivity]|]);
    contradiction.
Qed.

Lemma record_has_two_nonempty_branches_witness :
  In "image"
    (keys [("electron_microscopy",
            VDict [("raw_metadata",
                    VDict (original_metadata
                      (dimensions_dataset (VDict [("Data0", VInt 10)]))))]);
           ("image", VDict [("shape", VList [VInt 10])])]) /\
  ("image" = "electron_microscopy" \/ "image" = "image") /\
  exists m,
    dict_get "image"
      [("electron_microscopy",
        VDict [("raw_metadata",
                VDict (original_metadata
                  (dimensions_dataset (VDict [("Data0", VInt 10)]))))]);
       ("image", VDict [("shape", VList [VInt 10])])]
    = Some (VDict m) /\ is_empty (VDict m) = false.
Proof.
  assert (Hin : In "image"
            (keys [("electron_microscopy",
                    VDict [("raw_metadata",
                            VDict (original_metadata
                              (dimensions_dataset (VDict [("Data0", VInt 10)]))))]);
                   ("image", VDict [("shape", VList [VInt 10])])]))
    by (simpl; tauto).
  split; [exact Hin|].
  exact (record_has_two_nonempty_branches
           (dimensions_dataset (VDict [("Data0", VInt 10)])) _ "image" eq_refl Hin).
Defined.

(** X2. No key of the returned [electron_microscopy] mapping has the value
    [None], [[]] or [{}]. *)
Theorem electron_microscopy_has_no_empty_value (hs_data : dataset)
    (record em : dict) (k : string) (v : value) :
  _parse_file hs_data = Ok record ->
  dict_get "electron_microscopy" record = Some (VDict em) ->
  dict_get k em = Some v ->
  is_empty v = false.
Proof.
  intros H Hem Hk.
  destruct (_parse_file_NoDup _ _ H) as (em6 & image & Hnd & ->).
  rewrite make_record_get_em in Hem.
  destruct (remove_empty em6) eqn:He; [discriminate|].
  injection Hem as <-. rewrite <- He in Hk.
  rewrite dict_get_remove_empty in Hk by assumption.
  destruct (dict_get k em6) as [x|]; [|discriminate].
  destruct (is_empty x) eqn:Hx; [discriminate|]. now injection Hk as <-.
Qed.

Lemma electron_microscopy_has_no_empty_value_witness :
  is_empty (VDict [("Tag", VDict [])]) = false.
Proof.
  exact (electron_microscopy_has_no_empty_value empty_tag_dataset _ _
           "raw_metadata" _ eq_refl eq_refl eq_refl).
Defined.

(** The six sections are mappings as long as [self.em] is worked on. *)
Lemma sections_are_mappings (hs_data : dataset) (record : dict) :
  _parse_file hs_data = Ok record ->
  exists em image,
    NoDup (keys em) /\
    (forall s, In s sections -> exists sub, dict_get s em = Some (VDict sub)) /\
    record = make_record (remove_empty em) image.
Proof.
  intro H.
  destruct (_parse_file_invariant
              (fun em => (forall s, In s sections ->
                                    exists sub, dict_get s em = Some (VDict sub))
                         /\ NoDup (keys em)) hs_data record)
    as (em & image & [Hs Hnd] & _ & ->); auto.
  - apply preserved_by_and; [|apply NoDup_preserved].
    intros d p leaf ov Hp Hd s Hin. destruct (Hd s Hin) as [sub Hsub].
    eapply set_path_keeps_mapping; eauto using all_dests_section_path.
  - apply preserved_by_keys_and; [|apply NoDup_preserved_keys].
    intros d k v Hk Hd s Hin. rewrite dict_get_set_neq; [now apply Hd|].
    intros ->. apply (sections_not_raw_metadata s Hin). now right.
  - split; [|apply initial_em_NoDup].
    intros s Hin. unfold initial_em, sections in *. simpl in Hin.
    repeat (destruct Hin as [<-|Hin]; [simpl; eauto|]). contradiction.
  - eauto.
Qed.

(** X3. A section of the returned [electron_microscopy] mapping ([General],
    [General_EM], [TEM], [SEM], [EDS], [EELS]) is a mapping with at least
    one field: an empty section is left out, and no rule replaces a section
    by a scalar. *)
Theorem section_is_nonempty_mapping (hs_data : dataset) (record em : dict)
    (s : string) (v : value) :
  _parse_file hs_data = Ok record ->
  dict_get "electron_microscopy" record = Some (VDict em) ->
  In s sections ->
  dict_get s em = Some v ->
  exists k x fields, v = VDict ((k, x) :: fields).
Proof.
  intros H Hem Hs Hv.
  destruct (sections_are_mappings _ _ H) as (em6 & image & Hnd & Hsec & ->).
  rewrite make_record_get_em in Hem.
  destruct (remove_empty em6) eqn:He; [discriminate|].
  injection Hem as <-. rewrite <- He in Hv.
  rewrite dict_get_remove_empty in Hv by assumption.
  destruct (Hsec s Hs) as [sub Hsub]. rewrite Hsub in Hv.
  destruct sub as [|[k x] fields]; [discriminate|].
  injection Hv as <-. eauto.
Qed.

Lemma section_is_nonempty_mapping_witness :
  exists k x fields,
    VDict [("beam_energy", VDict [("value", VFloat 200); ("unit", VStr "KiloEV")]);
           ("microscope_name", VStr "JEOL")]
    = VDict ((k, x) :: fields).
Proof.
  refine (section_is_nonempty_mapping tem_dataset _ _ "General_EM" _
            eq_refl eq_refl _ eq_refl).
  simpl. tauto.
Defined.

(** *** The fields written at the top level *)

Lemma py_float_VFloat (v r : value) : py_float v = Ok r -> exists f, r = VFloat f.
Proof.
  destruct v; simpl; intro H; try discriminate;
    try (injection H as <-; eauto);
    (bind_inv H; injection H as <-; eauto).
Qed.

Lemma py_str_VStr (v r : value) : py_str v = Ok r -> exists s, r = VStr s.
Proof. destruct v; simpl; intro H; try discriminate; injection H as <-; eauto. Qed.

(** [self.em[k] = cast(...)] in a [try] whose handler leaves [self.em]. *)
Lemma typed_assignment (P : dict -> Prop) (k : string) (T : value -> Prop)
    (get : result value) (cast : value -> result value)
    (em : dict) (rest : result dict) (em' : dict) :
  (forall v r, cast v = Ok r -> T r) ->
  (forall r, T r -> P em -> P (dict_set k r em)) ->
  (rest = Ok em' -> P em') ->
  try_except (x <- get ;; r <- cast x ;; Ok (dict_set k r em)) rest = Ok em' ->
  P em -> P em'.
Proof.
  intros HT Hset Hrest H Hem. apply try_except_Ok in H. destruct H as [H|H]; auto.
  bind_inv H. bind_inv H. injection H as <-. eauto.
Qed.

Lemma non_hs_data_typed (raw_meta em em' : dict) :
  non_hs_data raw_meta em = Ok em' ->
  (forall k, In k non_hs_keys -> dict_get k em = None) ->
  forall k v, In k non_hs_keys -> dict_get k em' = Some v -> non_hs_typed k v.
Proof.
  intros H Hnone.
  set (P := fun d : dict =>
         forall k v, In k non_hs_keys -> dict_get k d = Some v -> non_hs_typed k v).
  assert (P0 : P em) by (intros k v Hk Hv; rewrite (Hnone k Hk) in Hv; discriminate).
  assert (Hset : forall k0 r d,
             non_hs_typed k0 r -> P d -> P (dict_set k0 r d)).
  { intros k0 r d Hr Hd k v Hk Hv.
    destruct (String.eqb_spec k0 k) as [->|Hne].
    - rewrite dict_get_set_eq in Hv. now injection Hv as <-.
    - rewrite dict_get_set_neq in Hv by assumption. now apply Hd. }
  assert (Tf : forall r, (exists f, r = VFloat f) -> non_hs_typed "emission_current" r)
    by (intros r Hr; repeat split; intro; (assumption || discriminate)).
  assert (To : forall r, (exists s, r = VStr s) -> non_hs_typed "operation_mode" r)
    by (intros r Hr; repeat split; intro; (assumption || discriminate)).
  assert (Tm : forall r, (exists s, r = VStr s) -> non_hs_typed "microscope" r)
    by (intros r Hr; repeat split; intro; (assumption || discriminate)).
  assert (Ts : forall r, (exists z, r = VInt z) -> non_hs_typed "spot_size" r)
    by (intros r Hr; repeat split; intro; (assumption || discriminate)).
  unfold non_hs_data in H.
  bind_inv_as H micro_info Hmi. bind_inv_as H exp_desc Hed.
  bind_inv_as H em1 H1. bind_inv_as H em2 H2. bind_inv_as H em3 H3.
  assert (P1 : P em1).
  { refine (typed_assignment P _ _ _ _ em _ em1 py_float_VFloat _ _ H1 P0); [auto|].
    intro Hr.
    refine (typed_assignment P _ _ _ _ em _ em1 py_float_VFloat _ _ Hr P0); [auto|].
    intro Hr'. now injection Hr' as <-. }
  assert (P2 : P em2).
  { refine (typed_assignment P _ _ _ _ em1 _ em2 py_str_VStr _ _ H2 P1); [auto|].
    intro Hr. now injection Hr as <-. }
  assert (P3 : P em3).
  { refine (typed_assignment P _ _ _ _ em2 _ em3 py_str_VStr _ _ H3 P2); [auto|].
    intro Hr.
    refine (typed_assignment P _ _ _ _ em2 _ em3 py_str_VStr _ _ Hr P2); [auto|].
    intro Hr'. now injection Hr' as <-. }
  refine (typed_assignment P _ _ _ _ em3 _ em' py_int_VInt _ _ H P3); [auto|].
  intro Hr. now injection Hr as <-.
Qed.

(** The five stages before the top-level fields write below the six
    sections only: the four top-level keys are not set by them. *)
Lemma non_hs_keys_unset (hs_data : dataset) (em1 em2 em3 em4 em5 : dict) :
  _process_hs_data (metadata hs_data) (initial_em (original_metadata hs_data))
    = Ok em1 ->
  _dm3_general_info (original_metadata hs_data) em1 = Ok em2 ->
  _dm3_eels_info (original_metadata hs_data) em2 = Ok em3 ->
  _dm3_tecnai_info line_separator (original_metadata hs_data) em3 = Ok em4 ->
  _dm3_eds_info (original_metadata hs_data) em4 = Ok em5 ->
  forall k, In k non_hs_keys -> dict_get k em5 = None.
Proof.
  intros H1 H2 H3 H4 H5 k0 Hk0.
  set (P := fun d : dict => dict_get k0 d = None).
  assert (HP : preserved_by P all_dests).
  { apply top_key_preserved. intro Hs.
    apply (sections_not_raw_metadata k0 Hs). now right. }
  destruct (preserved_by_all P HP) as (Pa & Pb & Pc & Pd & Pe).
  apply (_dm3_eds_info_preserved P _ _ _ Pe H5).
  apply (_dm3_tecnai_info_preserved P _ _ _ _ Pd H4).
  apply (_dm3_eels_info_preserved P _ _ _ Pc H3).
  apply (_dm3_general_info_preserved P _ _ _ Pb H2).
  apply (_process_hs_data_preserved P _ _ _ Pa H1).
  unfold P, initial_em, non_hs_keys in *. simpl in Hk0.
  repeat (destruct Hk0 as [<-|Hk0]; [reflexivity|]). contradiction.
Qed.

(** X4. The four fields at the top level of the returned
    [electron_microscopy] mapping have a fixed type each:
    [emission_current] is a float, [operation_mode] and [microscope] are
    strings, [spot_size] is an integer; none of them carries a unit. *)
Theorem top_level_fields_are_typed (hs_data : dataset) (record em : dict)
    (k : string) (v : value) :
  _parse_file hs_data = Ok record ->
  dict_get "electron_microscopy" record = Some (VDict em) ->
  In k non_hs_keys ->
  dict_get k em = Some v ->
  non_hs_typed k v.
Proof.
  intros H Hem Hk Hv.
  destruct (_parse_file_stages_NoDup _ _ H)
    as (em1 & em2 & em3 & em4 & em5 & em6 & image
        & H1 & H2 & H3 & H4 & H5 & H6 & Hnd & ->).
  pose proof (non_hs_keys_unset _ _ _ _ _ _ H1 H2 H3 H4 H5) as Hnone.
  rewrite make_record_get_em in Hem.
  destruct (remove_empty em6) eqn:He; [discriminate|].
  injection Hem as <-. rewrite <- He in Hv.
  rewrite dict_get_remove_empty in Hv by assumption.
  destruct (dict_get k em6) as [x|] eqn:Hx; [|discriminate].
  destruct (is_empty x); [discriminate|]. injection Hv as <-.
  exact (non_hs_data_typed _ _ _ H6 Hnone k x Hk Hx).
Qed.

Lemma top_level_fields_are_typed_witness :
  non_hs_typed "spot_size" (VInt 3).
Proof.
  refine (top_level_fields_are_typed microscope_info_dataset _ _ "spot_size" _
            eq_refl eq_refl _ eq_refl).
  simpl. tauto.
Defined.

(** *** Exceptions *)

Lemma bind_Raise {A B : Type} (m : result A) (f : A -> result B) (e : exn) :
  bind m f = Raise e -> m = Raise e \/ exists a, m = Ok a /\ f a = Raise e.
Proof.
  destruct m as [a|e'|]; simpl; intro H; try discriminate.
  - right. now exists a.
  - injection H as ->. now left.
Qed.

Lemma try_except_Raise {A : Type} (body handler : result A) (e : exn) :
  try_except body handler = Raise e -> handler = Raise e.
Proof. destruct body; simpl; intro H; auto; discriminate. Qed.

Lemma apply_rule_no_raise (d : dict) (m : MappingElements) (e : exn) :
  conv_total m -> apply_rule d m <> Raise e.
Proof.
  intros Hm H. unfold apply_rule in H.
  destruct (get_val (source_dict m) (source_path m)) eqn:Hg; try discriminate;
    (destruct (cast_fn m _) as [c| |] eqn:Hc; try discriminate;
     specialize (Hm _ c e Hc);
     destruct (conv_fn m) as [conv|]; simpl in H;
     [destruct (conv c) eqn:Hf; simpl in H; try discriminate;
      injection H as ->; now apply Hm
     |discriminate]).
Qed.

Lemma map_dict_values_no_raise (rules : list MappingElements) :
  Forall conv_total rules ->
  forall d e, map_dict_values rules d <> Raise e.
Proof.
  induction 1 as [|m rules Hm Hrules IH]; intros d e H; simpl in H;
    [discriminate|].
  apply bind_Raise in H. destruct H as [H|(a & _ & H)].
  - exact (apply_rule_no_raise _ _ _ Hm H).
  - exact (IH _ _ H).
Qed.

(** A rule without conversion, or with a conversion of the float that
    [float] returned. *)
Ltac conv_total_rule :=
  let v := fresh "v" in
  let c := fresh "c" in
  let e := fresh "e" in
  let Hc := fresh "Hc" in
  let f := fresh "f" in
  intros v c e Hc; cbn [conv_fn cast_fn] in *;
  try exact I;
  destruct (py_float_VFloat _ _ Hc) as [f ->];
  cbn [div_1000 mul_1000]; try (destruct (ge_1000 _)); discriminate.

Ltac conv_total_rules := repeat (constructor; [conv_total_rule|]); constructor.

Lemma hs_instrument_rules_total (source : value) :
  Forall conv_total (hs_instrument_rules source).
Proof. unfold hs_instrument_rules. conv_total_rules. Qed.

Lemma hs_detector_rules_total (inst_data : value) :
  Forall conv_total (hs_detector_rules inst_data).
Proof.
  unfold hs_detector_rules. destruct (is_none _); simpl; conv_total_rules.
Qed.

Lemma hs_general_rules_total (source : value) :
  Forall conv_total (hs_general_rules source).
Proof. unfold hs_general_rules. conv_total_rules. Qed.

Lemma dm3_general_rules_total (raw_meta : dict) (voltage : value) :
  Forall conv_total (dm3_general_rules raw_meta voltage).
Proof.
  unfold dm3_general_rules. repeat (apply Forall_app; split).
  - unfold dm3_microscope_rules. conv_total_rules.
  - unfold dm3_voltage_rules. destruct (is_none voltage); conv_total_rules.
  - unfold dm3_session_rules. conv_total_rules.
  - unfold dm3_meta_data_rules. conv_total_rules.
  - unfold dm3_misc_rules. conv_total_rules.
Qed.

Lemma dm3_eels_rules_total (raw_meta : dict) :
  Forall conv_total (dm3_eels_rules raw_meta).
Proof. unfold dm3_eels_rules. simpl. conv_total_rules. Qed.

Lemma dm3_eds_rules_total (raw_meta : dict) :
  Forall conv_total (dm3_eds_rules raw_meta).
Proof. unfold dm3_eds_rules. conv_total_rules. Qed.

Lemma tecnai_base_mapping_total
    (name extr emis opmode defocus1 defocus2 magn cl spot : option string) :
  Forall conv_total
    (tecnai_base_mapping name extr emis opmode defocus1 defocus2 magn cl spot).
Proof. unfold tecnai_base_mapping. conv_total_rules. Qed.

Lemma tecnai_stage_mapping_total (x y z alpha beta : string) :
  Forall conv_total (tecnai_stage_mapping x y z alpha beta).
Proof. unfold tecnai_stage_mapping. conv_total_rules. Qed.

Lemma tecnai_filter_mapping_total (mode disp aper prism drift total : option string) :
  Forall conv_total (tecnai_filter_mapping mode disp aper prism drift total).
Proof. unfold tecnai_filter_mapping. conv_total_rules. Qed.

(** The test of the instrument raises on an [Acquisition_instrument] that
    is not a mapping, and only then. *)
Lemma instrument_raises (meta : dict) (e : exn) :
  instrument meta = Raise e ->
  e = AttributeError /\ is_mapping (acquisition_instrument meta) = false.
Proof.
  unfold instrument. destruct (acquisition_instrument meta); simpl; intro H;
    try (injection H as <-; now split).
  destruct (dict_get "SEM" d); [discriminate|].
  destruct (dict_get "TEM" d); discriminate.
Qed.

Lemma _process_hs_data_raises (meta em : dict) (e : exn) :
  _process_hs_data meta em = Raise e ->
  e = AttributeError /\ is_mapping (acquisition_instrument meta) = false.
Proof.
  unfold _process_hs_data. intro H.
  apply bind_Raise in H. destruct H as [H|(inst & _ & H)];
    [now apply instrument_raises|].
  exfalso. apply bind_Raise in H. destruct H as [H|(em1 & _ & H)].
  - destruct (is_none _); [discriminate|].
    apply bind_Raise in H. destruct H as [H|(em' & _ & H)].
    + exact (map_dict_values_no_raise _ (hs_instrument_rules_total _) _ _ H).
    + exact (map_dict_values_no_raise _ (hs_detector_rules_total _) _ _ H).
  - exact (map_dict_values_no_raise _ (hs_general_rules_total _) _ _ H).
Qed.

Lemma get_val_cast_no_raise (t : value) (path : list string)
    (cast : value -> result value) (e : exn) :
  get_val_cast t path cast <> Raise e.
Proof.
  unfold get_val_cast. destruct (get_val t path); try discriminate;
    destruct (cast _); discriminate.
Qed.

Lemma _dm3_general_info_no_raise (raw_meta em : dict) (e : exn) :
  _dm3_general_info raw_meta em <> Raise e.
Proof.
  unfold _dm3_general_info. intro H.
  apply bind_Raise in H. destruct H as [H|(voltage & _ & H)].
  - exact (get_val_cast_no_raise _ _ _ _ H).
  - exact (map_dict_values_no_raise _ (dm3_general_rules_total _ _) _ _ H).
Qed.

Lemma _dm3_eels_info_no_raise (raw_meta em : dict) (e : exn) :
  _dm3_eels_info raw_meta em <> Raise e.
Proof. exact (map_dict_values_no_raise _ (dm3_eels_rules_total _) _ _). Qed.

Lemma _dm3_eds_info_no_raise (raw_meta em : dict) (e : exn) :
  _dm3_eds_info raw_meta em <> Raise e.
Proof. exact (map_dict_values_no_raise _ (dm3_eds_rules_total _) _ _). Qed.

Lemma __extract_val_raises (regex : pattern) (o : option string) (e : exn) :
  __extract_val regex o = Raise e -> e = TypeError /\ o = None.
Proof.
  destruct o as [s|]; simpl.
  - unfold re_search. destruct (forall_chars is_ascii s); discriminate.
  - intro H. injection H as <-. now split.
Qed.

Lemma re_findall_no_raise (pat : pattern) (s : string) (e : exn) :
  re_findall pat s <> Raise e.
Proof. unfold re_findall. destruct (forall_chars is_ascii s); discriminate. Qed.

Ltac extract_raises H :=
  repeat (apply bind_Raise in H;
          destruct H as [H|(? & _ & H)];
          [apply __extract_val_raises in H; tauto|]).

Lemma tecnai_base_rules_raises (info : list string) (e : exn) :
  tecnai_base_rules info = Raise e -> e = TypeError.
Proof. unfold tecnai_base_rules. intro H. extract_raises H. discriminate. Qed.

Lemma tecnai_filter_rules_raises (info : list string) (e : exn) :
  tecnai_filter_rules info = Raise e -> e = TypeError.
Proof.
  unfold tecnai_filter_rules. intro H.
  destruct (__find_val "Filter related settings" info) as [[|c s]|];
    try discriminate.
  extract_raises H. discriminate.
Qed.

Lemma tecnai_stage_rules_raises (info : list string) (e : exn) :
  tecnai_stage_rules info = Raise e -> e = ValueError.
Proof.
  unfold tecnai_stage_rules. intro H.
  destruct (__find_val "Stage" info) as [[|c s]|]; try discriminate.
  apply bind_Raise in H. destruct H as [H|(xyz & _ & H)];
    [now apply re_findall_no_raise in H|].
  destruct xyz as [|x [|y [|z [|]]]]; try (now injection H as <-).
  apply bind_Raise in H. destruct H as [H|(ab & _ & H)];
    [now apply re_findall_no_raise in H|].
  destruct ab as [|a [|b [|]]]; try (now injection H as <-). discriminate.
Qed.

Lemma tecnai_rules_total (info : list string)
    (base stage filt : list MappingElements) :
  tecnai_base_rules info = Ok base ->
  tecnai_stage_rules info = Ok stage ->
  tecnai_filter_rules info = Ok filt ->
  Forall conv_total (base ++ stage ++ filt).
Proof.
  intros Hb Hs Hf. repeat (apply Forall_app; split).
  - unfold tecnai_base_rules in Hb. repeat bind_inv Hb. injection Hb as <-.
    apply tecnai_base_mapping_total.
  - unfold tecnai_stage_rules in Hs.
    destruct (__find_val "Stage" info) as [[|c s]|];
      try (injection Hs as <-; constructor).
    bind_inv Hs. destruct a as [|x [|y [|z [|]]]]; try discriminate.
    bind_inv Hs. destruct a as [|al [|be [|]]]; try discriminate.
    injection Hs as <-. apply tecnai_stage_mapping_total.
  - unfold tecnai_filter_rules in Hf.
    destruct (__find_val "Filter related settings" info) as [[|c s]|];
      try (injection Hf as <-; constructor).
    repeat bind_inv Hf. injection Hf as <-. apply tecnai_filter_mapping_total.
Qed.

(** What [_dm3_tecnai_info] raises: nothing without a Tecnai string,
    [TypeError] or [ValueError] on a string, [AttributeError] on anything
    else. *)
Lemma _dm3_tecnai_info_raises (delimiter : string) (raw_meta em : dict) (e : exn) :
  _dm3_tecnai_info delimiter raw_meta em = Raise e ->
  match get_val (VDict raw_meta) path_to_tecnai with
  | VNone => False
  | VStr _ => e = TypeError \/ e = ValueError
  | _ => e = AttributeError
  end.
Proof.
  unfold _dm3_tecnai_info.
  destruct (get_val (VDict raw_meta) path_to_tecnai) as [| | | |info| |];
    intro H; try discriminate; try (now injection H as <-).
  apply bind_Raise in H. destruct H as [H|(base & Hb & H)];
    [left; eapply tecnai_base_rules_raises; eauto|].
  apply bind_Raise in H. destruct H as [H|(stage & Hs & H)];
    [right; eapply tecnai_stage_rules_raises; eauto|].
  apply bind_Raise in H. destruct H as [H|(filt & Hf & H)];
    [left; eapply tecnai_filter_rules_raises; eauto|].
  exfalso.
  exact (map_dict_values_no_raise _ (tecnai_rules_total _ _ _ _ Hb Hs Hf) _ _ H).
Qed.

Lemma non_hs_data_no_raise (raw_meta em : dict) (e : exn) :
  non_hs_data raw_meta em <> Raise e.
Proof.
  unfold non_hs_data. intro H.
  repeat (apply bind_Raise in H;
          destruct H as [H|(? & _ & H)];
          [repeat (apply try_except_Raise in H); discriminate|]).
  repeat (apply try_except_Raise in H). discriminate.
Qed.

Lemma image_metadata_no_raise (raw_meta : dict) (e : exn) :
  image_metadata raw_meta <> Raise e.
Proof.
  unfold image_metadata. intro H. apply try_except_Raise in H. discriminate.
Qed.

(** Where an exception of [_parse_file] comes from. *)
Lemma _parse_file_raises (hs_data : dataset) (e : exn) :
  _parse_file hs_data = Raise e ->
  (e = AttributeError /\
   is_mapping (acquisition_instrument (metadata hs_data)) = false) \/
  match tecnai_string hs_data with
  | VNone => False
  | VStr _ => e = TypeError \/ e = ValueError
  | _ => e = AttributeError
  end.
Proof.
  unfold _parse_file, tecnai_string. intro H.
  apply bind_Raise in H. destruct H as [H|(em1 & _ & H)];
    [left; eapply _process_hs_data_raises; eauto|].
  apply bind_Raise in H. destruct H as [H|(em2 & _ & H)];
    [now apply _dm3_general_info_no_raise in H|].
  apply bind_Raise in H. destruct H as [H|(em3 & _ & H)];
    [now apply _dm3_eels_info_no_raise in H|].
  apply bind_Raise in H. destruct H as [H|(em4 & _ & H)];
    [right; eapply _dm3_tecnai_info_raises; eauto|].
  apply bind_Raise in H. destruct H as [H|(em5 & _ & H)];
    [now apply _dm3_eds_info_no_raise in H|].
  apply bind_Raise in H. destruct H as [H|(em6 & _ & H)];
    [now apply non_hs_data_no_raise in H|].
  apply bind_Raise in H. destruct H as [H|(image & _ & H)];
    [now apply image_metadata_no_raise in H|].
  discriminate.
Qed.




(** X5. [_parse_file] raises [AttributeError] when the structured metadata
    has an [Acquisition_instrument] that is not a mapping: the test
    ["SEM" in self.meta.get('Acquisition_instrument', {}).keys()] fails
    before any field is read. *)
Theorem instrument_not_a_mapping_raises (hs_data : dataset) :
  is_mapping (acquisition_instrument (metadata hs_data)) = false ->
  _parse_file hs_data = Raise AttributeError.
Proof.
  intro H. unfold _parse_file, _process_hs_data, instrument.
  destruct (acquisition_instrument (metadata hs_data)); try discriminate;
    reflexivity.
Qed.

Lemma instrument_not_a_mapping_raises_witness :
  _parse_file bad_instrument_dataset = Raise AttributeError.
Proof. exact (instrument_not_a_mapping_raises bad_instrument_dataset eq_refl). Defined.

(** X6. When the Tecnai "Microscope Info" tag is present and is not a
    string, [_parse_file] returns no record: [self.tecnai_info.split]
    raises [AttributeError]. *)
Theorem tecnai_not_a_string_raises (hs_data : dataset) :
  is_none (tecnai_string hs_data) = false ->
  is_string (tecnai_string hs_data) = false ->
  _parse_file hs_data = Raise AttributeError \/ _parse_file hs_data = Unmodelled.
Proof.
  intros Hn Hs. destruct (_parse_file hs_data) as [record|e|] eqn:H; auto.
  - exfalso.
    destruct (_parse_file_stages _ _ H)
      as (em1 & em2 & em3 & em4 & em5 & em6 & image
          & _ & _ & _ & H4 & _).
    unfold _dm3_tecnai_info in H4. unfold tecnai_string in *.
    destruct (get_val _ path_to_tecnai); discriminate.
  - left. f_equal. apply _parse_file_raises in H. destruct H as [[-> _]|H]; auto.
    destruct (tecnai_string hs_data); try discriminate; auto; contradiction.
Qed.

Lemma tecnai_not_a_string_raises_witness :
  _parse_file (tecnai_value_dataset (VInt 5)) = Raise AttributeError \/
  _parse_file (tecnai_value_dataset (VInt 5)) = Unmodelled.
Proof.
  exact (tecnai_not_a_string_raises (tecnai_value_dataset (VInt 5)) eq_refl eq_refl).
Defined.

(** X7. The only exceptions that leave [_parse_file] are [AttributeError],
    from an [Acquisition_instrument] that is not a mapping or a Tecnai tag
    that is neither absent nor a string, and [TypeError] or [ValueError],
    from a Tecnai string.  A file without Tecnai tag whose
    [Acquisition_instrument] is a mapping or is absent never makes
    [_parse_file] raise. *)
Theorem parse_file_exceptions (hs_data : dataset) (e : exn) :
  _parse_file hs_data = Raise e ->
  (e = AttributeError /\
   is_mapping (acquisition_instrument (metadata hs_data)) = false) \/
  (e = AttributeError /\
   is_none (tecnai_string hs_data) = false /\
   is_string (tecnai_string hs_data) = false) \/
  ((e = TypeError \/ e = ValueError) /\
   is_string (tecnai_string hs_data) = true).
Proof.
  intro H. apply _parse_file_raises in H. destruct H as [H|H]; [now left|].
  right. destruct (tecnai_string hs_data); try contradiction;
    try (left; now repeat split). right. now split.
Qed.

Lemma parse_file_exceptions_witness :
  (AttributeError = AttributeError /\
   is_mapping (acquisition_instrument (metadata bad_instrument_dataset)) = false) \/
  (AttributeError = AttributeError /\
   is_none (tecnai_string bad_instrument_dataset) = false /\
   is_string (tecnai_string bad_instrument_dataset) = false) \/
  ((AttributeError = TypeError \/ AttributeError = ValueError) /\
   is_string (tecnai_string bad_instrument_dataset) = true).
Proof. exact (parse_file_exceptions bad_instrument_dataset AttributeError eq_refl). Defined.



(** *** The fields of [General_EM] that one source decides *)

Lemma dm3_general_rules_dests_tail (raw_meta : dict) (voltage : value) :
  incl (dests (dm3_general_rules raw_meta voltage)) (tl dm3_general_dests).
Proof.
  change (tl dm3_general_dests)
    with (dests (dm3_microscope_rules VNone [])
          ++ dm3_voltage_dests ++ dm3_general_tail_dests).
  unfold dm3_general_rules, dm3_general_tail_dests, dests.
  rewrite !map_app.
  repeat apply incl_app.
  - apply incl_appl, incl_refl.
  - apply incl_appr, incl_appl. unfold dm3_voltage_rules.
    destruct (is_none voltage); [intros p []|apply incl_refl].
  - apply incl_appr, incl_appr, incl_appl, incl_refl.
  - apply incl_appr, incl_appr, incl_appr, incl_appl, incl_refl.
  - apply incl_appr, incl_appr, incl_appr, incl_appr, incl_refl.
Qed.

Lemma dm3_general_rules_dests_no_voltage (raw_meta : dict) :
  incl (dests (dm3_general_rules raw_meta VNone))
       (dests (dm3_microscope_rules VNone []) ++ dm3_general_tail_dests).
Proof.
  unfold dm3_general_rules, dm3_general_tail_dests, dests.
  rewrite !map_app. simpl.
  intros p Hp. exact Hp.
Qed.

(** The whole of [_parse_file] after the first two stages leaves in place
    what is at a path that none of the later rules writes to. *)
Lemma later_stages_frame (hs_data : dataset) (em2 em3 em4 em5 em6 : dict)
    (k j : string) (q : list string) (x : option value) :
  forallb (incomparable (k :: j :: q))
    (dm3_eels_dests ++ tecnai_dests ++ dm3_eds_dests) = true ->
  ~ In k non_hs_keys ->
  _dm3_eels_info (original_metadata hs_data) em2 = Ok em3 ->
  _dm3_tecnai_info line_separator (original_metadata hs_data) em3 = Ok em4 ->
  _dm3_eds_info (original_metadata hs_data) em4 = Ok em5 ->
  non_hs_data (original_metadata hs_data) em5 = Ok em6 ->
  get_path (VDict em2) (k :: j :: q) = x ->
  get_path (VDict em6) (k :: j :: q) = x.
Proof.
  intros Hinc Hk H3 H4 H5 H6 H2.
  rewrite !forallb_app in Hinc. apply andb_true_iff in Hinc.
  destruct Hinc as [Hc Hinc]. apply andb_true_iff in Hinc.
  destruct Hinc as [Hd He].
  set (P := fun em : dict => get_path (VDict em) (k :: j :: q) = x).
  apply (non_hs_data_preserved P _ _ _ (frame_preserved_keys k (j :: q) x _ Hk) H6).
  apply (_dm3_eds_info_preserved P _ _ _ (frame_preserved _ x _ He) H5).
  apply (_dm3_tecnai_info_preserved P _ _ _ _ (frame_preserved _ x _ Hd) H4).
  apply (_dm3_eels_info_preserved P _ _ _ (frame_preserved _ x _ Hc) H3).
  exact H2.
Qed.

Ltac not_non_hs_key :=
  unfold non_hs_keys; simpl; intuition discriminate.

(** X9. [General_EM.acquisition_software_name] is in the record exactly
    when the original metadata has the DigitalMicrograph tag group
    [ImageList.TagGroup0.ImageTags], and it is then "DigitalMicrograph". *)
Theorem acquisition_software_name_from_image_tags (hs_data : dataset)
    (record : dict) :
  _parse_file hs_data = Ok record ->
  get_path (VDict record)
    ["electron_microscopy"; "General_EM"; "acquisition_software_name"]
  = if is_none (get_val (VDict (original_metadata hs_data)) image_tags)
    then None
    else Some (VStr "DigitalMicrograph").
Proof.
  intro H.
  destruct (_parse_file_stages_NoDup _ _ H)
    as (em1 & em2 & em3 & em4 & em5 & em6 & image
        & H1 & H2 & H3 & H4 & H5 & H6 & Hnd & ->).
  set (raw := original_metadata hs_data) in *.
  rewrite record_leaf by assumption.
  apply (later_stages_frame hs_data em2 em3 em4 em5 em6
           "General_EM" "acquisition_software_name" [] _
           eq_refl ltac:(not_non_hs_key) H3 H4 H5 H6).
  set (absent := fun em : dict =>
         get_path (VDict em) software_name_path = None /\
         exists sub, dict_get "General_EM" em = Some (VDict sub)).
  assert (A1 : absent em1).
  { refine (_process_hs_data_preserved absent _ _ _ _ H1 _).
    - apply preserved_by_and;
        [now apply frame_preserved|now apply mapping_preserved].
    - split; [reflexivity|]. unfold initial_em. simpl. eauto. }
  unfold _dm3_general_info in H2. bind_inv_as H2 voltage Hv.
  refine (map_dict_values_preserved _ (tl dm3_general_dests) _
            (frame_preserved software_name_path _ (tl dm3_general_dests) eq_refl)
            (dm3_general_rules_dests_tail _ _) _ _ H2 _).
  destruct A1 as [An As].
  destruct (is_none _); [exact An|].
  exact (set_path_written em1 _ _ _ false As (or_introl An)).
Qed.

Lemma acquisition_software_name_from_image_tags_witness :
  exists record,
    _parse_file (voltage_dataset (VStr "200 kV")) = Ok record /\
    get_path (VDict record)
      ["electron_microscopy"; "General_EM"; "acquisition_software_name"]
    = Some (VStr "DigitalMicrograph").
Proof.
  eexists. split; [reflexivity|].
  exact (acquisition_software_name_from_image_tags
           (voltage_dataset (VStr "200 kV")) _ eq_refl).
Defined.

(** X10. Without a Voltage tag that casts to a float, the record has no
    [General_EM.accelerating_voltage]: no other tag and no other stage
    supplies it. *)
Theorem no_voltage_no_accelerating_voltage (hs_data : dataset) (record : dict) :
  _parse_file hs_data = Ok record ->
  get_val_cast (VDict (original_metadata hs_data))
    (voltage_path (original_metadata hs_data)) py_float = Ok VNone ->
  get_path (VDict record)
    ["electron_microscopy"; "General_EM"; "accelerating_voltage"] = None.
Proof.
  intros H Hv.
  destruct (_parse_file_stages_NoDup _ _ H)
    as (em1 & em2 & em3 & em4 & em5 & em6 & image
        & H1 & H2 & H3 & H4 & H5 & H6 & Hnd & ->).
  set (raw := original_metadata hs_data) in *.
  rewrite record_leaf by assumption.
  apply (later_stages_frame hs_data em2 em3 em4 em5 em6
           "General_EM" "accelerating_voltage" [] _
           eq_refl ltac:(not_non_hs_key) H3 H4 H5 H6).
  set (P := fun em : dict => get_path (VDict em) accelerating_voltage_path = None).
  assert (A1 : P em1).
  { refine (_process_hs_data_preserved P _ _ _ _ H1 _);
      [now apply frame_preserved|reflexivity]. }
  unfold _dm3_general_info in H2. fold (voltage_path raw) in H2.
  rewrite Hv in H2. cbn [bind] in H2.
  refine (map_dict_values_preserved P _ _
            (frame_preserved accelerating_voltage_path _
               (dests (dm3_microscope_rules VNone []) ++ dm3_general_tail_dests)
               eq_refl)
            (dm3_general_rules_dests_no_voltage _) _ _ H2 _).
  destruct (is_none _); [exact A1|].
  unfold P, set_val_units. rewrite set_path_frame; [exact A1|reflexivity].
Qed.

Lemma no_voltage_no_accelerating_voltage_witness :
  exists record,
    _parse_file (voltage_dataset (VStr "200 kV")) = Ok record /\
    get_val_cast (VDict (original_metadata (voltage_dataset (VStr "200 kV"))))
      (voltage_path (original_metadata (voltage_dataset (VStr "200 kV"))))
      py_float = Ok VNone /\
    get_path (VDict record)
      ["electron_microscopy"; "General_EM"; "accelerating_voltage"] = None.
Proof.
  eexists. split; [reflexivity|]. split; [reflexivity|].
  exact (no_voltage_no_accelerating_voltage (voltage_dataset (VStr "200 kV")) _
           eq_refl eq_refl).
Defined.


(** *** Which source names the microscope *)

Lemma hs_instrument_rules_split (source : value) :
  hs_instrument_rules source =
  firstn 5 (hs_instrument_rules source)
  ++ [hs_microscope_rule source]
  ++ skipn 6 (hs_instrument_rules source).
Proof. reflexivity. Qed.

Lemma tecnai_base_mapping_head
    (name extr emis opmode defocus1 defocus2 magn cl spot : option string) :
  tecnai_base_mapping name extr emis opmode defocus1 defocus2 magn cl spot =
  [tecnai_microscope_rule name]
  ++ skipn 1 (tecnai_base_mapping name extr emis opmode defocus1 defocus2 magn cl spot).
Proof. reflexivity. Qed.

Ltac no_override_rules := repeat (constructor; [reflexivity|]); constructor.

Lemma dm3_general_rules_no_override (raw_meta : dict) (voltage : value) :
  Forall (fun m => override m = false) (dm3_general_rules raw_meta voltage).
Proof.
  unfold dm3_general_rules. repeat (apply Forall_app; split).
  - unfold dm3_microscope_rules. no_override_rules.
  - unfold dm3_voltage_rules. destruct (is_none voltage); no_override_rules.
  - unfold dm3_session_rules. no_override_rules.
  - unfold dm3_meta_data_rules. no_override_rules.
  - unfold dm3_misc_rules. no_override_rules.
Qed.

Lemma write_once_rules (p : list string) (ds : list (list string))
    (rules : list MappingElements) :
  Forall (fun m => override m = false) rules ->
  incl (dests rules) ds ->
  forallb (fun q => negb (strict_prefix p q)) ds = true ->
  Forall (fun m => override m = false /\ strict_prefix p (dest_path m) = false)
    rules.
Proof.
  intros Hov Hincl Hds. rewrite forallb_forall in Hds.
  rewrite Forall_forall in *. intros m Hm. split; [now apply Hov|].
  apply negb_true_iff. apply Hds. apply Hincl. unfold dests.
  now apply in_map.
Qed.

(** X11. Without a Tecnai string, the microscope name of the HyperSpy
    metadata wins over the names in the DigitalMicrograph tags: it is
    written first and no later rule overrides. *)
Theorem hyperspy_microscope_name_wins (hs_data : dataset) (record : dict)
    (inst s : string) :
  _parse_file hs_data = Ok record ->
  tecnai_string hs_data = VNone ->
  instrument (metadata hs_data) = Ok inst ->
  get_val (get_val (VDict (metadata hs_data)) ["Acquisition_instrument"; inst])
    ["microscope"] = VStr s ->
  get_path (VDict record) ["electron_microscopy"; "General_EM"; "microscope_name"]
  = Some (VStr s).
Proof.
  intros H Htec Hinst Hname.
  destruct (_parse_file_stages_NoDup _ _ H)
    as (em1 & em2 & em3 & em4 & em5 & em6 & image
        & H1 & H2 & H3 & H4 & H5 & H6 & Hnd & ->).
  set (raw := original_metadata hs_data) in *.
  set (meta := metadata hs_data) in *.
  rewrite record_leaf by assumption.
  set (written := fun em : dict =>
         get_path (VDict em) microscope_name_path = Some (VStr s)).
  (* the Tecnai stage does nothing *)
  unfold _dm3_tecnai_info in H4. unfold tecnai_string in Htec. fold raw in Htec.
  rewrite Htec in H4. assert (E4 : em3 = em4) by congruence. subst em4.
  apply (non_hs_data_preserved written _ _ _
           (frame_preserved_keys "General_EM" ["microscope_name"] _ non_hs_keys
              ltac:(not_non_hs_key)) H6).
  apply (_dm3_eds_info_preserved written _ _ _
           (frame_preserved microscope_name_path _ dm3_eds_dests eq_refl) H5).
  apply (_dm3_eels_info_preserved written _ _ _
           (frame_preserved microscope_name_path _ dm3_eels_dests eq_refl) H3).
  (* the HyperSpy stage writes the name *)
  assert (W1 : written em1).
  { unfold _process_hs_data in H1. rewrite Hinst in H1. cbn [bind] in H1.
    set (inst_data := get_val (VDict meta) ["Acquisition_instrument"; inst]) in *.
    assert (Hsome : is_none inst_data = false)
      by (destruct inst_data; try reflexivity; discriminate).
    rewrite Hsome in H1.
    bind_inv_as H1 em1' H1'. bind_inv_as H1' em0' H0'.
    rewrite hs_instrument_rules_split in H0'.
    rewrite map_dict_values_app in H0'. bind_inv_as H0' d0 Hd0.
    rewrite map_dict_values_app in H0'. bind_inv_as H0' d1 Hd1.
    set (absent := fun em : dict =>
           get_path (VDict em) microscope_name_path = None /\
           exists sub, dict_get "General_EM" em = Some (VDict sub)).
    assert (A0 : absent d0).
    { refine (map_dict_values_preserved absent
                (firstn 5 (dests (hs_instrument_rules VNone))) _ _ _ _ _ Hd0 _).
      - apply preserved_by_and;
          [now apply frame_preserved|now apply mapping_preserved].
      - intros p Hp. exact Hp.
      - split; [reflexivity|]. unfold initial_em. simpl. eauto. }
    assert (W : written d1).
    { cbn [map_dict_values] in Hd1. bind_inv_as Hd1 d1' Hd1'.
      injection Hd1 as <-.
      rewrite (apply_rule_found d0 (hs_microscope_rule inst_data) (VStr s))
        in Hd1'; cbn [hs_microscope_rule source_dict source_path cast_fn];
        [|rewrite Hname; discriminate|now rewrite Hname].
      cbn [hs_microscope_rule conv_fn units override dest_path bind] in Hd1'.
      injection Hd1' as <-. destruct A0 as [An As].
      exact (set_path_written d0 _ _ _ false As (or_introl An)). }
    refine (map_dict_values_preserved written (dests (hs_general_rules VNone))
              _ _ _ _ _ H1 _);
      [now apply frame_preserved|intros p Hp; exact Hp|].
    unfold _process_hs_detectors in H1'.
    refine (map_dict_values_preserved written
              (dests (hs_detector_rules (VDict [("Detector", VDict [])])))
              _ _ _ _ _ H1' _);
      [now apply frame_preserved
      |unfold hs_detector_rules, dests;
       destruct (is_none (get_val inst_data ["Detector"])); simpl;
       intros p Hp; simpl in Hp; simpl; tauto|].
    refine (map_dict_values_preserved written
              (skipn 6 (dests (hs_instrument_rules VNone))) _ _ _ _ _ H0' W);
      [now apply frame_preserved|intros p Hp; exact Hp]. }
  (* the DigitalMicrograph stage has rules for the name, without override *)
  unfold _dm3_general_info in H2. bind_inv_as H2 voltage Hv.
  assert (Hh : holds em1 microscope_name_path (VStr s)) by (split; [exact W1|reflexivity]).
  refine (proj1 (map_dict_values_write_once _ _ em2 microscope_name_path (VStr s)
                   _ _ H2)).
  - destruct (is_none _); [exact Hh|].
    split; [|reflexivity]. unfold set_val_units.
    apply set_path_write_once; [exact W1|reflexivity|reflexivity].
  - apply (write_once_rules _ dm3_general_dests);
      [apply dm3_general_rules_no_override|apply dm3_general_rules_dests
      |reflexivity].
Qed.

Lemma hyperspy_microscope_name_wins_witness :
  exists record,
    _parse_file two_names_dataset = Ok record /\
    tecnai_string two_names_dataset = VNone /\
    get_path (VDict record)
      ["electron_microscopy"; "General_EM"; "microscope_name"]
    = Some (VStr "JEOL").
Proof.
  eexists. split; [reflexivity|]. split; [reflexivity|].
  exact (hyperspy_microscope_name_wins two_names_dataset _ "TEM" "JEOL"
           eq_refl eq_refl eq_refl eq_refl).
Defined.

(** X12. With a Tecnai string that has a "Microscope " line, the record's
    [General_EM.microscope_name] is that line without the leading
    "Microscope ", whatever the HyperSpy metadata and the other tags say. *)
Theorem tecnai_microscope_name_overrides (hs_data : dataset) (record : dict)
    (info name : string) :
  _parse_file hs_data = Ok record ->
  tecnai_string hs_data = VStr info ->
  __find_val "Microscope " (split line_separator info) = Some name ->
  get_path (VDict record) ["electron_microscopy"; "General_EM"; "microscope_name"]
  = Some (VStr name).
Proof.
  intros H Hinfo Hname.
  destruct (_parse_file_stages_NoDup _ _ H)
    as (em1 & em2 & em3 & em4 & em5 & em6 & image
        & H1 & H2 & H3 & H4 & H5 & H6 & Hnd & ->).
  set (raw := original_metadata hs_data) in *.
  rewrite record_leaf by assumption.
  set (is_map := fun em : dict =>
         exists sub, dict_get "General_EM" em = Some (VDict sub)).
  assert (Hmap : forall ds, forallb section_path ds = true -> preserved_by is_map ds)
    by (intros ds Hs; now apply mapping_preserved).
  assert (M3 : is_map em3).
  { apply (_dm3_eels_info_preserved is_map _ _ _ (Hmap dm3_eels_dests eq_refl) H3).
    apply (_dm3_general_info_preserved is_map _ _ _
             (Hmap dm3_general_dests eq_refl) H2).
    apply (_process_hs_data_preserved is_map _ _ _ (Hmap hs_dests eq_refl) H1).
    unfold is_map, initial_em. simpl. eauto. }
  set (written := fun em : dict =>
         get_path (VDict em) microscope_name_path = Some (VStr name)).
  apply (non_hs_data_preserved written _ _ _
           (frame_preserved_keys "General_EM" ["microscope_name"] _ non_hs_keys
              ltac:(not_non_hs_key)) H6).
  apply (_dm3_eds_info_preserved written _ _ _
           (frame_preserved microscope_name_path _ dm3_eds_dests eq_refl) H5).
  unfold _dm3_tecnai_info in H4. unfold tecnai_string in Hinfo. fold raw in Hinfo.
  rewrite Hinfo in H4.
  bind_inv_as H4 base Hbase. bind_inv_as H4 stage Hstage.
  bind_inv_as H4 filt Hfilt.
  unfold tecnai_base_rules in Hbase. rewrite Hname in Hbase.
  repeat bind_inv Hbase. injection Hbase as <-.
  rewrite tecnai_base_mapping_head in H4. rewrite <- app_assoc in H4.
  rewrite map_dict_values_app in H4. bind_inv_as H4 d1 Hd1.
  assert (W : written d1).
  { cbn [map_dict_values] in Hd1. bind_inv_as Hd1 d1' Hd1'.
    injection Hd1 as <-.
    rewrite (apply_rule_found em3 (tecnai_microscope_rule (Some name)) (VStr name))
      in Hd1'; [|discriminate|reflexivity].
    cbn [tecnai_microscope_rule conv_fn units override dest_path bind] in Hd1'.
    injection Hd1' as <-.
    exact (set_path_written em3 _ _ _ true M3 (or_intror eq_refl)). }
  refine (map_dict_values_preserved written
            (skipn 1 tecnai_base_dests ++ tecnai_tail_dests) _
            (frame_preserved microscope_name_path _
               (skipn 1 tecnai_base_dests ++ tecnai_tail_dests) eq_refl)
            _ d1 em4 H4 W).
  unfold dests. rewrite !map_app. apply incl_app; [|apply incl_app].
  - apply incl_appl. intros p Hp. exact Hp.
  - apply incl_appr. eapply tecnai_stage_rules_dests; eauto.
  - apply incl_appr. eapply tecnai_filter_rules_dests; eauto.
Qed.

Lemma tecnai_microscope_name_overrides_witness :
  exists record,
    _parse_file three_names_dataset = Ok record /\
    __find_val "Microscope "
      (split line_separator
         (join line_separator
            ["Microscope Tecnai 200 kV"; "Gun Extr volt 300 V";
             "Emission 120.5uA"; "Mode TEM"]))
    = Some "Tecnai 200 kV" /\
    get_path (VDict record)
      ["electron_microscopy"; "General_EM"; "microscope_name"]
    = Some (VStr "Tecnai 200 kV").
Proof.
  eexists. split; [reflexivity|]. split; [reflexivity|].
  exact (tecnai_microscope_name_overrides three_names_dataset _ _ _
           eq_refl eq_refl eq_refl).
Defined.

(** *** Which tag gives a top-level field *)

Lemma get_path_app (v : value) (p q : list string) :
  get_path v (p ++ q) =
  match get_path v p with
  | Some x => get_path x q
  | None => None
  end.
Proof.
  revert v. induction p as [|k p IH]; intro v; [reflexivity|].
  destruct v as [|b|z|f|s|l|d]; try reflexivity. simpl.
  destruct (dict_get k d); [apply IH|reflexivity].
Qed.

Lemma py_getitems_get_path (v : value) (p : list string) :
  match get_path v p with
  | Some x => py_getitems v p = Ok x
  | None => exists e, py_getitems v p = Raise e
  end.
Proof.
  revert v. induction p as [|k p IH]; intro v; [reflexivity|].
  destruct v as [|b|z|f|s|l|d]; simpl; eauto.
  destruct (dict_get k d) as [x|]; simpl; eauto. apply IH.
Qed.

(** [tree[k1]...[kn]] in a [try] whose handler gives [{}], then [[k]]. *)
Lemma common_dict_item (raw : value) (p : list string) (common : value)
    (k : string) :
  try_except (py_getitems raw p) (Ok (VDict [])) = Ok common ->
  match get_path raw (p ++ [k]) with
  | Some x => py_getitem common k = Ok x
  | None => exists e, py_getitem common k = Raise e
  end.
Proof.
  intro H. rewrite get_path_app.
  pose proof (py_getitems_get_path raw p) as Hp.
  destruct (get_path raw p) as [c|].
  - rewrite Hp in H. injection H as <-.
    destruct c as [|b|z|f|s|l|d]; simpl; eauto. destruct (dict_get k d); eauto.
  - destruct Hp as [e Hp]. rewrite Hp in H. injection H as <-. simpl. eauto.
Qed.

(** [self.em[k] = cast(item)] in a [try]. *)
Lemma assignment_done (k : string) (get : result value)
    (cast : value -> result value) (em : dict) (rest : result dict)
    (x r : value) :
  get = Ok x -> cast x = Ok r ->
  try_except (y <- get ;; c <- cast y ;; Ok (dict_set k c em)) rest
  = Ok (dict_set k r em).
Proof. intros -> Hc. simpl. now rewrite Hc. Qed.

Lemma assignment_skipped (k : string) (get : result value)
    (cast : value -> result value) (em : dict) (rest : result dict) :
  (exists e, get = Raise e) \/ (exists x e, get = Ok x /\ cast x = Raise e) ->
  try_except (y <- get ;; c <- cast y ;; Ok (dict_set k c em)) rest = rest.
Proof.
  intros [[e ->]|(x & e & -> & Hc)]; [reflexivity|]. simpl. now rewrite Hc.
Qed.

(** An assignment to another key leaves the key [k]. *)
Lemma other_assignment (k k' : string) (get : result value)
    (cast : value -> result value) (em em' : dict) :
  k' <> k ->
  try_except (y <- get ;; c <- cast y ;; Ok (dict_set k' c em)) (Ok em) = Ok em' ->
  dict_get k em' = dict_get k em.
Proof.
  intros Hne H. apply try_except_Ok in H. destruct H as [H|H].
  - bind_inv H. bind_inv H. injection H as <-.
    now rewrite dict_get_set_neq by congruence.
  - now injection H as <-.
Qed.

Lemma read_raises_item (raw : value) (p : list string) (k : string)
    (cast : value -> result value) (common : value) :
  try_except (py_getitems raw p) (Ok (VDict [])) = Ok common ->
  read_raises raw (p ++ [k]) cast ->
  (exists e, py_getitem common k = Raise e) \/
  (exists x e, py_getitem common k = Ok x /\ cast x = Raise e).
Proof.
  intros Hc Hr. apply (common_dict_item raw p common k) in Hc.
  destruct Hr as [Hr|(x & e & Hr & Hx)]; rewrite Hr in Hc; eauto.
Qed.

Lemma read_raises_path (raw : value) (p : list string)
    (cast : value -> result value) :
  read_raises raw p cast ->
  (exists e, py_getitems raw p = Raise e) \/
  (exists x e, py_getitems raw p = Ok x /\ cast x = Raise e).
Proof.
  intro Hr. pose proof (py_getitems_get_path raw p) as Hp.
  destruct Hr as [Hr|(x & e & Hr & Hx)]; rewrite Hr in Hp; eauto.
Qed.

(** A top-level key of [self.em] in the record. *)
Lemma record_top_key (em image : dict) (k : string) :
  NoDup (keys em) ->
  get_path (VDict (make_record (remove_empty em) image)) ["electron_microscopy"; k]
  = match dict_get k em with
    | Some v => if is_empty v then None else Some v
    | None => None
    end.
Proof.
  intro Hnd. rewrite <- dict_get_remove_empty by assumption.
  rewrite get_path_cons, make_record_get_em.
  destruct (remove_empty em) as [|kv em'] eqn:He; [reflexivity|].
  rewrite get_path_cons. now destruct (dict_get k (kv :: em')).
Qed.

Lemma py_float_not_empty (v r : value) : py_float v = Ok r -> is_empty r = false.
Proof. intro H. apply py_float_VFloat in H. now destruct H as [f ->]. Qed.

Lemma py_str_not_empty (v r : value) : py_str v = Ok r -> is_empty r = false.
Proof. intro H. apply py_str_VStr in H. now destruct H as [s ->]. Qed.

(** What [non_hs_data] leaves at [microscope]. *)
Lemma non_hs_data_microscope (raw_meta em em' : dict) :
  non_hs_data raw_meta em = Ok em' ->
  (forall x r, get_path (VDict raw_meta) session_microscope_path = Some x ->
               py_str x = Ok r -> dict_get "microscope" em' = Some r) /\
  (forall x r, read_raises (VDict raw_meta) session_microscope_path py_str ->
               get_path (VDict raw_meta) (micro_info_path ++ ["Name"]) = Some x ->
               py_str x = Ok r -> dict_get "microscope" em' = Some r) /\
  (read_raises (VDict raw_meta) session_microscope_path py_str ->
   read_raises (VDict raw_meta) (micro_info_path ++ ["Name"]) py_str ->
   dict_get "microscope" em' = dict_get "microscope" em).
Proof.
  intro H. unfold non_hs_data in H.
  bind_inv_as H micro_info Hmi. bind_inv_as H exp_desc Hed.
  bind_inv_as H em1 H1. bind_inv_as H em2 H2. bind_inv_as H em3 H3.
  assert (E2 : dict_get "microscope" em2 = dict_get "microscope" em).
  { rewrite (other_assignment "microscope" "operation_mode" _ _ _ _ ltac:(discriminate) H2).
    apply try_except_Ok in H1. destruct H1 as [H1|H1].
    - bind_inv H1. bind_inv H1. injection H1 as <-.
      now rewrite dict_get_set_neq by discriminate.
    - apply (other_assignment "microscope" "emission_current" _ _ _ _ ltac:(discriminate) H1). }
  rewrite (other_assignment "microscope" "spot_size" _ _ _ _ ltac:(discriminate) H).
  pose proof (py_getitems_get_path (VDict raw_meta) session_microscope_path) as Hs.
  pose proof (common_dict_item _ _ _ "Name" Hmi) as Hn.
  fold micro_info_path session_microscope_path in *.
  repeat split.
  - intros x r Hx Hr. rewrite Hx in Hs.
    rewrite (assignment_done _ _ _ _ _ x r Hs Hr) in H3. injection H3 as <-.
    apply dict_get_set_eq.
  - intros x r Hraise Hx Hr. apply read_raises_path in Hraise.
    rewrite (assignment_skipped _ _ _ _ _ Hraise) in H3.
    rewrite Hx in Hn.
    rewrite (assignment_done _ _ _ _ _ x r Hn Hr) in H3. injection H3 as <-.
    apply dict_get_set_eq.
  - intros Hraise Hraise'. apply read_raises_path in Hraise.
    rewrite (assignment_skipped _ _ _ _ _ Hraise) in H3.
    apply (read_raises_item _ _ _ _ _ Hmi) in Hraise'.
    rewrite (assignment_skipped _ _ _ _ _ Hraise') in H3.
    injection H3 as <-. exact E2.
Qed.

(** X13. The top-level [microscope] of the record is the string of the
    "Session Info" microscope tag when that tag can be read; otherwise the
    string of the "Name" tag of "Microscope Info"; and it is absent when
    neither can be read. *)
Theorem top_level_microscope_source (hs_data : dataset) (record : dict) :
  _parse_file hs_data = Ok record ->
  let raw := VDict (original_metadata hs_data) in
  let microscope :=
    get_path (VDict record) ["electron_microscopy"; "microscope"] in
  (forall x r, get_path raw session_microscope_path = Some x ->
               py_str x = Ok r -> microscope = Some r) /\
  (forall x r, read_raises raw session_microscope_path py_str ->
               get_path raw (micro_info_path ++ ["Name"]) = Some x ->
               py_str x = Ok r -> microscope = Some r) /\
  (read_raises raw session_microscope_path py_str ->
   read_raises raw (micro_info_path ++ ["Name"]) py_str ->
   microscope = None).
Proof.
  intros H raw microscope. subst raw microscope.
  destruct (_parse_file_stages_NoDup _ _ H)
    as (em1 & em2 & em3 & em4 & em5 & em6 & image
        & H1 & H2 & H3 & H4 & H5 & H6 & Hnd & ->).
  pose proof (non_hs_keys_unset _ _ _ _ _ _ H1 H2 H3 H4 H5 "microscope"
                ltac:(simpl; tauto)) as Hnone.
  destruct (non_hs_data_microscope _ _ _ H6) as (A & B & C).
  rewrite record_top_key by assumption.
  repeat split.
  - intros x r Hx Hr. rewrite (A x r Hx Hr). now rewrite (py_str_not_empty _ _ Hr).
  - intros x r Hs Hx Hr. rewrite (B x r Hs Hx Hr).
    now rewrite (py_str_not_empty _ _ Hr).
  - intros Hs Hn. now rewrite (C Hs Hn), Hnone.
Qed.

Lemma top_level_microscope_source_witness :
  exists record,
    _parse_file two_names_dataset = Ok record /\
    get_path (VDict (original_metadata two_names_dataset))
      (micro_info_path ++ ["Name"]) = Some (VStr "Titan") /\
    get_path (VDict (original_metadata two_names_dataset)) session_microscope_path
    = Some (VStr "Titan 80-300") /\
    get_path (VDict record) ["electron_microscopy"; "microscope"]
    = Some (VStr "Titan 80-300").
Proof.
  eexists. split; [reflexivity|]. split; [reflexivity|]. split; [reflexivity|].
  exact (proj1 (top_level_microscope_source two_names_dataset _ eq_refl)
           (VStr "Titan 80-300") _ eq_refl eq_refl).
Defined.

(** What [non_hs_data] leaves at [emission_current]. *)
Lemma non_hs_data_emission_current (raw_meta em em' : dict) :
  non_hs_data raw_meta em = Ok em' ->
  (forall x r, get_path (VDict raw_meta) (micro_info_path ++ [emission_current_key])
               = Some x ->
               py_float x = Ok r -> dict_get "emission_current" em' = Some r) /\
  (forall x r, read_raises (VDict raw_meta)
                 (micro_info_path ++ [emission_current_key]) py_float ->
               get_path (VDict raw_meta) (exp_desc_path ++ ["Emission_uA"]) = Some x ->
               py_float x = Ok r -> dict_get "emission_current" em' = Some r) /\
  (read_raises (VDict raw_meta)
     (micro_info_path ++ [emission_current_key]) py_float ->
   read_raises (VDict raw_meta) (exp_desc_path ++ ["Emission_uA"]) py_float ->
   dict_get "emission_current" em' = dict_get "emission_current" em).
Proof.
  intro H. unfold non_hs_data in H.
  bind_inv_as H micro_info Hmi. bind_inv_as H exp_desc Hed.
  bind_inv_as H em1 H1. bind_inv_as H em2 H2. bind_inv_as H em3 H3.
  assert (E : dict_get "emission_current" em' = dict_get "emission_current" em1).
  { rewrite (other_assignment "emission_current" "spot_size" _ _ _ _ ltac:(discriminate) H).
    rewrite <- (other_assignment "emission_current" "operation_mode" _ _ _ _ ltac:(discriminate) H2).
    apply try_except_Ok in H3. destruct H3 as [H3|H3].
    - bind_inv H3. bind_inv H3. injection H3 as <-.
      now rewrite dict_get_set_neq by discriminate.
    - apply (other_assignment "emission_current" "microscope" _ _ _ _ ltac:(discriminate) H3). }
  rewrite E.
  pose proof (common_dict_item _ _ _ emission_current_key Hmi) as Hm.
  pose proof (common_dict_item _ _ _ "Emission_uA" Hed) as He.
  fold micro_info_path exp_desc_path in *.
  repeat split.
  - intros x r Hx Hr. rewrite Hx in Hm.
    rewrite (assignment_done _ _ _ _ _ x r Hm Hr) in H1. injection H1 as <-.
    apply dict_get_set_eq.
  - intros x r Hraise Hx Hr. apply (read_raises_item _ _ _ _ _ Hmi) in Hraise.
    rewrite (assignment_skipped _ _ _ _ _ Hraise) in H1.
    rewrite Hx in He.
    rewrite (assignment_done _ _ _ _ _ x r He Hr) in H1. injection H1 as <-.
    apply dict_get_set_eq.
  - intros Hraise Hraise'. apply (read_raises_item _ _ _ _ _ Hmi) in Hraise.
    rewrite (assignment_skipped _ _ _ _ _ Hraise) in H1.
    apply (read_raises_item _ _ _ _ _ Hed) in Hraise'.
    rewrite (assignment_skipped _ _ _ _ _ Hraise') in H1.
    now injection H1 as <-.
Qed.

(** X14. The top-level [emission_current] of the record is the float of the
    emission current of "Microscope Info" when that can be read and cast;
    otherwise, also when the cast raises, the float of [Emission_uA] of the
    experimental description; and it is absent when neither can be read. *)
Theorem top_level_emission_current_source (hs_data : dataset) (record : dict) :
  _parse_file hs_data = Ok record ->
  let raw := VDict (original_metadata hs_data) in
  let emission_current :=
    get_path (VDict record) ["electron_microscopy"; "emission_current"] in
  (forall x r, get_path raw (micro_info_path ++ [emission_current_key]) = Some x ->
               py_float x = Ok r -> emission_current = Some r) /\
  (forall x r, read_raises raw (micro_info_path ++ [emission_current_key]) py_float ->
               get_path raw (exp_desc_path ++ ["Emission_uA"]) = Some x ->
               py_float x = Ok r -> emission_current = Some r) /\
  (read_raises raw (micro_info_path ++ [emission_current_key]) py_float ->
   read_raises raw (exp_desc_path ++ ["Emission_uA"]) py_float ->
   emission_current = None).
Proof.
  intros H raw emission_current. subst raw emission_current.
  destruct (_parse_file_stages_NoDup _ _ H)
    as (em1 & em2 & em3 & em4 & em5 & em6 & image
        & H1 & H2 & H3 & H4 & H5 & H6 & Hnd & ->).
  pose proof (non_hs_keys_unset _ _ _ _ _ _ H1 H2 H3 H4 H5 "emission_current"
                ltac:(simpl; tauto)) as Hnone.
  destruct (non_hs_data_emission_current _ _ _ H6) as (A & B & C).
  rewrite record_top_key by assumption.
  repeat split.
  - intros x r Hx Hr. rewrite (A x r Hx Hr). now rewrite (py_float_not_empty _ _ Hr).
  - intros x r Hs Hx Hr. rewrite (B x r Hs Hx Hr).
    now rewrite (py_float_not_empty _ _ Hr).
  - intros Hs Hn. now rewrite (C Hs Hn), Hnone.
Qed.

Lemma top_level_emission_current_source_witness :
  exists record,
    _parse_file two_emissions_dataset = Ok record /\
    read_raises (VDict (original_metadata two_emissions_dataset))
      (micro_info_path ++ [emission_current_key]) py_float /\
    get_path (VDict record) ["electron_microscopy"; "emission_current"]
    = Some (VFloat 12.5).
Proof.
  assert (Hr : read_raises (VDict (original_metadata two_emissions_dataset))
                 (micro_info_path ++ [emission_current_key]) py_float)
    by (right; exists (VStr "12,5"), ValueError; split; reflexivity).
  eexists. split; [reflexivity|]. split; [exact Hr|].
  exact (proj1 (proj2 (top_level_emission_current_source two_emissions_dataset _
                         eq_refl))
           (VFloat 12.5) _ Hr eq_refl eq_refl).
Defined.

(** *** The tags of a stack *)

Lemma get_val_app (v : value) (p q : list string) :
  get_val v (p ++ q) = get_val (get_val v p) q.
Proof.
  unfold get_val. rewrite get_path_app.
  destruct (get_path v p) as [x|]; [reflexivity|]. now destruct q.
Qed.

Lemma apply_rule_same (m1 m2 : MappingElements) (em : dict) :
  same_rule m1 m2 -> apply_rule em m1 = apply_rule em m2.
Proof.
  intros (Hv & Hd & Hc & Hu & Hf & Ho). unfold apply_rule.
  now rewrite Hv, Hd, Hc, Hu, Hf, Ho.
Qed.

Lemma map_dict_values_same (rules1 rules2 : list MappingElements) :
  Forall2 same_rule rules1 rules2 ->
  forall em, map_dict_values rules1 em = map_dict_values rules2 em.
Proof.
  induction 1 as [|m1 m2 rules1 rules2 Hm _ IH]; intro em; [reflexivity|].
  simpl. rewrite (apply_rule_same m1 m2 em Hm).
  destruct (apply_rule em m2); simpl; auto.
Qed.

Lemma stack_pre_path (raw_meta : dict) :
  is_none (get_val (VDict raw_meta) stack_path) = false ->
  __get_dm3_tag_pre_path raw_meta = source_tags_path /\
  is_none (get_val (VDict raw_meta) image_tags) = false.
Proof.
  intro H. unfold __get_dm3_tag_pre_path. fold stack_path. rewrite H.
  split; [reflexivity|].
  unfold stack_path in H. rewrite get_val_app in H.
  now destruct (get_val (VDict raw_meta) image_tags).
Qed.

Ltac same_rules Hread :=
  repeat (apply Forall2_app || apply Forall2_cons || apply Forall2_nil);
  (split; [cbn [source_dict source_path]; rewrite <- ?app_assoc; apply Hread
          |repeat split; reflexivity]).

Section Stack.

Variables raw1 raw2 : dict.
Hypothesis Hread : forall q,
  get_val (VDict raw1) (source_tags_path ++ q)
  = get_val (VDict raw2) (source_tags_path ++ q).
Hypothesis Hpre1 : __get_dm3_tag_pre_path raw1 = source_tags_path.
Hypothesis Hpre2 : __get_dm3_tag_pre_path raw2 = source_tags_path.

Lemma dm3_general_rules_same (voltage : value) :
  Forall2 same_rule (dm3_general_rules raw1 voltage)
    (dm3_general_rules raw2 voltage).
Proof.
  unfold dm3_general_rules. rewrite Hpre1, Hpre2.
  unfold dm3_microscope_rules, dm3_voltage_rules, dm3_session_rules,
    dm3_meta_data_rules, dm3_misc_rules.
  destruct (is_none voltage); same_rules Hread.
Qed.

Lemma dm3_eels_rules_same :
  Forall2 same_rule (dm3_eels_rules raw1) (dm3_eels_rules raw2).
Proof.
  unfold dm3_eels_rules. rewrite Hpre1, Hpre2. cbv zeta. rewrite Hread.
  destruct (is_none _); same_rules Hread.
Qed.

Lemma dm3_eds_rules_same :
  Forall2 same_rule (dm3_eds_rules raw1) (dm3_eds_rules raw2).
Proof.
  unfold dm3_eds_rules. rewrite Hpre1, Hpre2. same_rules Hread.
Qed.

End Stack.

(** X15. In a stack (the "plane info" tag is there), the three
    DigitalMicrograph stages read the original metadata below
    [plane info.TagGroup0.source tags] only: two stacks with the same source
    tags give the same fields, whatever else their tags hold. *)
Theorem stack_reads_source_tags_only (raw1 raw2 em : dict) :
  is_none (get_val (VDict raw1) stack_path) = false ->
  is_none (get_val (VDict raw2) stack_path) = false ->
  get_val (VDict raw1) source_tags_path = get_val (VDict raw2) source_tags_path ->
  _dm3_general_info raw1 em = _dm3_general_info raw2 em /\
  _dm3_eels_info raw1 em = _dm3_eels_info raw2 em /\
  _dm3_eds_info raw1 em = _dm3_eds_info raw2 em.
Proof.
  intros H1 H2 Hsrc.
  destruct (stack_pre_path raw1 H1) as [Hp1 Ht1].
  destruct (stack_pre_path raw2 H2) as [Hp2 Ht2].
  assert (Hread : forall q,
             get_val (VDict raw1) (source_tags_path ++ q)
             = get_val (VDict raw2) (source_tags_path ++ q))
    by (intro q; now rewrite !get_val_app, Hsrc).
  repeat split.
  - unfold _dm3_general_info, get_val_cast. rewrite Hp1, Hp2, Ht1, Ht2.
    rewrite <- !app_assoc, Hread.
    destruct (match get_val (VDict raw2) _ with VNone => _ | _ => _ end)
      as [voltage| |]; try reflexivity.
    cbn [bind].
    apply map_dict_values_same, dm3_general_rules_same; assumption.
  - apply map_dict_values_same, dm3_eels_rules_same; assumption.
  - apply map_dict_values_same, dm3_eds_rules_same; assumption.
Qed.

Lemma stack_reads_source_tags_only_witness :
  _dm3_general_info (stack_metadata []) []
  = _dm3_general_info
      (stack_metadata
         [("Microscope Info", VDict [("Indicated Magnification", VFloat 10)])]) [] /\
  _dm3_eels_info (stack_metadata []) []
  = _dm3_eels_info
      (stack_metadata
         [("Microscope Info", VDict [("Indicated Magnification", VFloat 10)])]) [] /\
  _dm3_eds_info (stack_metadata []) []
  = _dm3_eds_info
      (stack_metadata
         [("Microscope Info", VDict [("Indicated Magnification", VFloat 10)])]) [].
Proof.
  exact (stack_reads_source_tags_only (stack_metadata [])
           (stack_metadata
              [("Microscope Info", VDict [("Indicated Magnification", VFloat 10)])])
           [] eq_refl eq_refl eq_refl).
Defined.

(** *** The aperture label *)

Lemma dm3_eels_rules_split (raw_meta : dict) :
  dm3_eels_rules raw_meta =
  firstn 5 (dm3_eels_rules raw_meta)
  ++ [dm3_aperture_rule raw_meta]
  ++ skipn 6 (dm3_eels_rules raw_meta).
Proof. reflexivity. Qed.

Lemma aperture_label_not_a_string (v : value) :
  is_string v = false -> v = VNone \/ aperture_label v = Raise AttributeError.
Proof. destruct v; simpl; intro H; try discriminate; auto. Qed.

(** X16. The aperture label is cast with [float(s.replace(' mm', ''))]: a
    label that is not a string (a number has no [replace]) is skipped, and
    [_dm3_eels_info] leaves [EELS.aperture_size] as it was. *)
Theorem aperture_label_not_a_string_is_skipped (raw_meta em em' : dict) :
  _dm3_eels_info raw_meta em = Ok em' ->
  is_string (get_val (VDict raw_meta)
               (eels_spect_path raw_meta ++ ["Aperture label"])) = false ->
  get_path (VDict em') aperture_size_path = get_path (VDict em) aperture_size_path.
Proof.
  intros H Hlabel. unfold _dm3_eels_info in H.
  rewrite dm3_eels_rules_split in H.
  rewrite map_dict_values_app in H. bind_inv_as H d0 Hd0.
  rewrite map_dict_values_app in H. bind_inv_as H d1 Hd1.
  set (P := fun d : dict =>
         get_path (VDict d) aperture_size_path = get_path (VDict em) aperture_size_path).
  assert (P0 : P d0).
  { refine (map_dict_values_preserved P (firstn 5 dm3_eels_dests) _ _ _ _ _ Hd0
              eq_refl);
      [now apply frame_preserved|intros p Hp; exact Hp]. }
  assert (P1 : P d1).
  { cbn [map_dict_values] in Hd1. bind_inv_as Hd1 d1' Hd1'.
    injection Hd1 as <-.
    destruct (aperture_label_not_a_string _ Hlabel) as [Hv|Hv].
    - rewrite apply_rule_not_found in Hd1' by exact Hv. now injection Hd1' as <-.
    - rewrite (apply_rule_cast_fails d0 (dm3_aperture_rule raw_meta) AttributeError)
        in Hd1' by exact Hv.
      now injection Hd1' as <-. }
  refine (map_dict_values_preserved P (skipn 6 dm3_eels_dests) _ _ _ _ _ H P1);
    [now apply frame_preserved|].
  unfold dm3_eels_rules. destruct (is_none _); intros p Hp; exact Hp.
Qed.

Lemma aperture_label_not_a_string_is_skipped_witness :
  exists em',
    _dm3_eels_info (aperture_metadata (VFloat 2.5))
      (initial_em (aperture_metadata (VFloat 2.5))) = Ok em' /\
    get_path (VDict em') aperture_size_path
    = get_path (VDict (initial_em (aperture_metadata (VFloat 2.5))))
        aperture_size_path.
Proof.
  eexists. split; [reflexivity|].
  exact (aperture_label_not_a_string_is_skipped (aperture_metadata (VFloat 2.5))
           _ _ eq_refl eq_refl).
Defined.
